(** * Teaching-preferences template generator: the slot pipeline

    A shallow embedding of [templateGenerator.ts]: the time formatter
    ([convertTo12HourFormat], [parseHour]), the schedule aggregator
    ([processClassSchedules]), the slot orderer ([orderCombinations]), the
    grid sizer ([maxValues]), the header arrays and the footer timetable
    of [updateWorksheet] and the validation sequence of [main].  The two
    versions of the script in the repository agree on every part modelled
    here.  The host is taken to carry out every call made on it. *)

From Stdlib Require Import ZArith List String Ascii Bool Lia Permutation Sorted.
From Stdlib Require Import Numbers.DecimalString.
Import ListNotations.

Local Open Scope Z_scope.

(** ** The fragment of the JavaScript runtime the script relies on *)

Module JS.

(** JavaScript numbers, restricted to the values the script can meet:
    integer-valued doubles, [NaN] and the two infinities.  Integers are
    exact up to 2^53 in the host and unbounded here; negative zero is
    identified with zero (both are falsy and both print as "0"). *)
Inductive number : Type :=
| Int (z : Z)
| NaN
| PosInf
| NegInf.

Inductive error : Type :=
| TypeError (msg : string)
| Error (msg : string).

(** How a call ends: it returns a value, it throws, or it never returns
    (a loop without end). *)
Inductive result (A : Type) : Type :=
| Ok (a : A)
| Throw (e : error)
| NoReturn.

Arguments Ok {A} a.
Arguments Throw {A} e.
Arguments NoReturn {A}.

Definition bind {A B : Type} (r : result A) (k : A -> result B) : result B :=
  match r with
  | Ok a => k a
  | Throw e => Throw e
  | NoReturn => NoReturn
  end.

(** *** Strings *)

(** [s.split(sep)] for a one-character separator: never empty, and two
    adjacent separators delimit an empty token. *)
Fixpoint split (sep : ascii) (s : string) : list string :=
  match s with
  | EmptyString => [EmptyString]
  | String c s' =>
      if Ascii.eqb c sep then EmptyString :: split sep s'
      else match split sep s' with
           | [] => [String c EmptyString]
           | t :: ts => String c t :: ts
           end
  end.

(** [s.slice(0, -n)] *)
Definition slice_drop_last (n : nat) (s : string) : string :=
  substring 0 (String.length s - n) s.

(** [s.endsWith(suffix)] *)
Definition endsWith (s suffix : string) : bool :=
  String.eqb
    (substring (String.length s - String.length suffix) (String.length suffix) s)
    suffix.

Definition is_whitespace (c : ascii) : bool :=
  let n := nat_of_ascii c in
  Nat.eqb n 32 || (Nat.leb 9 n && Nat.leb n 13).

Fixpoint trimStart (s : string) : string :=
  match s with
  | EmptyString => EmptyString
  | String c s' => if is_whitespace c then trimStart s' else s
  end.

Fixpoint trimEnd (s : string) : string :=
  match s with
  | EmptyString => EmptyString
  | String c s' =>
      let r := trimEnd s' in
      if is_whitespace c && String.eqb r EmptyString then EmptyString
      else String c r
  end.

Definition trim (s : string) : string := trimEnd (trimStart s).

(** *** [Number(string)]

    The string-to-number conversion on integer literals: surrounding
    white space is dropped, the empty string is 0, a decimal literal may
    carry a sign, [0x], [0o] and [0b] literals may not, and [Infinity] is
    recognised.  Literals with a decimal point or an exponent denote doubles
    outside [number]; they are sent to [NaN] here, like every string that
    is no numeric literal at all. *)

Definition digit_val (radix : Z) (c : ascii) : option Z :=
  let n := Z.of_nat (nat_of_ascii c) in
  let d :=
    if (48 <=? n) && (n <=? 57) then n - 48
    else if (97 <=? n) && (n <=? 122) then n - 87
    else if (65 <=? n) && (n <=? 90) then n - 55
    else radix in
  if d <? radix then Some d else None.

Fixpoint digits_val (radix acc : Z) (s : string) : option Z :=
  match s with
  | EmptyString => Some acc
  | String c s' =>
      match digit_val radix c with
      | Some d => digits_val radix (acc * radix + d) s'
      | None => None
      end
  end.

Definition parse_digits (radix : Z) (s : string) : number :=
  match s with
  | EmptyString => NaN
  | _ => match digits_val radix 0 s with
         | Some z => Int z
         | None => NaN
         end
  end.

Definition strip_prefix (p s : string) : option string :=
  if String.prefix p s
  then Some (substring (String.length p) (String.length s - String.length p) s)
  else None.

Definition parse_nondecimal (t : string) : option number :=
  let try (p : string) (radix : Z) (k : option number) :=
    match strip_prefix p t with
    | Some ds => Some (parse_digits radix ds)
    | None => k
    end in
  try "0x"%string 16 (try "0X"%string 16
    (try "0o"%string 8 (try "0O"%string 8
      (try "0b"%string 2 (try "0B"%string 2 None))))).

Definition parse_unsigned_decimal (t : string) : number :=
  if String.eqb t "Infinity" then PosInf else parse_digits 10 t.

Definition negate (n : number) : number :=
  match n with
  | Int z => Int (- z)
  | NaN => NaN
  | PosInf => NegInf
  | NegInf => PosInf
  end.

Definition Number (s : string) : number :=
  let t := trim s in
  if String.eqb t EmptyString then Int 0
  else match parse_nondecimal t with
       | Some n => n
       | None =>
           match strip_prefix "+" t with
           | Some u => parse_unsigned_decimal u
           | None =>
               match strip_prefix "-" t with
               | Some u => negate (parse_unsigned_decimal u)
               | None => parse_unsigned_decimal t
               end
           end
       end.

(** Number-to-string conversion, as a template literal performs it. *)
Definition number_to_string (n : number) : string :=
  match n with
  | Int z => NilZero.string_of_int (Z.to_int z)
  | NaN => "NaN"
  | PosInf => "Infinity"
  | NegInf => "-Infinity"
  end.

(** *** Arithmetic and comparison on numbers *)

Definition add (a b : number) : number :=
  match a, b with
  | NaN, _ | _, NaN => NaN
  | Int x, Int y => Int (x + y)
  | PosInf, NegInf | NegInf, PosInf => NaN
  | PosInf, _ | _, PosInf => PosInf
  | NegInf, _ | _, NegInf => NegInf
  end.

Definition sub (a b : number) : number := add a (negate b).

(** [a % m] for a finite non-zero integer [m]: the sign follows the
    dividend; a non-finite dividend gives [NaN]. *)
Definition rem (a : number) (m : Z) : number :=
  match a with
  | Int z => Int (Z.rem z m)
  | _ => NaN
  end.

(** [a >= b] *)
Definition ge (a b : number) : bool :=
  match a, b with
  | NaN, _ | _, NaN => false
  | Int x, Int y => y <=? x
  | PosInf, _ => true
  | _, NegInf => true
  | _, _ => false
  end.

(** [a === b] on numbers *)
Definition strict_eq (a b : number) : bool :=
  match a, b with
  | Int x, Int y => x =? y
  | PosInf, PosInf | NegInf, NegInf => true
  | _, _ => false
  end.

(** ToBoolean on numbers: zero and [NaN] are falsy. *)
Definition truthy (n : number) : bool :=
  match n with
  | Int z => negb (z =? 0)
  | NaN => false
  | _ => true
  end.

(** [a || b] on numbers *)
Definition or_else (a b : number) : number := if truthy a then a else b.

(** [Math.max(...args)]: negative infinity without arguments, [NaN] as
    soon as one argument is [NaN]. *)
Definition max2 (a b : number) : number :=
  match a, b with
  | NaN, _ | _, NaN => NaN
  | _, _ => if ge a b then a else b
  end.

Definition Math_max (args : list number) : number :=
  fold_left max2 args NegInf.

(** *** Arrays *)

(** [arr.indexOf(x)] on an array of strings *)
Fixpoint indexOf_from (i : Z) (arr : list string) (x : string) : Z :=
  match arr with
  | [] => -1
  | y :: arr' => if String.eqb y x then i else indexOf_from (i + 1) arr' x
  end.

Definition indexOf (arr : list string) (x : string) : Z := indexOf_from 0 arr x.

(** [arr.sort(comparefn)], as V8 runs it (TimSort, array-sort.tq).  The
    comparator's value is read through [order < 0] alone, NaN counting as
    0, and a comparator that throws aborts the sort.  An array of fewer
    than two elements is returned as it is.  Otherwise [countAndMakeRun]
    finds the run the array begins with: the longest stretch in which no
    element compares below the one before it, or the longest stretch in
    which each element compares below the one before it, which is then
    reversed in place.  [binaryInsertionSort] puts the remaining elements,
    one after the other, into the run: a binary search finds the place of
    the element, behind the elements it does not compare below.

    For fewer than 64 elements this is the whole of the engine's sort.
    From 64 elements on the engine cuts the array into runs of 32 to 64
    elements, sorts each of them in this way and merges them; for a
    comparator that is a consistent order the result is the same stable
    order, so the model stands for the engine there as well, and the
    statements about other comparators are made for fewer than 64
    elements. *)
Definition negative (order : number) : bool :=
  match order with
  | Int z => z <? 0
  | NegInf => true
  | _ => false
  end.

Section Sort.
Context {A : Type} (comparefn : A -> A -> result number).

(** The loop of [CountAndMakeRun], from [currentElement] on: the run goes
    on while the order of an element against the previous one is below 0
    (descending run) or is not (ascending run). *)
Fixpoint countRun (isDescending : bool) (previousElement : A) (rest : list A)
    (runLength : nat) : result nat :=
  match rest with
  | [] => Ok runLength
  | currentElement :: rest' =>
      bind (comparefn currentElement previousElement) (fun order =>
        if Bool.eqb (negative order) isDescending
        then countRun isDescending currentElement rest' (S runLength)
        else Ok runLength)
  end.

(** [ReverseRange(workArray, 0, n)] *)
Definition reverseRange (arr : list A) (n : nat) : list A :=
  (rev (firstn n arr) ++ skipn n arr)%list.

(** The length of the run at the start of the array, and the array with
    that run in ascending order. *)
Definition countAndMakeRun (arr : list A) : result (nat * list A) :=
  match arr with
  | elementHigh :: elementLow :: rest =>
      bind (comparefn elementLow elementHigh) (fun order =>
        let isDescending := negative order in
        bind (countRun isDescending elementLow rest 2) (fun runLength =>
          Ok (runLength,
              if isDescending then reverseRange arr runLength else arr)))
  | _ => Ok (1%nat, arr)
  end.

(** The binary search of [BinaryInsertionSort] for the place of [pivot] in
    [sorted], between [left] and [right].  The distance between the two
    shrinks at each turn, so [fuel], which starts as the length of
    [sorted], never runs out. *)
Fixpoint insertionPoint (fuel : nat) (pivot : A) (sorted : list A)
    (left right : nat) : result nat :=
  if (left <? right)%nat then
    match fuel with
    | O => Ok left
    | S fuel' =>
        let mid := (left + (right - left) / 2)%nat in
        match nth_error sorted mid with
        | None => Ok left
        | Some x =>
            bind (comparefn pivot x) (fun order =>
              if negative order
              then insertionPoint fuel' pivot sorted left mid
              else insertionPoint fuel' pivot sorted (mid + 1) right)
        end
    end
  else Ok left.

(** [BinaryInsertionSort(0, start, high)]: [sorted] is the array up to
    [start], [rest] the array from [start] on. *)
Fixpoint binaryInsertionSort (sorted rest : list A) : result (list A) :=
  match rest with
  | [] => Ok sorted
  | pivot :: rest' =>
      bind (insertionPoint (List.length sorted) pivot sorted 0 (List.length sorted))
        (fun left =>
           binaryInsertionSort (firstn left sorted ++ pivot :: skipn left sorted)
                               rest')
  end.

Definition sort (arr : list A) : result (list A) :=
  if (List.length arr <? 2)%nat then Ok arr
  else bind (countAndMakeRun arr) (fun run =>
         binaryInsertionSort (firstn (fst run) (snd run))
                             (skipn (fst run) (snd run))).
End Sort.

(** *** Objects used as string-keyed maps

    An object is the list of its own properties in creation order, one entry
    per key.  Enumeration ([Object.keys], [Object.values],
    [Object.entries], for-in) lists the keys that are array indices first,
    in ascending numeric order, and then the other keys in creation order.
    The properties inherited from [Object.prototype] are left out: the
    script reads and writes under keys that contain a space, or under the
    own keys of an object, and no inherited name contains a space. *)

Definition obj (V : Type) : Type := list (string * V).

Section Obj.
Context {V : Type}.

Fixpoint get (o : obj V) (k : string) : option V :=
  match o with
  | [] => None
  | (k', v) :: o' => if String.eqb k' k then Some v else get o' k
  end.

(** [o[k] = v]: overwrite in place, or create the property last.  (An
    assignment to the name [__proto__] would set the prototype instead;
    see [plainObject].) *)
Fixpoint set (o : obj V) (k : string) (v : V) : obj V :=
  match o with
  | [] => [(k, v)]
  | (k', v') :: o' =>
      if String.eqb k' k then (k', v) :: o' else (k', v') :: set o' k v
  end.

(** A canonical array index: decimal digits without a leading zero
    (except "0" itself), below 2^32 - 1. *)
Definition array_index (k : string) : option Z :=
  match k with
  | EmptyString => None
  | String c rest =>
      if Ascii.eqb c "0" && negb (String.eqb rest EmptyString) then None
      else match digits_val 10 0 k with
           | Some z => if z <? 4294967295 then Some z else None
           | None => None
           end
  end.

Definition is_index (k : string) : bool :=
  match array_index k with Some _ => true | None => false end.

Definition index_of_key (k : string) : Z :=
  match array_index k with Some z => z | None => -1 end.

Fixpoint insert_index (e : string * V) (es : list (string * V))
  : list (string * V) :=
  match es with
  | [] => [e]
  | e' :: es' =>
      if index_of_key (fst e') <? index_of_key (fst e)
      then e' :: insert_index e es'
      else e :: es
  end.

Definition sort_indices (es : list (string * V)) : list (string * V) :=
  fold_right insert_index [] es.

Definition Object_entries (o : obj V) : list (string * V) :=
  (sort_indices (filter (fun e => is_index (fst e)) o)
   ++ filter (fun e => negb (is_index (fst e))) o)%list.

Definition Object_keys (o : obj V) : list string := map fst (Object_entries o).

Definition Object_values (o : obj V) : list V := map snd (Object_entries o).
End Obj.

End JS.

Import JS.

Local Open Scope string_scope.

(** ** The host workbook, as far as the script observes it *)

(** A range the script asks the host for in the footer, by the text of its
    address [`${col}${rows[i]}:${col}${rows[i] + 1}`]: a column, by its
    character code ([String.fromCharCode]), and a pair of rows; or, when
    [rows[i]] is [undefined], the text [`${col}undefined:${col}NaN`]. *)
Inductive CellRange : Type :=
| mkCellRange (rangeCol firstRow lastRow : Z)
| undefinedRows (rangeCol : Z).

(** What [createTimetable] lays out: the slot keys written on row 35, the
    first rows of the pairs allotted to each teaching mode, from row 36 on,
    and the ranges blanked. *)
Record Footer : Type := mkFooter {
  slotRow : list string;
  inPersonRows : list Z;
  onlineRows : list Z;
  cleared : list CellRange
}.

(** What [updateWorksheet] hands to the rendering calls: the three header
    rows written by [setValues([classes, types, counts])], the two maxima
    that size the footer grid, and the footer.  Fills, borders, merges and
    validation rules carry no data and are left out. *)
Record Layout : Type := mkLayout {
  classes : list string;
  types : list string;
  counts : list Z;
  maxInPerson : number;
  maxOnline : number;
  footer : Footer
}.

(** A worksheet: the text of each cell ([getValues] followed by
    [toString]), by column letter and row number, what the generator wrote
    on it, and the number of frozen rows. *)
Record Worksheet : Type := mkWorksheet {
  cell : string -> nat -> string;
  written : option Layout;
  frozenRows : option nat
}.

Definition emptyWorksheet : Worksheet :=
  {| cell := fun _ _ => ""; written := None; frozenRows := None |}.

(** A workbook: its worksheets by name, in tab order. *)
Definition Workbook : Type := list (string * Worksheet).

Definition getWorksheet (workbook : Workbook) (name : string) : option Worksheet :=
  get workbook name.

Definition addWorksheet (workbook : Workbook) (name : string) : Workbook :=
  (workbook ++ [(name, emptyWorksheet)])%list.

(** [sheet.getRange(`${col}${startRow}:${col}${endRow}`).getValues()
      .map(row => row[0].toString())]: the cells of one column, top-down;
    the host normalises a range written bottom-up. *)
Definition getColumnValues (sheet : Worksheet) (col : string) (startRow endRow : nat)
  : list string :=
  map (cell sheet col)
      (seq (Nat.min startRow endRow) (S (Nat.max startRow endRow - Nat.min startRow endRow))).

(** ** The script *)

(** The value type of [Combinations].  The aggregator only ever stores
    counts reached from 0 by adding 1, so the fields are integers. *)
Record Counts : Type := mkCounts {
  in_person : Z;
  online : Z
}.

Definition Combinations : Type := obj Counts.

(** [const [hours] = time24.split(':').map(arg => Number(arg))] *)
Definition hoursOf (time24 : string) : number :=
  hd NaN (map Number (split ":" time24)).

Definition convertTo12HourFormat (time24 : string) : string :=
  let hours := hoursOf time24 in
  number_to_string (or_else (rem hours 12) (Int 12))
  ++ (if ge hours (Int 12) then "pm" else "am").

Definition parseHour (time : string) : number :=
  let hourStr := slice_drop_last 2 time in
  let hour := Number hourStr in
  if (endsWith time "pm" && negb (strict_eq hour (Int 12)))
     || (endsWith time "am" && strict_eq hour (Int 12))
  then rem (add hour (Int 12)) 24
  else hour.

(** The key of one row: [day], [begin] and [end] are tokens 0, 1 and 3 of
    [classTimes[i].split(' ')].  A missing token is [undefined], and
    [convertTo12HourFormat(undefined)] throws on [time24.split]. *)
Definition slotKey (classTime : string) : result string :=
  let tokens := split " " classTime in
  let day := hd "" tokens in
  match nth_error tokens 1, nth_error tokens 3 with
  | Some begin, Some end_ =>
      Ok (day ++ " " ++ convertTo12HourFormat begin
              ++ " - " ++ convertTo12HourFormat end_)
  | _, _ => Throw (TypeError "Cannot read properties of undefined (reading 'split')")
  end.

Definition zeroCounts : Counts := {| in_person := 0; online := 0 |}.

(** [classLocations[i] === 'Online (ONLINE)'], where [classLocations[i]] is
    [undefined] past the end of the array. *)
Definition isOnline (location : option string) : bool :=
  match location with
  | Some l => String.eqb l "Online (ONLINE)"
  | None => false
  end.

(** One turn of the loop of [processClassSchedules]. *)
Definition countRow (combinations : Combinations) (classTime : string)
    (location : option string) : result Combinations :=
  bind (slotKey classTime) (fun key =>
    let c := match get combinations key with
             | Some c => c
             | None => zeroCounts
             end in
    Ok (set combinations key
          {| in_person := if isOnline location then in_person c else in_person c + 1;
             online := if isOnline location then online c + 1 else online c |})).

(** [for (let i = 0; i < classTimes.length; i++) ...], from index [i] on. *)
Fixpoint countRows (i : nat) (classTimes classLocations : list string)
    (combinations : Combinations) : result Combinations :=
  match classTimes with
  | [] => Ok combinations
  | classTime :: rest =>
      bind (countRow combinations classTime (nth_error classLocations i))
           (countRows (S i) rest classLocations)
  end.

(** The loop on the two arrays, starting from the empty object. *)
Definition aggregate (classTimes classLocations : list string) : result Combinations :=
  countRows 0 classTimes classLocations [].

Definition processClassSchedules (timetable : Worksheet) (startRow endRow : nat)
    (classTimesCol classLocationsCol : string) : result Combinations :=
  let classTimes := getColumnValues timetable classTimesCol startRow endRow in
  let classLocations := getColumnValues timetable classLocationsCol startRow endRow in
  aggregate classTimes classLocations.

Definition weekdaysOrder : list string := ["Mon"; "Tue"; "Wed"; "Thu"; "Fri"].

(** [const [day, time] = key.split(' ')]: the first token is always there,
    the second is [undefined] for a key without a space. *)
Definition dayToken (key : string) : string := hd "" (split " " key).

Definition timeToken (key : string) : option string := nth_error (split " " key) 1.

(** The comparator handed to [sort] in [orderCombinations];
    [parseHour(undefined)] throws on [time.slice]. *)
Definition compareKeys (a b : string) : result number :=
  let dayA := dayToken a in
  let timeA := timeToken a in
  let dayB := dayToken b in
  let timeB := timeToken b in
  if negb (String.eqb dayA dayB)
  then Ok (sub (Int (indexOf weekdaysOrder dayA)) (Int (indexOf weekdaysOrder dayB)))
  else match timeA, timeB with
       | Some timeA, Some timeB => Ok (sub (parseHour timeA) (parseHour timeB))
       | _, _ => Throw (TypeError "Cannot read properties of undefined (reading 'slice')")
       end.

(** [orderedCombinations[key] = combinations[key]]; the key comes from
    [Object.keys(combinations)], so the lookup cannot miss. *)
Definition copyEntry (combinations orderedCombinations : Combinations) (key : string)
  : Combinations :=
  match get combinations key with
  | Some v => set orderedCombinations key v
  | None => orderedCombinations
  end.

Definition orderCombinations (combinations : Combinations) : result Combinations :=
  bind (sort compareKeys (Object_keys combinations)) (fun keys =>
    Ok (fold_left (copyEntry combinations) keys [])).

Definition maxValues (schedule : Combinations) : number * number :=
  let inPersonValues := map (fun slot => Int (in_person slot)) (Object_values schedule) in
  let onlineValues := map (fun slot => Int (online slot)) (Object_values schedule) in
  (Math_max inPersonValues, Math_max onlineValues).

(** The three arrays of [updateWorksheet], after one entry of the loop over
    [Object.entries(schedule)]. *)
Definition pushEntry (arrays : list string * list string * list Z)
    (entry : string * Counts) : list string * list string * list Z :=
  let '(key, value) := entry in
  let arrays1 :=
    let '(cs, ts, ns) := arrays in
    if truthy (Int (in_person value))
    then (cs ++ [key], ts ++ ["In-person"], ns ++ [in_person value])%list
    else arrays in
  let '(cs, ts, ns) := arrays1 in
  if truthy (Int (online value))
  then (cs ++ [key], ts ++ ["Online"], ns ++ [online value])%list
  else arrays1.

Definition headerArrays (schedule : Combinations)
  : list string * list string * list Z :=
  fold_left pushEntry (Object_entries schedule) ([], [], []).

(** *** The footer timetable

    [createTimetable] (named [createSheetFooter] in the earlier version of
    the script) lays out, below the preference grid, one pair of rows per
    class a slot can hold, and blanks the cells a slot fills.  The host
    hands out every range it is asked for; what the script asks for is
    kept as data. *)

(** [s.toLocaleLowerCase()] on ASCII letters, in a locale without special
    casing. *)
Definition lower_ascii (c : ascii) : ascii :=
  let n := nat_of_ascii c in
  if Nat.leb 65 n && Nat.leb n 90 then ascii_of_nat (n + 32) else c.

Fixpoint toLocaleLowerCase (s : string) : string :=
  match s with
  | EmptyString => EmptyString
  | String c s' => String (lower_ascii c) (toLocaleLowerCase s')
  end.

(** The number of turns of [for (let i = 0; i < max; i++)]; [None] when the
    loop has no end. *)
Definition loopBound (max : number) : option nat :=
  match max with
  | Int z => Some (Z.to_nat z)
  | NaN | NegInf => Some 0%nat
  | PosInf => None
  end.

(** [n] turns of [rows.push(currRow); createTimetableRows(...); currRow += 2]:
    the rows pushed and the row reached. *)
Fixpoint pushRows (n : nat) (currRow : Z) : list Z * Z :=
  match n with
  | O => ([], currRow)
  | S n' => let '(rows, reached) := pushRows n' (currRow + 2) in
            (currRow :: rows, reached)
  end.

(** [clearCellContents] ([setCellEmpty] in the earlier version), from turn
    [i] on, [rest] being [rows] from index [i]: the ranges set to the empty
    string, or [None] when the loop [for (let i = 0; i != teachingModeCount;
    i++)] has no end.  Past the end of [rows], [rows[i]] is [undefined] and
    the script asks for the range [`${col}undefined:${col}NaN`], turn after
    turn, until [i] meets the count.  The index goes up by one from 0, so
    it meets a count above it after that many turns, and a count below it
    never. *)
Fixpoint clearCellContents_from (col teachingModeCount i : Z) (rest : list Z)
  : option (list CellRange) :=
  if (i =? teachingModeCount)%Z then Some []
  else match rest with
       | [] =>
           if (i <? teachingModeCount)%Z
           then Some (repeat (undefinedRows col) (Z.to_nat (teachingModeCount - i)))
           else None
       | row :: rest' =>
           option_map
             (cons (mkCellRange col row (row + 1)))
             (clearCellContents_from col teachingModeCount (i + 1) rest')
       end.

Definition clearCellContents (col teachingModeCount : Z) (rows : list Z)
  : option (list CellRange) :=
  clearCellContents_from col teachingModeCount 0 rows.

(** One turn of the last loop of [createTimetable], for the class at index
    [i], whose column is [67 + i].  [None] stands for a turn that hands
    nothing on: the loop of [clearCellContents] has no end, or [types[i]]
    is missing (then [toLocaleLowerCase] throws; [updateWorksheet] passes
    arrays of one length, so that does not happen there). *)
Definition clearColumn (types : list string) (counts : list Z)
    (rowsInPerson rowsOnline : list Z) (i : nat) : option (list CellRange) :=
  match nth_error types i with
  | None => None
  | Some type =>
      match nth_error counts i with
      | None => None
      | Some count =>
          if String.eqb (toLocaleLowerCase type) "in-person"
          then clearCellContents (67 + Z.of_nat i) count rowsInPerson
          else clearCellContents (67 + Z.of_nat i) count rowsOnline
      end
  end.

Fixpoint clearColumns (types : list string) (counts : list Z)
    (rowsInPerson rowsOnline : list Z) (indices : list nat)
  : option (list CellRange) :=
  match indices with
  | [] => Some []
  | i :: indices' =>
      match clearColumn types counts rowsInPerson rowsOnline i with
      | None => None
      | Some ranges =>
          option_map (app ranges)
            (clearColumns types counts rowsInPerson rowsOnline indices')
      end
  end.

(** The footer, or [None] when one of the loops has no end (or a turn of
    the last loop hands nothing on). *)
Definition createTimetable (schedule : Combinations) (classes types : list string)
    (counts : list Z) : option Footer :=
  let '(maxIn, maxOn) := maxValues schedule in
  match loopBound maxIn, loopBound maxOn with
  | Some nIn, Some nOn =>
      let '(rowsIn, currRow) := pushRows nIn 36 in
      let '(rowsOn, _) := pushRows nOn currRow in
      option_map
        (fun ranges => {| slotRow := classes; inPersonRows := rowsIn;
                          onlineRows := rowsOn; cleared := ranges |})
        (clearColumns types counts rowsIn rowsOn (seq 0 (List.length classes)))
  | _, _ => None
  end.

(** *** The destination worksheet *)

(** [updateWorksheet]: the header arrays, the length test, and the
    rendering calls, of which [createTimetable] is the one with loops that
    may have no end; then the call does not return. *)
Definition updateWorksheet (sheet : Worksheet) (schedule : Combinations)
  : result Worksheet :=
  let '(cs, ts, ns) := headerArrays schedule in
  if negb (Nat.eqb (List.length cs) (List.length ts))
     || negb (Nat.eqb (List.length cs) (List.length ns))
     || negb (Nat.eqb (List.length ts) (List.length ns))
  then Throw (Error "Something went wrong!")
  else
    match createTimetable schedule cs ts ns with
    | None => NoReturn
    | Some timetable =>
        let '(maxIn, maxOn) := maxValues schedule in
        Ok {| cell := cell sheet;
              written := Some {| classes := cs; types := ts; counts := ns;
                                 maxInPerson := maxIn; maxOnline := maxOn;
                                 footer := timetable |};
              frozenRows := frozenRows sheet |}
    end.

Inductive Course : Type := COMP3900 | COMP9900.

Definition courseName (course : Course) : string :=
  match course with
  | COMP3900 => "COMP3900"
  | COMP9900 => "COMP9900"
  end.

Definition freezeRows (n : nat) (sheet : Worksheet) : Worksheet :=
  {| cell := cell sheet; written := written sheet; frozenRows := Some n |}.

(** [main], threading the workbook: the outcome and the workbook it leaves
    behind.  The defaults of the source are [startRow = 31], [endRow = 50],
    [classTimesCol = 'A'] and [classLocationsCol = 'B']. *)
Definition main (workbook : Workbook) (course : Course) (startRow endRow : nat)
    (classTimesCol classLocationsCol : string) : result unit * Workbook :=
  match getWorksheet workbook "TT" with
  | None => (Throw (Error "Timetable not found"), workbook)
  | Some timetable =>
      if Nat.ltb endRow startRow
      then (Throw (Error "Start row cannot be after End row"), workbook)
      else
        match getWorksheet workbook (courseName course) with
        | Some _ =>
            (Throw (Error ("Sheet " ++ courseName course ++ " already exists")), workbook)
        | None =>
            let workbook1 := addWorksheet workbook (courseName course) in
            match bind (processClassSchedules timetable startRow endRow
                          classTimesCol classLocationsCol)
                    (fun schedule =>
                       bind (orderCombinations schedule)
                            (updateWorksheet emptyWorksheet)) with
            | Throw e => (Throw e, workbook1)
            | NoReturn => (NoReturn, workbook1)
            | Ok worksheet =>
                (Ok tt, set workbook1 (courseName course) (freezeRows 8 worksheet))
            end
        end
  end.

(** ** Notions used in the statements *)

(** A timetable sheet with two rows, both in the slot Monday 9 to 11, the
    first one online: rows 31 and 32 of columns A and B. *)
Definition sampleTimetable : Worksheet :=
  {| cell := fun col row =>
       if String.eqb col "A" then
         (if Nat.eqb row 31 || Nat.eqb row 32 then "Mon 09:00 - 11:00" else "")
       else if String.eqb col "B" then
         (if Nat.eqb row 31 then "Online (ONLINE)"
          else if Nat.eqb row 32 then "Room 101" else "")
       else "";
     written := None;
     frozenRows := None |}.

(** The three arrays of [updateWorksheet] grow together. *)
Definition sameLength (arrays : list string * list string * list Z) : Prop :=
  let '(cs, ts, ns) := arrays in
  List.length cs = List.length ts /\ List.length cs = List.length ns.

(** The loop of the aggregator on rows given as pairs (time description,
    location). *)
Fixpoint countPairs (rows : list (string * string)) (combinations : Combinations)
  : result Combinations :=
  match rows with
  | [] => Ok combinations
  | (classTime, location) :: rest =>
      bind (countRow combinations classTime (Some location)) (countPairs rest)
  end.

(** The locations cut or filled up with blank cells to [n] rows. *)
Definition fitLocations (n : nat) (classLocations : list string) : list string :=
  firstn n (classLocations ++ repeat "" n).

(** Two objects with the same lookups, and with the same entries. *)
Definition sameGet (m m' : Combinations) : Prop :=
  forall k, get m k = get m' k.

Definition sameEntries (m m' : Combinations) : Prop :=
  forall k c, In (k, c) m <-> In (k, c) m'.

(** Two runs end alike: both return, with objects related by [R], or both
    throw the same error. *)
Definition sameOutcome (R : Combinations -> Combinations -> Prop)
    (r r' : result Combinations) : Prop :=
  match r, r' with
  | Ok m, Ok m' => R m m'
  | Throw e, Throw e' => e = e'
  | _, _ => False
  end.

(** In a run of [countAndMakeRun], [y] may follow [x]: the comparator
    returns on the two, below 0 in a descending run and not below 0 in an
    ascending one. *)
Definition runStep {A : Type} (comparefn : A -> A -> result number)
    (isDescending : bool) (x y : A) : Prop :=
  exists order : number,
    comparefn y x = Ok order /\ negative order = isDescending.

(** The sort key of a slot key: the position of its weekday in
    [weekdaysOrder] (-1 for any other first token) and the start hour read
    by [parseHour] from its second token. *)
Definition dayIndex (key : string) : Z := indexOf weekdaysOrder (dayToken key).

Definition startHour (key : string) : Z :=
  match timeToken key with
  | Some time => match parseHour time with
                 | Int z => z
                 | _ => 0
                 end
  | None => 0
  end.

(** A key as the data model has it: a weekday of the fixed sequence, then a
    start label that [parseHour] reads as an integer. *)
Definition wellFormedKey (key : string) : bool :=
  negb (dayIndex key =? -1)%Z
  && match timeToken key with
     | Some time => match parseHour time with
                    | Int _ => true
                    | _ => false
                    end
     | None => false
     end.

(** Weekday first, start hour second. *)
Definition slotLe (a b : string) : Prop :=
  dayIndex a < dayIndex b
  \/ (dayIndex a = dayIndex b /\ startHour a <= startHour b).

Definition slotLtb (a b : string) : bool :=
  (dayIndex a <? dayIndex b)%Z
  || ((dayIndex a =? dayIndex b)%Z && (startHour a <? startHour b)%Z).

(** Two keys tie when weekday and start hour agree. *)
Definition tied (a b : string) : bool :=
  (dayIndex a =? dayIndex b)%Z && (startHour a =? startHour b)%Z.

(** The stable insertion sort by [slotLtb], without the comparator. *)
Fixpoint insertKey (x : string) (sorted : list string) : list string :=
  match sorted with
  | [] => [x]
  | y :: rest => if slotLtb y x then y :: insertKey x rest else x :: sorted
  end.

Definition sortKeys (keys : list string) : list string :=
  fold_right insertKey [] keys.

(** The counts stored under a key. *)
Definition valueOf (o : Combinations) (k : string) : Counts :=
  match get o k with
  | Some v => v
  | None => zeroCounts
  end.

(** An object as assignments to [{}] build it: one entry per key, and no
    own property named [__proto__]. *)
Definition plainObject (o : Combinations) : Prop :=
  NoDup (map fst o) /\ ~ In "__proto__" (map fst o).





(** The sum of one of the two counts over all slots. *)
Definition total (f : Counts -> Z) (m : Combinations) : Z :=
  fold_right (fun e sum => f (snd e) + sum) 0 m.

(** The rows of the timetable, as pairs of a time description and a
    location. *)
Definition timetableRows (timetable : Worksheet) (startRow endRow : nat)
    (classTimesCol classLocationsCol : string) : list (string * string) :=
  combine (getColumnValues timetable classTimesCol startRow endRow)
          (getColumnValues timetable classLocationsCol startRow endRow).

(** The rows whose time description gives the slot key [key]. *)
Definition rowsOfSlot (key : string) (rows : list (string * string))
  : list (string * string) :=
  filter (fun row => match slotKey (fst row) with
                     | Ok k => String.eqb k key
                     | _ => false
                     end) rows.

(** The number of rows of a slot in one teaching mode. *)
Definition rowMatches (key : string) (mode : bool) (row : string * string) : bool :=
  match slotKey (fst row) with
  | Ok k => String.eqb k key && Bool.eqb (isOnline (Some (snd row))) mode
  | _ => false
  end.

Definition tally (key : string) (mode : bool) (rows : list (string * string)) : Z :=
  Z.of_nat (List.length (filter (rowMatches key mode) rows)).

(** A string of ASCII characters none of which is a decimal digit. *)
Fixpoint noDigit (s : string) : bool :=
  match s with
  | EmptyString => true
  | String c s' =>
      let n := nat_of_ascii c in
      Nat.ltb n 128 && negb (Nat.leb 48 n && Nat.leb n 57) && noDigit s'
  end.

(** A string without a space. *)
Fixpoint noSpace (s : string) : bool :=
  match s with
  | EmptyString => true
  | String c s' => negb (Ascii.eqb c " ") && noSpace s'
  end.

(** The keys of the rows that have their tokens, in row order. *)
Definition slotKeys (classTimes : list string) : list string :=
  flat_map (fun t => match slotKey t with
                     | Ok key => [key]
                     | _ => []
                     end) classTimes.

(** Keys in the order of their first occurrence, after those of [seen]. *)
Fixpoint firstSeen (seen keys : list string) : list string :=
  match keys with
  | [] => seen
  | k :: keys' =>
      firstSeen (if existsb (String.eqb k) seen then seen else (seen ++ [k])%list)
                keys'
  end.

(** A row as the timetable is meant to hold it: four tokens at least, a
    weekday of the fixed sequence first, and a start time whose hour field
    reads as an hour of 0..23. *)
Definition wellFormedRow (classTime : string) : Prop :=
  exists (day begin sep end_ : string) (rest : list string) (h : Z),
    split " " classTime = day :: begin :: sep :: end_ :: rest
    /\ In day weekdaysOrder
    /\ hoursOf begin = Int h
    /\ 0 <= h <= 23.

(** The columns a slot contributes to the header: one per teaching mode
    with a count other than zero, in-person first. *)
Definition columnsOf (entry : string * Counts) : list (string * string * Z) :=
  ((if truthy (Int (in_person (snd entry)))
    then [(fst entry, "In-person", in_person (snd entry))] else [])
   ++ (if truthy (Int (online (snd entry)))
       then [(fst entry, "Online", online (snd entry))] else []))%list.

Definition zip3 (arrays : list string * list string * list Z)
  : list (string * string * Z) :=
  let '(cs, ts, ns) := arrays in combine (combine cs ts) ns.

(** Counts as the aggregator leaves them: none negative, one class at
    least. *)
Definition counted (c : Counts) : Prop :=
  0 <= in_person c /\ 0 <= online c /\ 1 <= in_person c + online c.

(** The rows [first], [first + 2], ... : [n] of them. *)
Definition rowPairs (first : Z) (n : nat) : list Z :=
  map (fun j => first + 2 * Z.of_nat j) (seq 0 n).

(** The ranges blanked in the column of the class at index [i]. *)
Definition clearedFor (rowsInPerson rowsOnline : list Z)
    (column : nat * (string * string * Z)) : list CellRange :=
  let '(i, (_, type, count)) := column in
  map (fun row => mkCellRange (67 + Z.of_nat i) row (row + 1))
      (firstn (Z.to_nat count)
              (if String.eqb type "In-person" then rowsInPerson else rowsOnline)).

(** ** Checks on concrete inputs *)

Example convertTo12HourFormat_14 : convertTo12HourFormat "14:00" = "2pm".
Proof. reflexivity. Qed.

Example convertTo12HourFormat_00 : convertTo12HourFormat "00:30" = "12am".
Proof. reflexivity. Qed.

Example convertTo12HourFormat_not_a_number : convertTo12HourFormat "noon" = "12am".
Proof. reflexivity. Qed.

Example parseHour_12am : parseHour "12am" = Int 0.
Proof. reflexivity. Qed.

Example parseHour_2pm : parseHour "2pm" = Int 14.
Proof. reflexivity. Qed.

Example split_row :
  split " " "Mon 09:00 - 11:00" = ["Mon"; "09:00"; "-"; "11:00"].
Proof. reflexivity. Qed.

Example slotKey_missing_tokens :
  slotKey "Mon 09:00" = Throw (TypeError "Cannot read properties of undefined (reading 'split')").
Proof. reflexivity. Qed.

Example Object_keys_indices_first :
  Object_keys [("Mon 9am - 10am", 1); ("7", 2); ("03", 3); ("3", 4)]
  = ["3"; "7"; "Mon 9am - 10am"; "03"].
Proof. reflexivity. Qed.

Example orderCombinations_missing_time :
  orderCombinations [("Mon", zeroCounts); ("Mon 9am - 10am", zeroCounts)]
  = Throw (TypeError "Cannot read properties of undefined (reading 'slice')").
Proof. reflexivity. Qed.

(** With first tokens outside the weekday sequence the comparator is not
    an order: Saturday 9 and Saturday 7 stay as they were around Sunday. *)
Example orderCombinations_unknown_weekdays :
  orderCombinations [("Sat 9am - 10am", zeroCounts); ("Sun 5am - 6am", zeroCounts);
                     ("Sat 7am - 8am", zeroCounts)]
  = Ok [("Sat 9am - 10am", zeroCounts); ("Sun 5am - 6am", zeroCounts);
        ("Sat 7am - 8am", zeroCounts)].
Proof. reflexivity. Qed.

Example main_sample :
  fst (main [("TT", sampleTimetable)] COMP3900 31 32 "A" "B") = Ok tt
  /\ option_map written
       (getWorksheet (snd (main [("TT", sampleTimetable)] COMP3900 31 32 "A" "B"))
          "COMP3900")
     = Some (Some {| classes := ["Mon 9am - 11am"; "Mon 9am - 11am"];
                     types := ["In-person"; "Online"];
                     counts := [1; 1];
                     maxInPerson := Int 1;
                     maxOnline := Int 1;
                     footer :=
                       {| slotRow := ["Mon 9am - 11am"; "Mon 9am - 11am"];
                          inPersonRows := [36];
                          onlineRows := [38];
                          cleared := [mkCellRange 67 36 37;
                                      mkCellRange 68 38 39] |} |}).
Proof. split; reflexivity. Qed.

(** A count below zero is never met by the index of [clearCellContents]:
    [updateWorksheet] does not return. *)
Example updateWorksheet_negative_count :
  updateWorksheet emptyWorksheet [("a b", {| in_person := -1; online := 0 |})]
  = NoReturn.
Proof. reflexivity. Qed.

(** A count above the number of rows is met after the rows have run out. *)
Example clearCellContents_past_rows :
  clearCellContents 67 4 [36; 38; 40]
  = Some [mkCellRange 67 36 37; mkCellRange 67 38 39; mkCellRange 67 40 41;
          undefinedRows 67].
Proof. reflexivity. Qed.

(** Row 33 of the sample sheet is blank: the aggregator throws on it, after
    the three checks, and the new worksheet stays behind, empty. *)
Example main_blank_row :
  fst (main [("TT", sampleTimetable)] COMP3900 31 33 "A" "B")
  = Throw (TypeError "Cannot read properties of undefined (reading 'split')")
  /\ option_map written
       (getWorksheet (snd (main [("TT", sampleTimetable)] COMP3900 31 33 "A" "B"))
          "COMP3900")
     = Some None.
Proof. split; reflexivity. Qed.

(** ** The time formatter *)

Section TimeFormatter.

Lemma hour_cases (h : Z) :
  0 <= h <= 23 ->
  In h [0; 1; 2; 3; 4; 5; 6; 7; 8; 9; 10; 11; 12; 13; 14; 15; 16; 17; 18;
        19; 20; 21; 22; 23].
Proof.
  intros Hh. simpl.
  destruct (Z.eq_dec h 0); [auto|].
  destruct (Z.eq_dec h 1); [auto 30|].
  destruct (Z.eq_dec h 2); [auto 30|].
  destruct (Z.eq_dec h 3); [auto 30|].
  destruct (Z.eq_dec h 4); [auto 30|].
  destruct (Z.eq_dec h 5); [auto 30|].
  destruct (Z.eq_dec h 6); [auto 30|].
  destruct (Z.eq_dec h 7); [auto 30|].
  destruct (Z.eq_dec h 8); [auto 30|].
  destruct (Z.eq_dec h 9); [auto 30|].
  destruct (Z.eq_dec h 10); [auto 30|].
  destruct (Z.eq_dec h 11); [auto 30|].
  destruct (Z.eq_dec h 12); [auto 30|].
  destruct (Z.eq_dec h 13); [auto 30|].
  destruct (Z.eq_dec h 14); [auto 30|].
  destruct (Z.eq_dec h 15); [auto 30|].
  destruct (Z.eq_dec h 16); [auto 30|].
  destruct (Z.eq_dec h 17); [auto 30|].
  destruct (Z.eq_dec h 18); [auto 30|].
  destruct (Z.eq_dec h 19); [auto 30|].
  destruct (Z.eq_dec h 20); [auto 30|].
  destruct (Z.eq_dec h 21); [auto 30|].
  destruct (Z.eq_dec h 22); [auto 30|].
  destruct (Z.eq_dec h 23); [auto 30|].
  lia.
Qed.

(** The label depends on the hour field only. *)
Lemma convertTo12HourFormat_hours (time24 : string) :
  convertTo12HourFormat time24
  = number_to_string (or_else (rem (hoursOf time24) 12) (Int 12))
    ++ (if ge (hoursOf time24) (Int 12) then "pm" else "am").
Proof. reflexivity. Qed.

(** Parsing the label of an hour of 0..23 gives the hour back, and
    formatting the parsed hour gives the label back. *)
Lemma parseHour_label (time24 : string) (h : Z) :
  0 <= h <= 23 ->
  hoursOf time24 = Int h ->
  parseHour (convertTo12HourFormat time24) = Int h
  /\ convertTo12HourFormat
       (number_to_string (parseHour (convertTo12HourFormat time24)) ++ ":00")
     = convertTo12HourFormat time24.
Proof.
  intros Hh Hhours.
  rewrite (convertTo12HourFormat_hours time24), Hhours.
  pose proof (hour_cases h Hh) as Hin.
  repeat (destruct Hin as [<- | Hin]; [split; vm_compute; reflexivity|]).
  destruct Hin.
Qed.

(** The hour field of "h:mm" and of "0h:mm" reads as h, for every hour of
    0..23 and whatever follows the colon. *)
Lemma hoursOf_digits (h : Z) (minutes : string) :
  0 <= h <= 23 ->
  hoursOf (number_to_string (Int h) ++ ":" ++ minutes) = Int h
  /\ hoursOf ("0" ++ number_to_string (Int h) ++ ":" ++ minutes) = Int h.
Proof.
  intros Hh. pose proof (hour_cases h Hh) as Hin.
  repeat (destruct Hin as [<- | Hin]; [split; reflexivity|]).
  destruct Hin.
Qed.

Lemma parseHour_label_of_hour (h : Z) (minutes : string) :
  0 <= h <= 23 ->
  parseHour (convertTo12HourFormat (number_to_string (Int h) ++ ":" ++ minutes))
  = Int h.
Proof.
  intros Hh. apply parseHour_label; [exact Hh|].
  now apply hoursOf_digits.
Qed.

End TimeFormatter.

(** C1: for every hour h of 0..23, and every 24-hour time string whose hour
    field reads as h, parsing the 12-hour label produced for it gives h
    back; and formatting the parsed hour again gives the same label, so the
    two conversions are inverse to each other on 0..23. *)
Theorem C1_parseHour_convertTo12HourFormat (time24 : string) (h : Z) :
  0 <= h <= 23 ->
  hoursOf time24 = Int h ->
  parseHour (convertTo12HourFormat time24) = Int h
  /\ convertTo12HourFormat
       (number_to_string (parseHour (convertTo12HourFormat time24)) ++ ":00")
     = convertTo12HourFormat time24.
Proof.
  intros Hh Hhours.
  rewrite (convertTo12HourFormat_hours time24), Hhours.
  pose proof (hour_cases h Hh) as Hin.
  repeat (destruct Hin as [<- | Hin]; [split; vm_compute; reflexivity|]).
  destruct Hin.
Qed.

Lemma C1_witness :
  parseHour (convertTo12HourFormat "14:00") = Int 14
  /\ convertTo12HourFormat
       (number_to_string (parseHour (convertTo12HourFormat "14:00")) ++ ":00")
     = convertTo12HourFormat "14:00".
Proof.
  apply (C1_parseHour_convertTo12HourFormat "14:00" 14).
  - lia.
  - reflexivity.
Defined.

(** ** Objects: lookup after assignment *)

Section ObjectLemmas.
Context {V : Type}.

Lemma get_set_same (o : obj V) (k : string) (v : V) :
  get (set o k v) k = Some v.
Proof.
  induction o as [|[k' v'] o IH]; simpl.
  - now rewrite String.eqb_refl.
  - destruct (String.eqb k' k) eqn:E; simpl; rewrite E; auto.
Qed.

Lemma get_set_other (o : obj V) (k k' : string) (v : V) :
  k' <> k -> get (set o k v) k' = get o k'.
Proof.
  intros Hne.
  induction o as [|[k0 v0] o IH]; simpl.
  - destruct (String.eqb k k') eqn:E; auto.
    apply String.eqb_eq in E. congruence.
  - destruct (String.eqb k0 k) eqn:E; simpl.
    + apply String.eqb_eq in E. subst k0.
      destruct (String.eqb k k') eqn:E'; auto.
      apply String.eqb_eq in E'. congruence.
    + now rewrite IH.
Qed.

Lemma get_set (o : obj V) (k k' : string) (v : V) :
  get (set o k v) k' = if String.eqb k k' then Some v else get o k'.
Proof.
  destruct (String.eqb k k') eqn:E.
  - apply String.eqb_eq in E. subst. apply get_set_same.
  - apply String.eqb_neq in E. apply get_set_other. congruence.
Qed.

Lemma set_keys_absent (o : obj V) (k : string) (v : V) :
  get o k = None -> set o k v = (o ++ [(k, v)])%list.
Proof.
  induction o as [|[k' v'] o IH]; simpl; auto.
  destruct (String.eqb k' k); [discriminate|].
  intros H. now rewrite IH.
Qed.

Lemma set_keys_present (o : obj V) (k : string) (v v0 : V) :
  get o k = Some v0 -> map fst (set o k v) = map fst o.
Proof.
  induction o as [|[k' v'] o IH]; simpl; [discriminate|].
  destruct (String.eqb k' k); simpl; auto.
  intros H. now rewrite IH.
Qed.

Lemma get_None_not_In (o : obj V) (k : string) :
  get o k = None <-> ~ In k (map fst o).
Proof.
  induction o as [|[k' v'] o IH]; simpl.
  - tauto.
  - destruct (String.eqb k' k) eqn:E.
    + apply String.eqb_eq in E. split; [discriminate|tauto].
    + apply String.eqb_neq in E. tauto.
Qed.

Lemma set_NoDup (o : obj V) (k : string) (v : V) :
  NoDup (map fst o) -> NoDup (map fst (set o k v)).
Proof.
  intros Hnd.
  destruct (get o k) as [v0|] eqn:E.
  - now rewrite (set_keys_present o k v v0 E).
  - rewrite (set_keys_absent o k v E), map_app. simpl.
    apply get_None_not_In in E.
    apply NoDup_app; [assumption | repeat constructor; simpl; tauto |].
    intros x Hx [<- | []]. contradiction.
Qed.

(** With one entry per key, the entries are the graph of [get]. *)
Lemma In_get (o : obj V) (k : string) (v : V) :
  NoDup (map fst o) -> (In (k, v) o <-> get o k = Some v).
Proof.
  induction o as [|[k' v'] o IH]; simpl; intros Hnd.
  - split; [tauto | discriminate].
  - inversion Hnd as [|? ? Hnotin Hnd']; subst.
    destruct (String.eqb k' k) eqn:E.
    + apply String.eqb_eq in E. subst k'. split.
      * intros [H | H]; [congruence|].
        exfalso. apply Hnotin. now apply (in_map fst) in H.
      * intros H. left. congruence.
    + apply String.eqb_neq in E. rewrite <- (IH Hnd'). split.
      * intros [H | H]; [congruence | assumption].
      * auto.
Qed.

End ObjectLemmas.

(** ** The aggregator, one row at a time *)

Section Aggregator.

Lemma string_app_assoc (a b c : string) : (a ++ b) ++ c = a ++ (b ++ c).
Proof. induction a as [|x a IH]; simpl; [reflexivity | now rewrite IH]. Qed.

Lemma slotKey_tokens (classTime day begin sep end_ : string) (rest : list string) :
  split " " classTime = day :: begin :: sep :: end_ :: rest ->
  slotKey classTime
  = Ok (day ++ " " ++ convertTo12HourFormat begin
            ++ " - " ++ convertTo12HourFormat end_).
Proof. intros H. unfold slotKey. now rewrite H. Qed.

Lemma countRow_Ok (combinations : Combinations) (classTime key : string)
    (location : option string) :
  slotKey classTime = Ok key ->
  countRow combinations classTime location
  = Ok (set combinations key
          (let c := match get combinations key with
                    | Some c => c
                    | None => zeroCounts
                    end in
           {| in_person := if isOnline location then in_person c else in_person c + 1;
              online := if isOnline location then online c + 1 else online c |})).
Proof. intros H. unfold countRow. now rewrite H. Qed.

Lemma countRow_Throw (combinations : Combinations) (classTime : string)
    (location : option string) (e : error) :
  slotKey classTime = Throw e ->
  countRow combinations classTime location = Throw e.
Proof. intros H. unfold countRow. now rewrite H. Qed.

(** Building a key and counting a row hold no loop: they return or throw. *)
Lemma slotKey_ends (classTime : string) : slotKey classTime <> NoReturn.
Proof.
  unfold slotKey.
  destruct (nth_error (split " " classTime) 1);
    [destruct (nth_error (split " " classTime) 3)|]; discriminate.
Qed.

Lemma countRow_ends (combinations : Combinations) (classTime : string)
    (location : option string) :
  countRow combinations classTime location <> NoReturn.
Proof.
  unfold countRow. pose proof (slotKey_ends classTime) as H.
  destruct (slotKey classTime); simpl; congruence.
Qed.

End Aggregator.

(** C5: the two rows ("Mon 09:00 - 11:00", "Online (ONLINE)") and
    ("Mon 09:00 - 11:00", "Room 101") aggregate to the single entry
    "Mon 9am - 11am" with one in-person and one online class, on the arrays
    and through the worksheet; and the key of a row is
    "{day} {begin} - {end}" where day is token 0 and begin and end are the
    12-hour labels of tokens 1 and 3 of the time description split at
    spaces. *)
Theorem C5_aggregate_example :
  aggregate ["Mon 09:00 - 11:00"; "Mon 09:00 - 11:00"]
            ["Online (ONLINE)"; "Room 101"]
  = Ok [("Mon 9am - 11am", {| in_person := 1; online := 1 |})]
  /\ processClassSchedules sampleTimetable 31 32 "A" "B"
     = Ok [("Mon 9am - 11am", {| in_person := 1; online := 1 |})]
  /\ forall (classTime day begin sep end_ : string) (rest : list string),
       split " " classTime = day :: begin :: sep :: end_ :: rest ->
       slotKey classTime
       = Ok (day ++ " "
             ++ number_to_string (or_else (rem (hoursOf begin) 12) (Int 12))
             ++ (if ge (hoursOf begin) (Int 12) then "pm" else "am")
             ++ " - "
             ++ number_to_string (or_else (rem (hoursOf end_) 12) (Int 12))
             ++ (if ge (hoursOf end_) (Int 12) then "pm" else "am")).
Proof.
  split; [reflexivity|]. split; [reflexivity|].
  intros classTime day begin sep end_ rest Hsplit.
  rewrite (slotKey_tokens _ _ _ _ _ _ Hsplit).
  unfold convertTo12HourFormat.
  f_equal. f_equal. f_equal.
  now rewrite string_app_assoc.
Qed.

Lemma C5_witness :
  slotKey "Tue 13:00 - 15:00"
  = Ok ("Tue" ++ " "
        ++ number_to_string (or_else (rem (hoursOf "13:00") 12) (Int 12))
        ++ (if ge (hoursOf "13:00") (Int 12) then "pm" else "am")
        ++ " - "
        ++ number_to_string (or_else (rem (hoursOf "15:00") 12) (Int 12))
        ++ (if ge (hoursOf "15:00") (Int 12) then "pm" else "am")).
Proof.
  apply (proj2 (proj2 C5_aggregate_example)
           "Tue 13:00 - 15:00" "Tue" "13:00" "-" "15:00" []).
  reflexivity.
Defined.

(** ** Enumeration order and the grid sizer *)

Section Enumeration.
Context {V : Type}.

Lemma insert_index_perm (e : string * V) (es : list (string * V)) :
  Permutation (insert_index e es) (e :: es).
Proof.
  induction es as [|e' es IH]; simpl; [reflexivity|].
  destruct (index_of_key (fst e') <? index_of_key (fst e))%Z; [|reflexivity].
  rewrite IH. apply perm_swap.
Qed.

Lemma sort_indices_perm (es : list (string * V)) :
  Permutation (sort_indices es) es.
Proof.
  induction es as [|e es IH]; simpl; [reflexivity|].
  rewrite insert_index_perm. now constructor.
Qed.

Lemma filter_partition_perm {A : Type} (f : A -> bool) (l : list A) :
  Permutation (filter f l ++ filter (fun x => negb (f x)) l) l.
Proof.
  induction l as [|x l IH]; simpl; [reflexivity|].
  destruct (f x); simpl.
  - now constructor.
  - symmetry. apply Permutation_cons_app. now symmetry.
Qed.

(** Enumeration reorders the properties and loses none. *)
Lemma Object_entries_perm (o : obj V) : Permutation (Object_entries o) o.
Proof.
  unfold Object_entries.
  rewrite sort_indices_perm. apply filter_partition_perm.
Qed.

Lemma Object_entries_nil (o : obj V) : Object_entries o = [] -> o = [].
Proof.
  intros H. apply Permutation_nil.
  rewrite <- H. apply Object_entries_perm.
Qed.

End Enumeration.

Section GridSizer.

Lemma max2_Int (a x : Z) : max2 (Int a) (Int x) = Int (Z.max a x).
Proof.
  simpl. destruct (Z.leb_spec x a).
  - now rewrite Z.max_l.
  - rewrite Z.max_r; [reflexivity | lia].
Qed.

Lemma fold_max2_Int (l : list Z) (a : Z) :
  fold_left max2 (map Int l) (Int a) = Int (fold_left Z.max l a).
Proof.
  revert a. induction l as [|x l IH]; intros a; [reflexivity|].
  cbn [map fold_left]. rewrite max2_Int. apply IH.
Qed.

Lemma fold_Zmax_spec (l : list Z) (a : Z) :
  (fold_left Z.max l a = a \/ In (fold_left Z.max l a) l)
  /\ a <= fold_left Z.max l a
  /\ (forall x, In x l -> x <= fold_left Z.max l a).
Proof.
  revert a. induction l as [|x l IH]; intros a; simpl.
  - split; [auto|]. split; [lia | tauto].
  - destruct (IH (Z.max a x)) as (Hin & Hle & Hall).
    split; [|split].
    + destruct Hin as [Heq | Hin]; [|auto].
      rewrite Heq. destruct (Z.max_spec a x) as [[_ ->] | [_ ->]]; auto.
    + lia.
    + intros y [<- | Hy]; [lia | auto].
Qed.

(** [Math.max] of at least one integer is the greatest of them. *)
Lemma Math_max_Int (x : Z) (l : list Z) :
  exists m : Z,
    Math_max (map Int (x :: l)) = Int m
    /\ In m (x :: l)
    /\ (forall y, In y (x :: l) -> y <= m).
Proof.
  exists (fold_left Z.max l x).
  unfold Math_max. cbn [map fold_left].
  change (max2 NegInf (Int x)) with (Int x).
  rewrite fold_max2_Int.
  destruct (fold_Zmax_spec l x) as (Hin & Hle & Hall).
  split; [reflexivity|]. split.
  - simpl. destruct Hin; auto.
  - intros y [<- | Hy]; auto.
Qed.

Lemma Math_max_field (f : Counts -> Z) (schedule : Combinations) :
  schedule <> [] ->
  exists m : Z,
    Math_max (map (fun slot => Int (f slot)) (Object_values schedule)) = Int m
    /\ (exists k c, In (k, c) schedule /\ f c = m)
    /\ (forall k c, In (k, c) schedule -> f c <= m).
Proof.
  intros Hne.
  pose proof (Object_entries_perm schedule) as Hperm.
  unfold Object_values.
  destruct (Object_entries schedule) as [|[k0 c0] es] eqn:E.
  - exfalso. apply Hne. now apply Object_entries_nil.
  - destruct (Math_max_Int (f c0) (map (fun e => f (snd e)) es))
      as (m & Hmax & Hin & Hall).
    assert (Heq : map (fun slot => Int (f slot)) (map snd ((k0, c0) :: es))
                  = map Int (f c0 :: map (fun e => f (snd e)) es))
      by (simpl; f_equal; now rewrite !map_map).
    exists m. split; [now rewrite Heq|]. split.
    + change (f c0 :: map (fun e => f (snd e)) es)
        with (map (fun e : string * Counts => f (snd e)) ((k0, c0) :: es)) in Hin.
      apply in_map_iff in Hin. destruct Hin as ([k c] & Hf & Hin).
      exists k, c. split; [|exact Hf].
      eapply Permutation_in; eauto.
    + intros k c Hin'. apply Hall.
      change (f c0 :: map (fun e => f (snd e)) es)
        with (map (fun e : string * Counts => f (snd e)) ((k0, c0) :: es)).
      apply in_map_iff. exists (k, c). split; [reflexivity|].
      eapply Permutation_in; [symmetry; exact Hperm | exact Hin'].
Qed.

End GridSizer.

(** C3, as the code has it: for every schedule with at least one slot,
    [maxValues] returns the greatest in-person count and the greatest online
    count over all slots; for two slots with counts (3, 1) and (1, 2) these
    are 3 and 2; for the schedule without slots both are negative infinity,
    the value of [Math.max] without arguments. *)
Theorem C3_maxValues_greatest_counts :
  (forall schedule : Combinations,
     schedule <> [] ->
     exists mi mo : Z,
       maxValues schedule = (Int mi, Int mo)
       /\ (exists k c, In (k, c) schedule /\ in_person c = mi)
       /\ (forall k c, In (k, c) schedule -> in_person c <= mi)
       /\ (exists k c, In (k, c) schedule /\ online c = mo)
       /\ (forall k c, In (k, c) schedule -> online c <= mo))
  /\ (forall k1 k2 : string,
        maxValues [(k1, {| in_person := 3; online := 1 |});
                   (k2, {| in_person := 1; online := 2 |})]
        = (Int 3, Int 2))
  /\ maxValues [] = (NegInf, NegInf).
Proof.
  assert (Hgen : forall schedule : Combinations,
     schedule <> [] ->
     exists mi mo : Z,
       maxValues schedule = (Int mi, Int mo)
       /\ (exists k c, In (k, c) schedule /\ in_person c = mi)
       /\ (forall k c, In (k, c) schedule -> in_person c <= mi)
       /\ (exists k c, In (k, c) schedule /\ online c = mo)
       /\ (forall k c, In (k, c) schedule -> online c <= mo)).
  { intros schedule Hne.
    destruct (Math_max_field in_person schedule Hne) as (mi & Hmi & Hi1 & Hi2).
    destruct (Math_max_field online schedule Hne) as (mo & Hmo & Ho1 & Ho2).
    exists mi, mo. unfold maxValues. rewrite Hmi, Hmo. auto. }
  split; [exact Hgen|]. split; [|reflexivity].
  intros k1 k2.
  destruct (Hgen [(k1, {| in_person := 3; online := 1 |});
                  (k2, {| in_person := 1; online := 2 |})])
    as (mi & mo & -> & (ki & ci & Hini & Hci) & Hmi & (ko & co & Hino & Hco) & Hmo);
    [discriminate|].
  assert (3 <= mi) by (apply (Hmi k1 {| in_person := 3; online := 1 |}); simpl; auto).
  assert (2 <= mo) by (apply (Hmo k2 {| in_person := 1; online := 2 |}); simpl; auto).
  assert (mi <= 3).
  { simpl in Hini. destruct Hini as [E | [E | []]]; inversion E; subst; simpl; lia. }
  assert (mo <= 2).
  { simpl in Hino. destruct Hino as [E | [E | []]]; inversion E; subst; simpl; lia. }
  f_equal; f_equal; lia.
Qed.

Lemma C3_witness :
  exists mi mo : Z,
    maxValues [("Mon 9am - 11am", {| in_person := 3; online := 1 |});
               ("Tue 1pm - 3pm", {| in_person := 1; online := 2 |})]
    = (Int mi, Int mo)
    /\ (exists k c,
          In (k, c) [("Mon 9am - 11am", {| in_person := 3; online := 1 |});
                     ("Tue 1pm - 3pm", {| in_person := 1; online := 2 |})]
          /\ in_person c = mi)
    /\ (forall k c,
          In (k, c) [("Mon 9am - 11am", {| in_person := 3; online := 1 |});
                     ("Tue 1pm - 3pm", {| in_person := 1; online := 2 |})]
          -> in_person c <= mi)
    /\ (exists k c,
          In (k, c) [("Mon 9am - 11am", {| in_person := 3; online := 1 |});
                     ("Tue 1pm - 3pm", {| in_person := 1; online := 2 |})]
          /\ online c = mo)
    /\ (forall k c,
          In (k, c) [("Mon 9am - 11am", {| in_person := 3; online := 1 |});
                     ("Tue 1pm - 3pm", {| in_person := 1; online := 2 |})]
          -> online c <= mo).
Proof.
  apply (proj1 C3_maxValues_greatest_counts
           [("Mon 9am - 11am", {| in_person := 3; online := 1 |});
            ("Tue 1pm - 3pm", {| in_person := 1; online := 2 |})]).
  discriminate.
Defined.

(** C3 as stated fails: on the schedule without slots the two maxima are
    negative infinity, not 0. *)
Lemma C3_counterexample :
  maxValues [] = (NegInf, NegInf) /\ maxValues [] <> (Int 0, Int 0).
Proof. split; [reflexivity | discriminate]. Qed.

(** ** The header arrays of [updateWorksheet] *)

Section HeaderArrays.

Lemma pushEntry_sameLength (arrays : list string * list string * list Z)
    (entry : string * Counts) :
  sameLength arrays -> sameLength (pushEntry arrays entry).
Proof.
  destruct arrays as [[cs ts] ns], entry as [key value].
  unfold sameLength, pushEntry. intros [H1 H2].
  destruct (truthy (Int (in_person value))), (truthy (Int (online value)));
    rewrite ?length_app; simpl; lia.
Qed.

Lemma fold_pushEntry_sameLength (entries : list (string * Counts))
    (arrays : list string * list string * list Z) :
  sameLength arrays -> sameLength (fold_left pushEntry entries arrays).
Proof.
  revert arrays. induction entries as [|e entries IH]; intros arrays H; simpl.
  - exact H.
  - apply IH. now apply pushEntry_sameLength.
Qed.

Lemma headerArrays_sameLength (schedule : Combinations) :
  sameLength (headerArrays schedule).
Proof.
  unfold headerArrays. apply fold_pushEntry_sameLength. simpl. auto.
Qed.

End HeaderArrays.

(** C9: for every schedule the arrays classes, types and counts built by
    [updateWorksheet] have the same length, so the branch that throws
    'Something went wrong!' is never taken. *)
Theorem C9_header_arrays_same_length (sheet : Worksheet) (schedule : Combinations) :
  (let '(cs, ts, ns) := headerArrays schedule in
   List.length cs = List.length ts
   /\ List.length cs = List.length ns
   /\ List.length ts = List.length ns)
  /\ updateWorksheet sheet schedule <> Throw (Error "Something went wrong!").
Proof.
  pose proof (headerArrays_sameLength schedule) as H.
  unfold updateWorksheet.
  destruct (headerArrays schedule) as [[cs ts] ns].
  destruct H as [H1 H2].
  split; [repeat split; congruence|].
  assert (E1 : Nat.eqb (List.length cs) (List.length ts) = true)
    by now apply Nat.eqb_eq.
  assert (E2 : Nat.eqb (List.length cs) (List.length ns) = true)
    by now apply Nat.eqb_eq.
  assert (E3 : Nat.eqb (List.length ts) (List.length ns) = true)
    by (apply Nat.eqb_eq; congruence).
  rewrite E1, E2, E3. cbn [negb orb].
  destruct (createTimetable schedule cs ts ns); [|discriminate].
  destruct (maxValues schedule) as [maxIn maxOn]. discriminate.
Qed.

(** ** The validation sequence of [main] *)

Section Main.

Lemma main_no_timetable (workbook : Workbook) (course : Course)
    (startRow endRow : nat) (classTimesCol classLocationsCol : string) :
  getWorksheet workbook "TT" = None ->
  main workbook course startRow endRow classTimesCol classLocationsCol
  = (Throw (Error "Timetable not found"), workbook).
Proof. intros H. unfold main. now rewrite H. Qed.

Lemma main_rows_reversed (workbook : Workbook) (course : Course)
    (startRow endRow : nat) (classTimesCol classLocationsCol : string) :
  (startRow > endRow)%nat ->
  exists msg : string,
    main workbook course startRow endRow classTimesCol classLocationsCol
    = (Throw (Error msg), workbook).
Proof.
  intros H. unfold main.
  destruct (getWorksheet workbook "TT"); [|eauto].
  apply Nat.ltb_lt in H. rewrite H. eauto.
Qed.

Lemma main_destination_taken (workbook : Workbook) (course : Course)
    (startRow endRow : nat) (classTimesCol classLocationsCol : string) :
  getWorksheet workbook (courseName course) <> None ->
  exists msg : string,
    main workbook course startRow endRow classTimesCol classLocationsCol
    = (Throw (Error msg), workbook).
Proof.
  intros H. unfold main.
  destruct (getWorksheet workbook "TT"); [|eauto].
  destruct (Nat.ltb endRow startRow); [eauto|].
  destruct (getWorksheet workbook (courseName course)); [eauto | congruence].
Qed.

Lemma getWorksheet_addWorksheet (workbook : Workbook) (name : string) :
  getWorksheet workbook name = None ->
  getWorksheet (addWorksheet workbook name) name = Some emptyWorksheet.
Proof.
  unfold getWorksheet, addWorksheet. intros H.
  rewrite <- (set_keys_absent workbook name emptyWorksheet H).
  apply get_set_same.
Qed.

(** Once the three checks have passed, the destination worksheet is in
    the workbook whatever happens next. *)
Lemma main_creates_destination (workbook : Workbook) (course : Course)
    (startRow endRow : nat) (classTimesCol classLocationsCol : string)
    (timetable : Worksheet) :
  getWorksheet workbook "TT" = Some timetable ->
  (startRow <= endRow)%nat ->
  getWorksheet workbook (courseName course) = None ->
  getWorksheet
    (snd (main workbook course startRow endRow classTimesCol classLocationsCol))
    (courseName course) <> None.
Proof.
  intros Htt Hrows Hfree. unfold main. rewrite Htt.
  destruct (Nat.ltb_spec endRow startRow) as [Hlt|_]; [lia|].
  rewrite Hfree.
  destruct (bind _ _) as [worksheet|e|]; simpl.
  - unfold getWorksheet. now rewrite get_set_same.
  - now rewrite (getWorksheet_addWorksheet workbook _ Hfree).
  - now rewrite (getWorksheet_addWorksheet workbook _ Hfree).
Qed.

End Main.

(** C8: [main] throws when the worksheet 'TT' is missing, when startRow is
    greater than endRow, and when a worksheet named after the course is
    already there; in each of the three cases the workbook is left exactly
    as it was, so no destination worksheet has been added or written. *)
Theorem C8_main_validation (workbook : Workbook) (course : Course)
    (startRow endRow : nat) (classTimesCol classLocationsCol : string) :
  getWorksheet workbook "TT" = None
  \/ (startRow > endRow)%nat
  \/ getWorksheet workbook (courseName course) <> None ->
  exists msg : string,
    main workbook course startRow endRow classTimesCol classLocationsCol
    = (Throw (Error msg), workbook).
Proof.
  intros [H | [H | H]].
  - rewrite (main_no_timetable _ _ _ _ _ _ H). eauto.
  - now apply main_rows_reversed.
  - now apply main_destination_taken.
Qed.

Lemma C8_witness :
  (exists msg : string,
     main [("Sheet1", emptyWorksheet)] COMP3900 31 50 "A" "B"
     = (Throw (Error msg), [("Sheet1", emptyWorksheet)]))
  /\ (exists msg : string,
        main [("TT", sampleTimetable)] COMP3900 32 31 "A" "B"
        = (Throw (Error msg), [("TT", sampleTimetable)]))
  /\ (exists msg : string,
        main [("TT", sampleTimetable); ("COMP9900", emptyWorksheet)]
             COMP9900 31 32 "A" "B"
        = (Throw (Error msg),
           [("TT", sampleTimetable); ("COMP9900", emptyWorksheet)])).
Proof.
  split; [|split].
  - apply (C8_main_validation [("Sheet1", emptyWorksheet)] COMP3900 31 50 "A" "B").
    left. reflexivity.
  - apply (C8_main_validation [("TT", sampleTimetable)] COMP3900 32 31 "A" "B").
    right. left. lia.
  - apply (C8_main_validation
             [("TT", sampleTimetable); ("COMP9900", emptyWorksheet)]
             COMP9900 31 32 "A" "B").
    right. right. discriminate.
Defined.

(** ** The aggregator on arrays of any two lengths *)

Section Shape.

Lemma getColumnValues_length (sheet : Worksheet) (col : string) (startRow endRow : nat) :
  List.length (getColumnValues sheet col startRow endRow)
  = S (Nat.max startRow endRow - Nat.min startRow endRow).
Proof. unfold getColumnValues. now rewrite length_map, length_seq. Qed.

Lemma slotKey_error (classTime : string) (e : error) :
  slotKey classTime = Throw e ->
  e = TypeError "Cannot read properties of undefined (reading 'split')".
Proof.
  unfold slotKey.
  destruct (nth_error (split " " classTime) 1);
    [destruct (nth_error (split " " classTime) 3)|]; congruence.
Qed.

Lemma countRow_location (combinations : Combinations) (classTime : string)
    (location location' : option string) :
  isOnline location = isOnline location' ->
  countRow combinations classTime location
  = countRow combinations classTime location'.
Proof. intros H. unfold countRow. now rewrite H. Qed.

Lemma countRows_ext (classTimes : list string) :
  forall (i : nat) (combinations : Combinations) (ls ls' : list string),
    (forall j, (i <= j < i + List.length classTimes)%nat ->
               isOnline (nth_error ls j) = isOnline (nth_error ls' j)) ->
    countRows i classTimes ls combinations = countRows i classTimes ls' combinations.
Proof.
  induction classTimes as [|t ts IH]; intros i c ls ls' H; simpl; [reflexivity|].
  rewrite (countRow_location c t (nth_error ls i) (nth_error ls' i))
    by (apply H; simpl; lia).
  destruct (countRow c t (nth_error ls' i)) as [c'|e|]; simpl;
    [|reflexivity|reflexivity].
  apply IH. intros j Hj. apply H. simpl. lia.
Qed.

Lemma isOnline_fitLocations (n : nat) (ls : list string) (j : nat) :
  (j < n)%nat ->
  isOnline (nth_error (fitLocations n ls) j) = isOnline (nth_error ls j).
Proof.
  intros Hj. unfold fitLocations.
  rewrite nth_error_firstn.
  destruct (Nat.ltb_spec j n) as [_|Hge]; [|lia].
  rewrite nth_error_app.
  destruct (Nat.ltb_spec j (List.length ls)) as [Hlt|Hge]; [reflexivity|].
  rewrite nth_error_repeat by lia.
  apply nth_error_None in Hge. now rewrite Hge.
Qed.

Lemma countRows_Ok (classTimes : list string) :
  forall (i : nat) (ls : list string) (combinations : Combinations),
    (forall t, In t classTimes -> exists key, slotKey t = Ok key) ->
    exists m, countRows i classTimes ls combinations = Ok m.
Proof.
  induction classTimes as [|t ts IH]; intros i ls c H; simpl; [eauto|].
  destruct (H t (or_introl eq_refl)) as [key Hkey].
  rewrite (countRow_Ok c t key _ Hkey). simpl.
  apply IH. intros t' Ht'. apply H. now right.
Qed.

Lemma countRows_Throw (classTimes : list string) :
  forall (i : nat) (ls : list string) (combinations : Combinations) (e : error),
    countRows i classTimes ls combinations = Throw e ->
    exists t, In t classTimes /\ slotKey t = Throw e.
Proof.
  induction classTimes as [|t ts IH]; intros i ls c e H; simpl in H; [discriminate|].
  destruct (slotKey t) as [key|e'|] eqn:Hkey.
  - rewrite (countRow_Ok c t key _ Hkey) in H. simpl in H.
    destruct (IH _ _ _ _ H) as (t' & Hin & Ht'). exists t'. split; [now right | exact Ht'].
  - rewrite (countRow_Throw c t _ e' Hkey) in H. simpl in H.
    exists t. split; [now left | congruence].
  - now apply slotKey_ends in Hkey.
Qed.

End Shape.

(** C7, as the code has it: the aggregator checks no lengths and raises no
    shape error.  [processClassSchedules] reads the two columns over the
    same rows, so its two arrays have the same length; the loop runs over
    the time descriptions, returns a schedule as soon as each of them has
    its tokens 1 and 3, throws nothing but the TypeError of a missing
    token, and treats the locations as if they were cut or filled up with
    blank cells to the number of time descriptions: a missing location
    counts as in-person and a surplus one is ignored. *)
Theorem C7_no_shape_check :
  (forall (timetable : Worksheet) (startRow endRow : nat)
          (classTimesCol classLocationsCol : string),
     List.length (getColumnValues timetable classTimesCol startRow endRow)
     = List.length (getColumnValues timetable classLocationsCol startRow endRow))
  /\ (forall classTimes classLocations : list string,
        (forall t, In t classTimes -> exists key, slotKey t = Ok key) ->
        exists m, aggregate classTimes classLocations = Ok m)
  /\ (forall (classTimes classLocations : list string) (e : error),
        aggregate classTimes classLocations = Throw e ->
        e = TypeError "Cannot read properties of undefined (reading 'split')"
        /\ exists t, In t classTimes /\ slotKey t = Throw e)
  /\ (forall classTimes classLocations : list string,
        aggregate classTimes classLocations
        = aggregate classTimes
            (fitLocations (List.length classTimes) classLocations)).
Proof.
  split; [|split; [|split]].
  - intros. now rewrite !getColumnValues_length.
  - intros ts ls H. now apply countRows_Ok.
  - intros ts ls e H.
    destruct (countRows_Throw ts 0 ls [] e H) as (t & Hin & Ht).
    split; [now apply (slotKey_error t) | eauto].
  - intros ts ls. unfold aggregate. apply countRows_ext.
    intros j Hj. symmetry. apply isOnline_fitLocations. lia.
Qed.

Lemma C7_witness :
  exists m,
    aggregate ["Mon 09:00 - 11:00"; "Tue 13:00 - 15:00"; "Tue 13:00 - 15:00"]
              ["Online (ONLINE)"; "Online (ONLINE)"]
    = Ok m.
Proof.
  apply (proj1 (proj2 C7_no_shape_check)
           ["Mon 09:00 - 11:00"; "Tue 13:00 - 15:00"; "Tue 13:00 - 15:00"]
           ["Online (ONLINE)"; "Online (ONLINE)"]).
  intros t [<- | [<- | [<- | []]]]; eexists; reflexivity.
Defined.

(** C7 as stated fails: with three time descriptions and two locations the
    aggregator throws nothing; it returns a schedule in which the third
    row, whose location is missing, is counted as in-person. *)
Lemma C7_counterexample :
  aggregate ["Mon 09:00 - 11:00"; "Tue 13:00 - 15:00"; "Tue 13:00 - 15:00"]
            ["Online (ONLINE)"; "Online (ONLINE)"]
  = Ok [("Mon 9am - 11am", {| in_person := 0; online := 1 |});
        ("Tue 1pm - 3pm", {| in_person := 1; online := 1 |})]
  /\ ~ (exists e : error,
          aggregate ["Mon 09:00 - 11:00"; "Tue 13:00 - 15:00"; "Tue 13:00 - 15:00"]
                    ["Online (ONLINE)"; "Online (ONLINE)"]
          = Throw e).
Proof. split; [reflexivity | intros [e H]; discriminate H]. Qed.

(** ** The aggregator does not depend on the order of the rows *)

Section Commutation.

Lemma sameGet_refl (m : Combinations) : sameGet m m.
Proof. intros k. reflexivity. Qed.

Lemma sameGet_trans (m1 m2 m3 : Combinations) :
  sameGet m1 m2 -> sameGet m2 m3 -> sameGet m1 m3.
Proof. intros H1 H2 k. now rewrite H1. Qed.

Lemma sameOutcome_trans (r1 r2 r3 : result Combinations) :
  sameOutcome sameGet r1 r2 -> sameOutcome sameGet r2 r3 ->
  sameOutcome sameGet r1 r3.
Proof.
  destruct r1 as [m1|e1|], r2 as [m2|e2|], r3 as [m3|e3|]; simpl;
    solve [apply sameGet_trans | tauto | congruence].
Qed.

(** The entry stored for a row, given the entry found. *)
Lemma countRow_sameGet (m m' : Combinations) (classTime : string)
    (location : option string) :
  sameGet m m' ->
  sameOutcome sameGet (countRow m classTime location)
                      (countRow m' classTime location).
Proof.
  intros H. unfold countRow.
  destruct (slotKey classTime) as [key|e|] eqn:Hkey; simpl;
    [|reflexivity|now apply slotKey_ends in Hkey].
  intros k. rewrite !get_set, (H key). destruct (String.eqb key k); auto.
Qed.

Lemma bind_assoc {A B C : Type} (r : result A) (f : A -> result B)
    (g : B -> result C) :
  bind (bind r f) g = bind r (fun a => bind (f a) g).
Proof. now destruct r. Qed.

Lemma bind_sameOutcome (r r' : result Combinations)
    (k k' : Combinations -> result Combinations) :
  sameOutcome sameGet r r' ->
  (forall m m', sameGet m m' -> sameOutcome sameGet (k m) (k' m')) ->
  sameOutcome sameGet (bind r k) (bind r' k').
Proof.
  destruct r as [m|e|], r' as [m'|e'|]; simpl; intros H Hk;
    solve [now apply Hk | contradiction | exact H].
Qed.

Lemma countPairs_sameGet (rows : list (string * string)) :
  forall m m' : Combinations,
    sameGet m m' ->
    sameOutcome sameGet (countPairs rows m) (countPairs rows m').
Proof.
  induction rows as [|[t l] rows IH]; intros m m' H; simpl; [exact H|].
  apply bind_sameOutcome; [now apply countRow_sameGet | exact IH].
Qed.

(** Two turns of the loop commute. *)
Lemma countRow_swap (m : Combinations) (t1 t2 : string) (l1 l2 : option string) :
  sameOutcome sameGet
    (bind (countRow m t1 l1) (fun m1 => countRow m1 t2 l2))
    (bind (countRow m t2 l2) (fun m2 => countRow m2 t1 l1)).
Proof.
  unfold countRow.
  destruct (slotKey t1) as [k1|e1|] eqn:E1, (slotKey t2) as [k2|e2|] eqn:E2;
    simpl; try reflexivity;
    try solve [now apply slotKey_ends in E1 | now apply slotKey_ends in E2].
  - intros k. rewrite !get_set.
    destruct (String.eqb k1 k2) eqn:E12.
    + apply String.eqb_eq in E12. subst k2.
      rewrite String.eqb_refl.
      destruct (String.eqb k1 k); [|reflexivity].
      destruct (get m k1) as [c|]; simpl;
        destruct (isOnline l1), (isOnline l2); simpl; do 2 f_equal; lia.
    + assert (E21 : String.eqb k2 k1 = false)
        by (rewrite String.eqb_sym; exact E12).
      rewrite E21.
      destruct (String.eqb k2 k) eqn:E2k, (String.eqb k1 k) eqn:E1k;
        try reflexivity.
      apply String.eqb_eq in E2k, E1k. subst.
      rewrite String.eqb_refl in E12. discriminate.
  - apply slotKey_error in E1, E2. congruence.
Qed.

Lemma countPairs_two (t1 l1 t2 l2 : string) (rows : list (string * string))
    (m : Combinations) :
  countPairs ((t1, l1) :: (t2, l2) :: rows) m
  = bind (bind (countRow m t1 (Some l1)) (fun m1 => countRow m1 t2 (Some l2)))
         (countPairs rows).
Proof. rewrite bind_assoc. reflexivity. Qed.

Lemma countPairs_perm (rows rows' : list (string * string)) :
  Permutation rows rows' ->
  forall m m' : Combinations,
    sameGet m m' ->
    sameOutcome sameGet (countPairs rows m) (countPairs rows' m').
Proof.
  induction 1 as [|[t l] rows rows' Hperm IH
                  |[t1 l1] [t2 l2] rows
                  |rows1 rows2 rows3 H12 IH12 H23 IH23];
    intros m m' Hm.
  - exact Hm.
  - simpl. apply bind_sameOutcome; [now apply countRow_sameGet | exact IH].
  - rewrite !countPairs_two.
    apply bind_sameOutcome; [|apply countPairs_sameGet].
    eapply sameOutcome_trans; [apply countRow_swap|].
    apply bind_sameOutcome; [now apply countRow_sameGet|].
    intros m1 m1' H1. now apply countRow_sameGet.
  - eapply sameOutcome_trans.
    + apply IH12. apply sameGet_refl.
    + apply IH23. exact Hm.
Qed.

Lemma skipn_cons_inv {A : Type} (i : nat) :
  forall (l : list A) (x : A) (r : list A),
    skipn i l = x :: r -> nth_error l i = Some x /\ skipn (S i) l = r.
Proof.
  induction i as [|i IH]; intros l x r H.
  - simpl in H. subst l. auto.
  - destruct l as [|y l]; [discriminate|]. simpl in H.
    destruct (IH l x r H) as [H1 H2]. auto.
Qed.

(** On arrays of equal length the loop is the loop over the rows. *)
Lemma countRows_countPairs (classTimes : list string) :
  forall (i : nat) (classLocations : list string) (m : Combinations),
    List.length classTimes = List.length (skipn i classLocations) ->
    countRows i classTimes classLocations m
    = countPairs (combine classTimes (skipn i classLocations)) m.
Proof.
  induction classTimes as [|t ts IH]; intros i ls m Hlen; [reflexivity|].
  destruct (skipn i ls) as [|l r] eqn:E; [discriminate|].
  destruct (skipn_cons_inv i ls l r E) as [Hnth Hskip].
  simpl. rewrite Hnth.
  destruct (countRow m t (Some l)) as [m1|e|]; simpl; [|reflexivity|reflexivity].
  rewrite IH, Hskip; [reflexivity|].
  rewrite Hskip. simpl in Hlen. congruence.
Qed.

Lemma countRow_NoDup (m m1 : Combinations) (classTime : string)
    (location : option string) :
  NoDup (map fst m) ->
  countRow m classTime location = Ok m1 ->
  NoDup (map fst m1).
Proof.
  unfold countRow. destruct (slotKey classTime); simpl;
    [|discriminate|discriminate].
  intros Hnd H. inversion H. now apply set_NoDup.
Qed.

Lemma countPairs_NoDup (rows : list (string * string)) :
  forall m m1 : Combinations,
    NoDup (map fst m) -> countPairs rows m = Ok m1 -> NoDup (map fst m1).
Proof.
  induction rows as [|[t l] rows IH]; intros m m1 Hnd H; simpl in H.
  - inversion H. now subst.
  - destruct (countRow m t (Some l)) as [m'|e|] eqn:E; simpl in H;
      [|discriminate|discriminate].
    eapply IH; [|exact H]. eapply countRow_NoDup; eauto.
Qed.

Lemma sameGet_sameEntries (m m' : Combinations) :
  NoDup (map fst m) -> NoDup (map fst m') ->
  sameGet m m' -> sameEntries m m'.
Proof.
  intros Hnd Hnd' H k c.
  now rewrite (In_get m k c Hnd), (In_get m' k c Hnd'), (H k).
Qed.

End Commutation.

(** C6: when the rows of two equally long arrays of time descriptions and
    locations are permuted in the same way, the aggregator ends alike on
    both: either it returns two schedules with the same set of entries
    (key and counts), or it throws the same error on both. *)
Theorem C6_aggregate_permutation
    (classTimes classLocations classTimes' classLocations' : list string) :
  List.length classTimes = List.length classLocations ->
  List.length classTimes' = List.length classLocations' ->
  Permutation (combine classTimes classLocations)
              (combine classTimes' classLocations') ->
  sameOutcome sameEntries (aggregate classTimes classLocations)
                          (aggregate classTimes' classLocations').
Proof.
  intros Hlen Hlen' Hperm.
  unfold aggregate.
  rewrite (countRows_countPairs classTimes 0 classLocations []) by exact Hlen.
  rewrite (countRows_countPairs classTimes' 0 classLocations' []) by exact Hlen'.
  simpl skipn.
  pose proof (countPairs_perm _ _ Hperm [] [] (sameGet_refl [])) as H.
  destruct (countPairs (combine classTimes classLocations) []) as [m|e|] eqn:E;
    destruct (countPairs (combine classTimes' classLocations') []) as [m'|e'|] eqn:E';
    simpl in *; try contradiction; try assumption.
  apply sameGet_sameEntries; [| |exact H].
  - eapply countPairs_NoDup; [|exact E]. constructor.
  - eapply countPairs_NoDup; [|exact E']. constructor.
Qed.

Lemma C6_witness :
  sameOutcome sameEntries
    (aggregate ["Mon 09:00 - 11:00"; "Tue 13:00 - 15:00"; "Mon 09:00 - 11:00"]
               ["Online (ONLINE)"; "Room 101"; "Room 102"])
    (aggregate ["Tue 13:00 - 15:00"; "Mon 09:00 - 11:00"; "Mon 09:00 - 11:00"]
               ["Room 101"; "Room 102"; "Online (ONLINE)"]).
Proof.
  apply (C6_aggregate_permutation
           ["Mon 09:00 - 11:00"; "Tue 13:00 - 15:00"; "Mon 09:00 - 11:00"]
           ["Online (ONLINE)"; "Room 101"; "Room 102"]
           ["Tue 13:00 - 15:00"; "Mon 09:00 - 11:00"; "Mon 09:00 - 11:00"]
           ["Room 101"; "Room 102"; "Online (ONLINE)"]).
  - reflexivity.
  - reflexivity.
  - simpl.
    apply perm_trans
      with [("Tue 13:00 - 15:00", "Room 101"); ("Mon 09:00 - 11:00", "Online (ONLINE)");
            ("Mon 09:00 - 11:00", "Room 102")].
    + apply perm_swap.
    + apply perm_skip. apply perm_swap.
Defined.

(** ** Weekdays and array indices *)

Section Weekdays.

Lemma indexOf_weekdays (x : string) :
  (x = "Mon" /\ indexOf weekdaysOrder x = 0)
  \/ (x = "Tue" /\ indexOf weekdaysOrder x = 1)
  \/ (x = "Wed" /\ indexOf weekdaysOrder x = 2)
  \/ (x = "Thu" /\ indexOf weekdaysOrder x = 3)
  \/ (x = "Fri" /\ indexOf weekdaysOrder x = 4)
  \/ indexOf weekdaysOrder x = -1.
Proof.
  unfold indexOf, weekdaysOrder. cbn [indexOf_from].
  destruct (String.eqb "Mon" x) eqn:E1; [apply String.eqb_eq in E1; auto|].
  destruct (String.eqb "Tue" x) eqn:E2; [apply String.eqb_eq in E2; auto|].
  destruct (String.eqb "Wed" x) eqn:E3; [apply String.eqb_eq in E3; auto 6|].
  destruct (String.eqb "Thu" x) eqn:E4; [apply String.eqb_eq in E4; auto 7|].
  destruct (String.eqb "Fri" x) eqn:E5; [apply String.eqb_eq in E5; auto 8|].
  auto 8.
Qed.


(** Two recognised weekdays at the same position are the same token. *)
Lemma dayIndex_inj (a b : string) :
  dayIndex a <> -1 -> dayIndex a = dayIndex b -> dayToken a = dayToken b.
Proof.
  unfold dayIndex.
  destruct (indexOf_weekdays (dayToken a))
    as [[Ea ->] | [[Ea ->] | [[Ea ->] | [[Ea ->] | [[Ea ->] | ->]]]]];
    destruct (indexOf_weekdays (dayToken b))
      as [[Eb ->] | [[Eb ->] | [[Eb ->] | [[Eb ->] | [[Eb ->] | ->]]]]];
    intros Hne Heq; try lia; congruence.
Qed.

Lemma dayToken_first (key : string) (c : ascii) (r : string) :
  dayToken key = String c r -> exists key', key = String c key'.
Proof.
  unfold dayToken. destruct key as [|a key']; simpl; [discriminate|].
  destruct (Ascii.eqb a " "); simpl; [discriminate|].
  destruct (split " " key'); simpl; intros H; inversion H; eauto.
Qed.

(** A key that begins with a weekday of the fixed sequence is no array
    index, so enumeration leaves it where it was created. *)
Lemma recognized_not_index (key : string) :
  dayIndex key <> -1 -> is_index key = false.
Proof.
  unfold dayIndex. intros Hne.
  destruct (indexOf_weekdays (dayToken key))
    as [[E _] | [[E _] | [[E _] | [[E _] | [[E _] | E]]]]];
    [| | | | |contradiction];
    apply dayToken_first in E; destruct E as [key' ->]; reflexivity.
Qed.


Lemma wellFormedKey_inv (key : string) :
  wellFormedKey key = true ->
  dayIndex key <> -1
  /\ exists time, timeToken key = Some time /\ parseHour time = Int (startHour key).
Proof.
  unfold wellFormedKey, startHour. intros H.
  apply andb_true_iff in H. destruct H as [H1 H2].
  split.
  - apply negb_true_iff, Z.eqb_neq in H1. exact H1.
  - destruct (timeToken key) as [time|]; [|discriminate].
    exists time. split; [reflexivity|].
    destruct (parseHour time); try discriminate. reflexivity.
Qed.

(** On well-formed keys the comparator returns, and its sign is the
    order by weekday and start hour. *)
Lemma compareKeys_wellFormed (a b : string) :
  wellFormedKey a = true -> wellFormedKey b = true ->
  exists v, compareKeys a b = Ok v /\ negative v = slotLtb a b.
Proof.
  intros Ha Hb.
  destruct (wellFormedKey_inv a Ha) as (Hda & ta & Hta & Hpa).
  destruct (wellFormedKey_inv b Hb) as (Hdb & tb & Htb & Hpb).
  unfold compareKeys, slotLtb.
  destruct (String.eqb (dayToken a) (dayToken b)) eqn:E; simpl.
  - apply String.eqb_eq in E.
    assert (Hidx : dayIndex a = dayIndex b) by (unfold dayIndex; now rewrite E).
    rewrite Hta, Htb, Hpa, Hpb. eexists. split; [reflexivity|].
    simpl. rewrite Hidx, Z.ltb_irrefl, Z.eqb_refl. simpl.
    destruct (Z.ltb_spec (startHour a + - startHour b) 0),
             (Z.ltb_spec (startHour a) (startHour b)); auto; lia.
  - apply String.eqb_neq in E.
    assert (Hidx : dayIndex a <> dayIndex b)
      by (intros Heq; apply E; now apply dayIndex_inj).
    eexists. split; [reflexivity|].
    simpl. fold (dayIndex a) (dayIndex b).
    assert (Hneq : (dayIndex a =? dayIndex b)%Z = false)
      by (apply Z.eqb_neq; congruence).
    rewrite Hneq, orb_false_r.
    destruct (Z.ltb_spec (dayIndex a + - dayIndex b) 0),
             (Z.ltb_spec (dayIndex a) (dayIndex b)); auto; lia.
Qed.

End Weekdays.

(** ** The order on well-formed keys *)

Section SlotOrder.

Lemma slotLtb_false_slotLe (a b : string) : slotLtb b a = false -> slotLe a b.
Proof.
  unfold slotLtb, slotLe. intros H.
  apply orb_false_iff in H. destruct H as [H1 H2].
  apply Z.ltb_ge in H1.
  destruct (Z.eqb_spec (dayIndex b) (dayIndex a)) as [E|E]; simpl in H2.
  - apply Z.ltb_ge in H2. right. split; [congruence | exact H2].
  - left. lia.
Qed.

Lemma slotLtb_true_slotLe (a b : string) : slotLtb a b = true -> slotLe a b.
Proof.
  unfold slotLtb, slotLe. intros H.
  apply orb_true_iff in H. destruct H as [H | H].
  - apply Z.ltb_lt in H. now left.
  - apply andb_true_iff in H. destruct H as [H1 H2].
    apply Z.eqb_eq in H1. apply Z.ltb_lt in H2. right. split; [exact H1 | lia].
Qed.

Lemma slotLe_trans (a b c : string) : slotLe a b -> slotLe b c -> slotLe a c.
Proof. unfold slotLe. intros [H1 | [H1 H1']] [H2 | [H2 H2']]; [left | left | left | right]; lia. Qed.

Lemma tied_slotLtb (k a b : string) :
  tied k a = true -> tied k b = true -> slotLtb a b = false.
Proof.
  unfold tied, slotLtb. intros Ha Hb.
  apply andb_true_iff in Ha, Hb.
  destruct Ha as [Ha1 Ha2], Hb as [Hb1 Hb2].
  apply Z.eqb_eq in Ha1, Ha2, Hb1, Hb2.
  apply orb_false_iff. split.
  - apply Z.ltb_ge. lia.
  - apply andb_false_iff. right. apply Z.ltb_ge. lia.
Qed.

Lemma insertKey_perm (x : string) (l : list string) :
  Permutation (insertKey x l) (x :: l).
Proof.
  induction l as [|y l IH]; simpl; [reflexivity|].
  destruct (slotLtb y x); [|reflexivity].
  rewrite IH. apply perm_swap.
Qed.

Lemma sortKeys_perm (l : list string) : Permutation (sortKeys l) l.
Proof.
  induction l as [|x l IH]; simpl; [reflexivity|].
  rewrite insertKey_perm. now constructor.
Qed.

Lemma insertKey_sorted (x : string) (l : list string) :
  StronglySorted slotLe l -> StronglySorted slotLe (insertKey x l).
Proof.
  induction l as [|y l IH]; simpl; intros Hs.
  - repeat constructor.
  - apply StronglySorted_inv in Hs. destruct Hs as [Hs Hy].
    destruct (slotLtb y x) eqn:E.
    + constructor; [now apply IH|].
      apply Forall_forall. intros z Hz.
      apply (Permutation_in _ (insertKey_perm x l)) in Hz.
      destruct Hz as [<- | Hz].
      * now apply slotLtb_true_slotLe.
      * rewrite Forall_forall in Hy. now apply Hy.
    + assert (Hxy : slotLe x y) by now apply slotLtb_false_slotLe.
      constructor; [now constructor|].
      constructor; [exact Hxy|].
      eapply Forall_impl; [|exact Hy].
      intros z Hz. now apply slotLe_trans with y.
Qed.

Lemma sortKeys_sorted (l : list string) : StronglySorted slotLe (sortKeys l).
Proof.
  induction l as [|x l IH]; simpl; [constructor | now apply insertKey_sorted].
Qed.

(** Insertion never moves a key past a key it ties with. *)
Lemma insertKey_stable (k x : string) (l : list string) :
  filter (tied k) (insertKey x l) = filter (tied k) (x :: l).
Proof.
  induction l as [|y l IH]; [reflexivity|].
  cbn [insertKey]. destruct (slotLtb y x) eqn:E; [|reflexivity].
  cbn [filter] in *. rewrite IH.
  destruct (tied k y) eqn:Ey, (tied k x) eqn:Ex; try reflexivity.
  rewrite (tied_slotLtb k y x Ey Ex) in E. discriminate.
Qed.

Lemma sortKeys_stable (k : string) (l : list string) :
  filter (tied k) (sortKeys l) = filter (tied k) l.
Proof.
  induction l as [|x l IH]; [reflexivity|].
  cbn [sortKeys fold_right]. fold (sortKeys l).
  rewrite insertKey_stable. cbn [filter]. now rewrite IH.
Qed.

(** The aggregator builds well-formed keys from rows with a weekday of
    the fixed sequence and a start hour of 0..23; the sort key of such a
    key is the weekday's position and that hour. *)
Lemma slotKey_wellFormed (classTime day begin sep end_ : string)
    (rest : list string) (h : Z) :
  split " " classTime = day :: begin :: sep :: end_ :: rest ->
  In day weekdaysOrder ->
  hoursOf begin = Int h ->
  0 <= h <= 23 ->
  exists key : string,
    slotKey classTime = Ok key
    /\ wellFormedKey key = true
    /\ dayIndex key = indexOf weekdaysOrder day
    /\ startHour key = h.
Proof.
  intros Hsplit Hday Hbegin Hh.
  rewrite (slotKey_tokens _ _ _ _ _ _ Hsplit).
  eexists. split; [reflexivity|].
  rewrite (convertTo12HourFormat_hours begin), Hbegin.
  generalize (convertTo12HourFormat end_). intros label.
  pose proof (hour_cases h Hh) as Hin.
  unfold weekdaysOrder in Hday. simpl in Hday.
  destruct Hday as [<- | [<- | [<- | [<- | [<- | []]]]]];
    repeat (destruct Hin as [<- | Hin]; [repeat split; reflexivity|]);
    destruct Hin.
Qed.

End SlotOrder.

(** ** The sort with an arbitrary comparator, and the copy into the new
    object *)

Section SortLemmas.
Context {A : Type} (comparefn : A -> A -> result number).

Lemma firstn_skipn_length (l1 l2 : list A) :
  firstn (List.length l1) (l1 ++ l2) = l1 /\ skipn (List.length l1) (l1 ++ l2) = l2.
Proof.
  induction l1 as [|x l1 [IH1 IH2]]; simpl; [auto|]. now rewrite IH1, IH2.
Qed.

(** An element put in at any place is one element more. *)
Lemma insert_at_perm (left : nat) (pivot : A) (sorted rest : list A) :
  Permutation ((firstn left sorted ++ pivot :: skipn left sorted) ++ rest)
              (sorted ++ pivot :: rest).
Proof.
  rewrite <- (firstn_skipn left sorted) at 3.
  rewrite <- !app_assoc. apply Permutation_app_head.
  simpl. apply Permutation_middle.
Qed.

(** *** The binary search *)

(** What holds of [left] and [right] through the search holds of the
    place found, which lies between the two. *)
Lemma insertionPoint_inv (P : nat -> nat -> Prop) (pivot : A) (sorted : list A) :
  (forall (left right : nat) (x : A) (order : number),
     P left right ->
     (left < right <= List.length sorted)%nat ->
     nth_error sorted (left + (right - left) / 2) = Some x ->
     comparefn pivot x = Ok order ->
     if negative order
     then P left (left + (right - left) / 2)%nat
     else P (left + (right - left) / 2 + 1)%nat right) ->
  forall fuel left right place : nat,
    (right - left <= fuel)%nat ->
    (left <= right <= List.length sorted)%nat ->
    P left right ->
    insertionPoint comparefn fuel pivot sorted left right = Ok place ->
    (left <= place <= right)%nat /\ P place place.
Proof.
  intros Hstep.
  induction fuel as [|fuel IH]; intros left right place Hfuel Hlr HP H;
    cbn [insertionPoint] in H.
  - destruct (Nat.ltb_spec left right) as [Hlt|Hge]; [lia|].
    inversion H. subst place. assert (right = left) by lia. subst right. auto.
  - destruct (Nat.ltb_spec left right) as [Hlt|Hge].
    + cbv zeta in H.
      assert (Hmid : (left <= left + (right - left) / 2 < right)%nat).
      { pose proof (Nat.div_lt (right - left) 2). lia. }
      destruct (nth_error sorted (left + (right - left) / 2)) as [x|] eqn:Hx.
      * destruct (comparefn pivot x) as [order|e|] eqn:Hc; simpl in H;
          try discriminate.
        specialize (Hstep left right x order HP (conj Hlt (proj2 Hlr)) Hx Hc).
        destruct (negative order).
        -- destruct (IH left (left + (right - left) / 2)%nat place
                       ltac:(lia) ltac:(lia) Hstep H) as [Hb HPp].
           split; [lia | exact HPp].
        -- destruct (IH (left + (right - left) / 2 + 1)%nat right place
                       ltac:(lia) ltac:(lia) Hstep H) as [Hb HPp].
           split; [lia | exact HPp].
      * apply nth_error_None in Hx. lia.
    + inversion H. subst place. assert (right = left) by lia. subst right. auto.
Qed.

Lemma insertionPoint_total (pivot : A) (sorted : list A) :
  (forall x, In x sorted -> exists order, comparefn pivot x = Ok order) ->
  forall fuel left right : nat,
    exists place, insertionPoint comparefn fuel pivot sorted left right = Ok place.
Proof.
  intros H. induction fuel as [|fuel IH]; intros left right;
    cbn [insertionPoint].
  - destruct (left <? right)%nat; eauto.
  - destruct (left <? right)%nat; [|eauto]. cbv zeta.
    destruct (nth_error sorted (left + (right - left) / 2)) as [x|] eqn:Hx;
      [|eauto].
    destruct (H x (nth_error_In _ _ Hx)) as [order Hc]. rewrite Hc. simpl.
    destruct (negative order); apply IH.
Qed.

(** When the pivot compares below every element of the back part, its
    place is not behind the front part. *)
Lemma insertionPoint_le (pivot : A) (front back : list A) (place : nat) :
  (forall x order, In x back -> comparefn pivot x = Ok order ->
                   negative order = true) ->
  insertionPoint comparefn (List.length (front ++ back)) pivot (front ++ back)
    0 (List.length (front ++ back)) = Ok place ->
  (place <= List.length front)%nat.
Proof.
  intros Hback H.
  refine (proj2 (insertionPoint_inv
                   (fun left _ => (left <= List.length front)%nat)
                   pivot (front ++ back) _
                   (List.length (front ++ back)) 0%nat
                   (List.length (front ++ back)) place _ _ _ H));
    [|lia|lia|lia].
  intros left right x order HP Hlr Hx Hc.
  destruct (negative order) eqn:Hneg; [exact HP|].
  destruct (Nat.lt_ge_cases (left + (right - left) / 2) (List.length front))
    as [Hlt|Hge]; [lia|].
  rewrite nth_error_app2 in Hx by exact Hge.
  apply nth_error_In in Hx. rewrite (Hback x order Hx Hc) in Hneg. discriminate.
Qed.

(** When the pivot compares below no element of the front part, its place
    is not before the back part. *)
Lemma insertionPoint_ge (pivot : A) (front back : list A) (place : nat) :
  (forall x order, In x front -> comparefn pivot x = Ok order ->
                   negative order = false) ->
  insertionPoint comparefn (List.length (front ++ back)) pivot (front ++ back)
    0 (List.length (front ++ back)) = Ok place ->
  (List.length front <= place)%nat.
Proof.
  intros Hfront H.
  refine (proj2 (insertionPoint_inv
                   (fun _ right => (List.length front <= right)%nat)
                   pivot (front ++ back) _
                   (List.length (front ++ back)) 0%nat
                   (List.length (front ++ back)) place _ _ _ H));
    [|lia|lia|rewrite length_app; lia].
  intros left right x order HP Hlr Hx Hc.
  destruct (negative order) eqn:Hneg; [|exact HP].
  destruct (Nat.lt_ge_cases (left + (right - left) / 2) (List.length front))
    as [Hlt|Hge]; [|exact Hge].
  rewrite nth_error_app1 in Hx by exact Hlt.
  apply nth_error_In in Hx. rewrite (Hfront x order Hx Hc) in Hneg. discriminate.
Qed.

(** So an array cut where the pivot stops comparing below takes the pivot
    at the cut. *)
Lemma insertionPoint_cut (pivot : A) (front back : list A) (place : nat) :
  (forall x order, In x front -> comparefn pivot x = Ok order ->
                   negative order = false) ->
  (forall x order, In x back -> comparefn pivot x = Ok order ->
                   negative order = true) ->
  insertionPoint comparefn (List.length (front ++ back)) pivot (front ++ back)
    0 (List.length (front ++ back)) = Ok place ->
  (firstn place (front ++ back) ++ pivot :: skipn place (front ++ back))%list
  = (front ++ pivot :: back)%list.
Proof.
  intros Hfront Hback H.
  pose proof (insertionPoint_le pivot front back place Hback H).
  pose proof (insertionPoint_ge pivot front back place Hfront H).
  assert (place = List.length front) by lia. subst place.
  destruct (firstn_skipn_length front back) as [-> ->]. reflexivity.
Qed.

(** *** The insertion loop *)

Lemma binaryInsertionSort_perm (rest : list A) :
  forall sorted out : list A,
    binaryInsertionSort comparefn sorted rest = Ok out ->
    Permutation out (sorted ++ rest).
Proof.
  induction rest as [|pivot rest IH]; intros sorted out H; simpl in H.
  - inversion H. now rewrite app_nil_r.
  - destruct (insertionPoint _ _ _ _ _ _) as [left|e|]; simpl in H;
      try discriminate.
    rewrite (IH _ _ H). apply insert_at_perm.
Qed.

Lemma binaryInsertionSort_total (rest : list A) :
  forall sorted : list A,
    (forall x y, In x (sorted ++ rest) -> In y (sorted ++ rest) ->
                 exists order, comparefn x y = Ok order) ->
    exists out, binaryInsertionSort comparefn sorted rest = Ok out.
Proof.
  induction rest as [|pivot rest IH]; intros sorted H; simpl; [eauto|].
  destruct (insertionPoint_total pivot sorted
              ltac:(intros x Hx; apply H; apply in_or_app; simpl; auto)
              (List.length sorted) 0%nat (List.length sorted)) as [left Hleft].
  rewrite Hleft. simpl. apply IH.
  intros x y Hx Hy.
  apply H; eapply Permutation_in; try apply insert_at_perm; eassumption.
Qed.

(** *** The run at the start *)

Lemma countRun_spec (rest : list A) :
  forall (isDescending : bool) (previousElement : A) (n m : nat),
    countRun comparefn isDescending previousElement rest n = Ok m ->
    exists k : nat,
      m = (n + k)%nat /\ (k <= List.length rest)%nat
      /\ Sorted (runStep comparefn isDescending) (previousElement :: firstn k rest).
Proof.
  induction rest as [|current rest IH]; intros d prev n m H; simpl in H.
  - inversion H. exists 0%nat. repeat split; [lia | lia | repeat constructor].
  - destruct (comparefn current prev) as [order|e|] eqn:Hc; simpl in H;
      try discriminate.
    destruct (Bool.eqb (negative order) d) eqn:Hd.
    + apply eqb_prop in Hd.
      destruct (IH _ _ _ _ H) as (k & -> & Hk & Hs).
      exists (S k). repeat split; [lia | simpl; lia |].
      simpl. constructor; [exact Hs|]. constructor. now exists order.
    + inversion H. exists 0%nat. repeat split; [lia | lia | repeat constructor].
Qed.

Lemma countRun_total (rest : list A) :
  forall (isDescending : bool) (previousElement : A) (n : nat),
    (forall x y, In x (previousElement :: rest) -> In y (previousElement :: rest) ->
                 exists order, comparefn x y = Ok order) ->
    exists m, countRun comparefn isDescending previousElement rest n = Ok m.
Proof.
  induction rest as [|current rest IH]; intros d prev n H; simpl; [eauto|].
  destruct (H current prev) as [order ->]; simpl; auto.
  destruct (Bool.eqb (negative order) d); [|eauto].
  apply IH. intros x y Hx Hy. apply H; simpl; tauto.
Qed.

(** What [countAndMakeRun] leaves: a run of at least two elements, put in
    ascending order, before the elements that were behind it. *)
Lemma countAndMakeRun_spec (arr : list A) (run : nat * list A) :
  (2 <= List.length arr)%nat ->
  countAndMakeRun comparefn arr = Ok run ->
  exists isDescending : bool,
    (2 <= fst run <= List.length arr)%nat
    /\ Sorted (runStep comparefn isDescending) (firstn (fst run) arr)
    /\ firstn (fst run) (snd run)
       = (if isDescending then rev (firstn (fst run) arr)
          else firstn (fst run) arr)
    /\ skipn (fst run) (snd run) = skipn (fst run) arr.
Proof.
  intros Hlen H.
  destruct arr as [|a0 [|a1 rest]]; simpl in Hlen; try lia.
  cbn [countAndMakeRun] in H.
  destruct (comparefn a1 a0) as [order|e|] eqn:Hc; simpl in H; try discriminate.
  destruct (countRun comparefn (negative order) a1 rest 2) as [m|e|] eqn:Hm;
    simpl in H; try discriminate.
  destruct (countRun_spec rest _ _ _ _ Hm) as (k & -> & Hk & Hs).
  inversion H. subst run. clear H. cbn [fst snd].
  exists (negative order).
  change (2 + k)%nat with (S (S k)) in *.
  assert (Hrun : firstn (S (S k)) (a0 :: a1 :: rest) = a0 :: a1 :: firstn k rest)
    by reflexivity.
  split; [simpl; lia|]. split.
  - rewrite Hrun. constructor; [exact Hs|]. constructor. now exists order.
  - destruct (negative order); [|auto].
    unfold reverseRange.
    assert (Hl : List.length (rev (firstn (S (S k)) (a0 :: a1 :: rest)))
                 = S (S k)).
    { rewrite length_rev, Hrun. simpl. rewrite firstn_length_le by exact Hk. lia. }
    pose proof (firstn_skipn_length (rev (firstn (S (S k)) (a0 :: a1 :: rest)))
                  (skipn (S (S k)) (a0 :: a1 :: rest))) as [H1 H2].
    rewrite Hl in H1, H2. auto.
Qed.

Lemma countAndMakeRun_total (arr : list A) :
  (forall x y, In x arr -> In y arr -> exists order, comparefn x y = Ok order) ->
  exists run, countAndMakeRun comparefn arr = Ok run.
Proof.
  intros H. destruct arr as [|a0 [|a1 rest]]; simpl; eauto.
  destruct (H a1 a0) as [order ->]; simpl; auto.
  destruct (countRun_total rest (negative order) a1 2) as [m ->]; simpl; eauto.
  intros x y Hx Hy. apply H; simpl; tauto.
Qed.

(** *** The sort *)

(** A sort that returns has found a run and put the other elements into
    it. *)
Lemma sort_inv (arr out : list A) :
  sort comparefn arr = Ok out ->
  ((List.length arr < 2)%nat /\ out = arr)
  \/ exists (isDescending : bool) (n : nat),
       (2 <= n <= List.length arr)%nat
       /\ Sorted (runStep comparefn isDescending) (firstn n arr)
       /\ binaryInsertionSort comparefn
            (if isDescending then rev (firstn n arr) else firstn n arr)
            (skipn n arr) = Ok out.
Proof.
  unfold sort. intros H.
  destruct (Nat.ltb_spec (List.length arr) 2) as [Hlt|Hge].
  - left. inversion H. subst out. auto.
  - right.
    destruct (countAndMakeRun comparefn arr) as [run|e|] eqn:Hrun; simpl in H;
      try discriminate.
    destruct (countAndMakeRun_spec arr run Hge Hrun) as (d & Hn & Hs & H1 & H2).
    exists d, (fst run). rewrite H1, H2 in H. auto.
Qed.

Lemma run_perm (isDescending : bool) (n : nat) (arr : list A) :
  Permutation ((if isDescending then rev (firstn n arr) else firstn n arr)
               ++ skipn n arr) arr.
Proof.
  rewrite <- (firstn_skipn n arr) at 4.
  apply Permutation_app_tail.
  destruct isDescending; [symmetry; apply Permutation_rev | reflexivity].
Qed.

Lemma sort_perm (l s : list A) : sort comparefn l = Ok s -> Permutation s l.
Proof.
  intros H. destruct (sort_inv l s H) as [[_ ->] | (d & n & _ & _ & Hs)];
    [reflexivity|].
  rewrite (binaryInsertionSort_perm _ _ _ Hs). apply run_perm.
Qed.

(** A comparator that returns on the elements at hand lets the sort
    return. *)
Lemma sort_total (l : list A) :
  (forall x y, In x l -> In y l -> exists v, comparefn x y = Ok v) ->
  exists s, sort comparefn l = Ok s.
Proof.
  intros H. unfold sort.
  destruct (Nat.ltb_spec (List.length l) 2) as [Hlt|Hge]; [eauto|].
  destruct (countAndMakeRun_total l H) as [run Hrun].
  destruct (countAndMakeRun_spec l run Hge Hrun) as (d & Hn & Hs & H1 & H2).
  rewrite Hrun. simpl. rewrite H1, H2.
  apply binaryInsertionSort_total.
  intros x y Hx Hy.
  apply H; eapply Permutation_in; try apply (run_perm d (fst run) l); eassumption.
Qed.

End SortLemmas.

Section Copy.

Lemma fold_copyEntry (o : Combinations) (es : list (string * Counts)) :
  forall acc : Combinations,
    NoDup (map fst es) ->
    (forall k, In k (map fst es) -> ~ In k (map fst acc)) ->
    (forall k v, In (k, v) es -> get o k = Some v) ->
    fold_left (copyEntry o) (map fst es) acc = (acc ++ es)%list.
Proof.
  induction es as [|[k v] es IH]; intros acc Hnd Hfresh Hget;
    cbn [map fst fold_left].
  - now rewrite app_nil_r.
  - inversion Hnd as [|? ? Hnotin Hnd']; subst.
    assert (Hcopy : copyEntry o acc k = (acc ++ [(k, v)])%list).
    { unfold copyEntry. rewrite (Hget k v) by (simpl; auto).
      apply set_keys_absent, get_None_not_In, Hfresh. simpl. auto. }
    rewrite Hcopy.
    rewrite IH; [now rewrite <- app_assoc | exact Hnd' | |].
    + intros k' Hk'. rewrite map_app, in_app_iff. simpl.
      intros [Hin | [<- | []]]; [|contradiction].
      apply (Hfresh k'); simpl; auto.
    + intros k' v' Hin. apply Hget. simpl. auto.
Qed.

Lemma entries_of_keys (o : Combinations) :
  NoDup (map fst o) ->
  map (fun k => (k, valueOf o k)) (map fst o) = o.
Proof.
  intros Hnd. rewrite map_map.
  rewrite <- (map_id o) at 2. apply map_ext_in.
  intros [k v] Hin. simpl. unfold valueOf.
  apply (In_get o k v Hnd) in Hin. now rewrite Hin.
Qed.

Lemma Object_keys_perm {V : Type} (o : obj V) :
  Permutation (Object_keys o) (map fst o).
Proof. unfold Object_keys. apply Permutation_map, Object_entries_perm. Qed.

(** What [orderCombinations] returns, given the sorted keys: the entries
    of the input, created in the order of the sorted keys. *)
Lemma orderCombinations_entries (o : Combinations) (keys : list string) :
  NoDup (map fst o) ->
  sort compareKeys (Object_keys o) = Ok keys ->
  exists es : Combinations,
    orderCombinations o = Ok es
    /\ map fst es = keys
    /\ Permutation es o.
Proof.
  intros Hnd Hsort.
  pose proof (sort_perm compareKeys _ _ Hsort) as Hperm.
  assert (Hperm' : Permutation keys (map fst o))
    by (rewrite Hperm; apply Object_keys_perm).
  exists (map (fun k => (k, valueOf o k)) keys).
  assert (Hfst : map fst (map (fun k => (k, valueOf o k)) keys) = keys)
    by (rewrite map_map; simpl; apply map_id).
  split; [|split].
  - unfold orderCombinations. rewrite Hsort. simpl. f_equal.
    rewrite <- Hfst at 1.
    rewrite fold_copyEntry; [reflexivity | | |].
    + rewrite Hfst. eapply Permutation_NoDup; [symmetry; exact Hperm'|exact Hnd].
    + intros k _ [].
    + intros k v Hin. apply in_map_iff in Hin.
      destruct Hin as (k' & E & Hin). inversion E; subst k' v.
      unfold valueOf.
      assert (Hk : In k (map fst o)) by (eapply Permutation_in; eauto).
      destruct (get o k) eqn:G; [reflexivity|].
      apply get_None_not_In in G. contradiction.
  - exact Hfst.
  - apply Permutation_trans with (map (fun k => (k, valueOf o k)) (map fst o)).
    + now apply Permutation_map.
    + now rewrite (entries_of_keys o Hnd).
Qed.

Lemma filter_none {A : Type} (f : A -> bool) (l : list A) :
  Forall (fun x => f x = false) l -> filter f l = [].
Proof.
  induction 1 as [|x l Hx Hl IH]; simpl; [reflexivity|]. now rewrite Hx.
Qed.

Lemma filter_all {A : Type} (f : A -> bool) (l : list A) :
  Forall (fun x => f x = true) l -> filter f l = l.
Proof.
  induction 1 as [|x l Hx Hl IH]; simpl; [reflexivity|]. now rewrite Hx, IH.
Qed.

(** Without array indices among the keys, enumeration order is creation
    order. *)
Lemma Object_keys_no_index {V : Type} (o : obj V) :
  Forall (fun k => is_index k = false) (map fst o) ->
  Object_keys o = map fst o.
Proof.
  intros H. rewrite Forall_map in H.
  unfold Object_keys, Object_entries.
  rewrite filter_none by exact H.
  rewrite filter_all; [reflexivity|].
  eapply Forall_impl; [|exact H]. intros e He. simpl in He. now rewrite He.
Qed.

End Copy.

(** ** The sort of well-formed keys *)

Section SortOfKeys.

Lemma tied_refl (k : string) : tied k k = true.
Proof. unfold tied. now rewrite !Z.eqb_refl. Qed.

Lemma slotLe_tied (a b : string) : slotLe a b -> slotLe b a -> tied a b = true.
Proof.
  unfold slotLe, tied. intros H1 H2.
  apply andb_true_iff. split; apply Z.eqb_eq; lia.
Qed.

Lemma slotLtb_slotLe (p x z : string) :
  slotLtb p x = true -> slotLe x z -> slotLtb p z = true.
Proof.
  unfold slotLtb, slotLe. intros H1 H2.
  apply orb_true_iff in H1. apply orb_true_iff.
  rewrite andb_true_iff, !Z.ltb_lt, Z.eqb_eq in *. lia.
Qed.

Lemma slotLtb_trans (a b c : string) :
  slotLtb c b = true -> slotLtb b a = true -> slotLtb c a = true.
Proof.
  intros H1 H2. apply (slotLtb_slotLe c b a H1). now apply slotLtb_true_slotLe.
Qed.

(** Two sorted lists that list the keys of each tie in the same order are
    the same list. *)
Lemma sorted_stable_unique (l : list string) :
  forall l' : list string,
    StronglySorted slotLe l -> StronglySorted slotLe l' ->
    (forall k, filter (tied k) l = filter (tied k) l') ->
    l = l'.
Proof.
  induction l as [|x l IH]; intros l' Hs Hs' Hf.
  - destruct l' as [|y l']; [reflexivity|].
    specialize (Hf y). simpl in Hf. rewrite tied_refl in Hf. discriminate.
  - destruct l' as [|y l'].
    { specialize (Hf x). simpl in Hf. rewrite tied_refl in Hf. discriminate. }
    apply StronglySorted_inv in Hs, Hs'.
    destruct Hs as [Hs Hx], Hs' as [Hs' Hy].
    rewrite Forall_forall in Hx, Hy.
    assert (Hxy : tied x y = true).
    { assert (Hinx : In x (y :: l')).
      { assert (H : In x (filter (tied x) (y :: l')))
          by (rewrite <- Hf; simpl; rewrite tied_refl; now left).
        now apply filter_In in H. }
      assert (Hiny : In y (x :: l)).
      { assert (H : In y (filter (tied y) (x :: l)))
          by (rewrite Hf; simpl; rewrite tied_refl; now left).
        now apply filter_In in H. }
      destruct Hinx as [<- | Hinx]; [apply tied_refl|].
      destruct Hiny as [<- | Hiny]; [apply tied_refl|].
      apply slotLe_tied; auto. }
    assert (E : x = y).
    { specialize (Hf x). simpl in Hf. rewrite tied_refl, Hxy in Hf. congruence. }
    subst y. f_equal. apply IH; [exact Hs | exact Hs' |].
    intros k. specialize (Hf k). simpl in Hf.
    destruct (tied k x); congruence.
Qed.

Lemma StronglySorted_insert {A : Type} (R : A -> A -> Prop) (p : A)
    (front back : list A) :
  StronglySorted R (front ++ back) ->
  Forall (fun z => R z p) front -> Forall (R p) back ->
  StronglySorted R (front ++ p :: back).
Proof.
  induction front as [|x front IH]; simpl; intros Hs Hfront Hback.
  - now constructor.
  - apply StronglySorted_inv in Hs. destruct Hs as [Hs Hx].
    inversion Hfront as [|? ? Hxp Hfront']; subst.
    constructor; [now apply IH|].
    apply Forall_app in Hx. destruct Hx as [Hx1 Hx2].
    apply Forall_app. split; [exact Hx1 | now constructor].
Qed.

(** A sorted list is cut in two by any key: the keys it is not below, then
    the keys it is below. *)
Lemma sorted_cut (p : string) (s : list string) :
  StronglySorted slotLe s ->
  exists front back : list string,
    s = (front ++ back)%list
    /\ Forall (fun x => slotLtb p x = false) front
    /\ Forall (fun x => slotLtb p x = true) back.
Proof.
  induction 1 as [|x s Hs IH Hx].
  - exists [], []. auto.
  - destruct (slotLtb p x) eqn:E.
    + exists [], (x :: s). repeat split; [constructor|].
      constructor; [exact E|].
      eapply Forall_impl; [|exact Hx]. intros z Hz.
      now apply (slotLtb_slotLe p x z).
    + destruct IH as (front & back & -> & Hfront & Hback).
      exists (x :: front), back. auto.
Qed.

(** The comparator on well-formed keys, read through [order < 0]. *)
Lemma compareKeys_negative (a b : string) (order : number) :
  wellFormedKey a = true -> wellFormedKey b = true ->
  compareKeys a b = Ok order -> negative order = slotLtb a b.
Proof.
  intros Ha Hb H.
  destruct (compareKeys_wellFormed a b Ha Hb) as (v & Hv & Hneg). congruence.
Qed.

(** Putting the remaining keys in keeps the array sorted and moves no key
    past a key it ties with. *)
Lemma binaryInsertionSort_wellFormed (rest : list string) :
  forall sorted out : list string,
    Forall (fun k => wellFormedKey k = true) sorted ->
    Forall (fun k => wellFormedKey k = true) rest ->
    StronglySorted slotLe sorted ->
    binaryInsertionSort compareKeys sorted rest = Ok out ->
    StronglySorted slotLe out
    /\ forall k, filter (tied k) out = filter (tied k) (sorted ++ rest).
Proof.
  induction rest as [|pivot rest IH]; intros sorted out Hwf Hrest Hs H;
    simpl in H.
  - inversion H. subst out. rewrite app_nil_r. auto.
  - inversion Hrest as [|? ? Hp Hrest']; subst.
    destruct (insertionPoint _ _ _ _ _ _) as [place|e|] eqn:Hplace; simpl in H;
      try discriminate.
    destruct (sorted_cut pivot sorted Hs) as (front & back & -> & Hfront & Hback).
    apply Forall_app in Hwf. destruct Hwf as [Hwf1 Hwf2].
    rewrite Forall_forall in Hfront, Hback, Hwf1, Hwf2.
    rewrite (insertionPoint_cut compareKeys pivot front back place) in H;
      [| | |exact Hplace].
    + destruct (IH _ _ ltac:(apply Forall_app; split; [|constructor];
                              [apply Forall_forall; exact Hwf1 | exact Hp
                              | apply Forall_forall; exact Hwf2])
                  Hrest'
                  ltac:(apply StronglySorted_insert; [exact Hs | |];
                        apply Forall_forall; intros z Hz;
                        [apply slotLtb_false_slotLe; auto
                        |apply slotLtb_true_slotLe; auto])
                  H) as [Hout Hf].
      split; [exact Hout|].
      intros k. rewrite Hf, !filter_app. cbn [filter].
      destruct (tied k pivot) eqn:Ek; [|reflexivity].
      rewrite (filter_none (tied k) back); [now rewrite <- !app_assoc|].
      apply Forall_forall. intros z Hz.
      destruct (tied k z) eqn:Ez; [|reflexivity].
      specialize (Hback z Hz).
      rewrite (tied_slotLtb k pivot z Ek Ez) in Hback. discriminate.
    + intros x order Hx Hc.
      rewrite (compareKeys_negative pivot x order Hp (Hwf1 x Hx) Hc). auto.
    + intros x order Hx Hc.
      rewrite (compareKeys_negative pivot x order Hp (Hwf2 x Hx) Hc). auto.
Qed.

Lemma Sorted_impl {A : Type} (P : A -> Prop) (R R' : A -> A -> Prop) (l : list A) :
  (forall x y, P x -> P y -> R x y -> R' x y) ->
  Forall P l -> Sorted R l -> Sorted R' l.
Proof.
  intros Himpl. induction l as [|x l IH]; intros HP Hs; [constructor|].
  inversion HP as [|? ? Hx HP']; subst.
  inversion Hs as [|? ? Hs' Hhd]; subst.
  constructor; [now apply IH|].
  destruct Hhd as [|y l Hxy]; constructor.
  inversion HP'; subst. auto.
Qed.

(** A run in which each key is below the one before it has no two keys
    that tie, and reads sorted from its end. *)
Lemma descending_rev (l : list string) :
  StronglySorted (fun x y => slotLtb y x = true) l ->
  StronglySorted slotLe (rev l)
  /\ forall k, filter (tied k) (rev l) = filter (tied k) l.
Proof.
  induction 1 as [|x l Hs [IH1 IH2] Hx]; [split; [constructor | reflexivity]|].
  simpl. split.
  - apply StronglySorted_insert.
    + now rewrite app_nil_r.
    + apply Forall_rev. eapply Forall_impl; [|exact Hx].
      intros z Hz. now apply slotLtb_true_slotLe.
    + constructor.
  - intros k. rewrite filter_app, IH2. cbn [filter].
    destruct (tied k x) eqn:Ek; [|now rewrite app_nil_r].
    rewrite (filter_none (tied k) l); [reflexivity|].
    eapply Forall_impl; [|exact Hx]. intros z Hz. simpl in Hz.
    destruct (tied k z) eqn:Ez; [|reflexivity].
    rewrite (tied_slotLtb k z x Ez Ek) in Hz. discriminate.
Qed.

(** The run found at the start, once in ascending order, is sorted and
    keeps ties as they stood. *)
Lemma run_wellFormed (isDescending : bool) (run : list string) :
  Forall (fun k => wellFormedKey k = true) run ->
  Sorted (runStep compareKeys isDescending) run ->
  StronglySorted slotLe (if isDescending then rev run else run)
  /\ forall k, filter (tied k) (if isDescending then rev run else run)
               = filter (tied k) run.
Proof.
  intros Hwf Hs. destruct isDescending.
  - apply descending_rev.
    apply Sorted_StronglySorted.
    + intros a b c Hab Hbc. simpl in *. now apply slotLtb_trans with b.
    + eapply Sorted_impl; [|exact Hwf|exact Hs].
      intros x y Hx Hy (order & Hc & Hneg). simpl.
      now rewrite <- (compareKeys_negative y x order Hy Hx Hc).
  - split; [|reflexivity].
    apply Sorted_StronglySorted.
    + intros a b c. apply slotLe_trans.
    + eapply Sorted_impl; [|exact Hwf|exact Hs].
      intros x y Hx Hy (order & Hc & Hneg).
      apply slotLtb_false_slotLe.
      now rewrite <- (compareKeys_negative y x order Hy Hx Hc).
Qed.

Lemma sort_sorted_stable (l out : list string) :
  Forall (fun k => wellFormedKey k = true) l ->
  sort compareKeys l = Ok out ->
  StronglySorted slotLe out
  /\ forall k, filter (tied k) out = filter (tied k) l.
Proof.
  intros Hwf H.
  destruct (sort_inv compareKeys l out H) as [[Hlen ->] | (d & n & Hn & Hs & Hb)].
  - split; [|reflexivity].
    destruct l as [|x [|y l]]; simpl in Hlen; try lia; repeat constructor.
  - rewrite <- (firstn_skipn n l) in Hwf.
    apply Forall_app in Hwf. destruct Hwf as [Hwf1 Hwf2].
    destruct (run_wellFormed d (firstn n l) Hwf1 Hs) as [Hrun Hf].
    assert (Hwf0 : Forall (fun k => wellFormedKey k = true)
                          (if d then rev (firstn n l) else firstn n l))
      by (destruct d; [apply Forall_rev|]; exact Hwf1).
    destruct (binaryInsertionSort_wellFormed _ _ _ Hwf0 Hwf2 Hrun Hb)
      as [Hout Hf'].
    split; [exact Hout|].
    intros k. rewrite Hf', filter_app, Hf, <- filter_app.
    now rewrite firstn_skipn.
Qed.

(** On well-formed keys the sort of the script is the stable sort by
    [slotLtb]. *)
Lemma sort_wellFormed (l : list string) :
  Forall (fun k => wellFormedKey k = true) l ->
  sort compareKeys l = Ok (sortKeys l).
Proof.
  intros Hwf.
  destruct (sort_total compareKeys l) as [out Hout].
  { intros x y Hx Hy. rewrite Forall_forall in Hwf.
    destruct (compareKeys_wellFormed x y (Hwf x Hx) (Hwf y Hy)) as (v & Hv & _).
    eauto. }
  destruct (sort_sorted_stable l out Hwf Hout) as [Hs Hf].
  rewrite Hout. f_equal.
  apply sorted_stable_unique; [exact Hs | apply sortKeys_sorted |].
  intros k. now rewrite Hf, sortKeys_stable.
Qed.

End SortOfKeys.

(** C2: on a schedule whose keys are well-formed slot keys,
    [orderCombinations] returns an object with exactly the entries of its
    input, enumerated in ascending order of the weekday's position in
    Mon, Tue, Wed, Thu, Fri and, within a weekday, of the start hour read
    by [parseHour]; keys that tie on both stand in the order of the input.
    The slots "Wed 9am - 10am", "Mon 2pm - 4pm", "Mon 10am - 12pm" come out
    as "Mon 10am - 12pm", "Mon 2pm - 4pm", "Wed 9am - 10am". *)
Theorem C2_orderCombinations_sorted :
  (forall combinations : Combinations,
     NoDup (map fst combinations) ->
     Forall (fun k => wellFormedKey k = true) (map fst combinations) ->
     exists ordered : Combinations,
       orderCombinations combinations = Ok ordered
       /\ Permutation ordered combinations
       /\ StronglySorted slotLe (Object_keys ordered)
       /\ (forall k, filter (tied k) (Object_keys ordered)
                     = filter (tied k) (Object_keys combinations)))
  /\ (forall c1 c2 c3 : Counts,
        orderCombinations [("Wed 9am - 10am", c1); ("Mon 2pm - 4pm", c2);
                           ("Mon 10am - 12pm", c3)]
        = Ok [("Mon 10am - 12pm", c3); ("Mon 2pm - 4pm", c2);
              ("Wed 9am - 10am", c1)]
        /\ Object_keys [("Mon 10am - 12pm", c3); ("Mon 2pm - 4pm", c2);
                        ("Wed 9am - 10am", c1)]
           = ["Mon 10am - 12pm"; "Mon 2pm - 4pm"; "Wed 9am - 10am"]).
Proof.
  split; [|intros c1 c2 c3; split; reflexivity].
  intros o Hnd Hwf.
  assert (Hidx : forall l, Forall (fun k => wellFormedKey k = true) l ->
                           Forall (fun k => is_index k = false) l).
  { intros l Hl. eapply Forall_impl; [|exact Hl].
    intros k Hk. apply recognized_not_index.
    now destruct (wellFormedKey_inv k Hk). }
  assert (Hkeys : Object_keys o = map fst o)
    by (apply Object_keys_no_index; auto).
  assert (Hsort : sort compareKeys (Object_keys o) = Ok (sortKeys (map fst o)))
    by (rewrite Hkeys; now apply sort_wellFormed).
  destruct (orderCombinations_entries o _ Hnd Hsort) as (es & Hes & Hfst & Hperm).
  assert (Hkeys' : Object_keys es = sortKeys (map fst o)).
  { rewrite <- Hfst. apply Object_keys_no_index. rewrite Hfst.
    apply Hidx. apply Forall_forall. intros k Hk.
    apply (Permutation_in _ (sortKeys_perm (map fst o))) in Hk.
    rewrite Forall_forall in Hwf. now apply Hwf. }
  exists es. split; [exact Hes|]. split; [exact Hperm|].
  rewrite Hkeys', Hkeys. split.
  - apply sortKeys_sorted.
  - intros k. apply sortKeys_stable.
Qed.

Lemma C2_witness :
  exists ordered : Combinations,
    orderCombinations
      [("Wed 9am - 10am", {| in_person := 1; online := 0 |});
       ("Mon 2pm - 4pm", {| in_person := 0; online := 2 |});
       ("Mon 10am - 12pm", {| in_person := 3; online := 1 |});
       ("Mon 2pm - 3pm", {| in_person := 1; online := 1 |})]
    = Ok ordered
    /\ Permutation ordered
         [("Wed 9am - 10am", {| in_person := 1; online := 0 |});
          ("Mon 2pm - 4pm", {| in_person := 0; online := 2 |});
          ("Mon 10am - 12pm", {| in_person := 3; online := 1 |});
          ("Mon 2pm - 3pm", {| in_person := 1; online := 1 |})]
    /\ StronglySorted slotLe (Object_keys ordered)
    /\ (forall k,
          filter (tied k) (Object_keys ordered)
          = filter (tied k)
              (Object_keys
                 [("Wed 9am - 10am", {| in_person := 1; online := 0 |});
                  ("Mon 2pm - 4pm", {| in_person := 0; online := 2 |});
                  ("Mon 10am - 12pm", {| in_person := 3; online := 1 |});
                  ("Mon 2pm - 3pm", {| in_person := 1; online := 1 |})])).
Proof.
  apply (proj1 C2_orderCombinations_sorted
           [("Wed 9am - 10am", {| in_person := 1; online := 0 |});
            ("Mon 2pm - 4pm", {| in_person := 0; online := 2 |});
            ("Mon 10am - 12pm", {| in_person := 3; online := 1 |});
            ("Mon 2pm - 3pm", {| in_person := 1; online := 1 |})]).
  - simpl. repeat constructor; simpl; intuition discriminate.
  - simpl. repeat constructor.
Defined.

(** ** Array indices are read off their digits *)

Section ArrayIndex.









End ArrayIndex.

(** ** Keys with a first token outside the weekday sequence *)

Section UnknownWeekdays.










(** *** Unknown weekdays first *)











(** *** The order of the unknown weekdays among themselves *)





(** *** Relative order *)












End UnknownWeekdays.

(** ** Enumeration of the ordered object *)

Section OrderedEnumeration.
Context {V : Type}.






End OrderedEnumeration.

Section SortedOrder.




Lemma compareKeys_total (a b : string) :
  timeToken a <> None -> timeToken b <> None ->
  exists v, compareKeys a b = Ok v.
Proof.
  intros Ha Hb. unfold compareKeys.
  destruct (negb (String.eqb (dayToken a) (dayToken b))); [eauto|].
  destruct (timeToken a); [|contradiction].
  destruct (timeToken b); [eauto | contradiction].
Qed.

End SortedOrder.




(** ** Beyond the hours of a day *)

Section HoursBeyond.

Lemma residue_cases (r : Z) :
  0 <= r < 12 -> In r [0; 1; 2; 3; 4; 5; 6; 7; 8; 9; 10; 11].
Proof.
  intros Hr.
  assert (H : 0 <= r <= 23) by lia.
  apply hour_cases in H. simpl in H. simpl.
  repeat (destruct H as [H | H]; [first [lia | auto 20]|]).
  contradiction.
Qed.

End HoursBeyond.

(** X1: for a time string whose hour field reads as an integer h from 0
    on, below 2^53 (where every integer is a number of its own), the label
    reads back as h mod 12, plus 12 when h is 12 or more: the hours from 24
    on fold onto 12..23 ("24:00" is labelled "12pm" and reads back as 12),
    so the round trip is the identity on 0..23 only. *)
Theorem X1_round_trip_folds_hours (time24 : string) (h : Z) :
  0 <= h < 2 ^ 53 ->
  hoursOf time24 = Int h ->
  parseHour (convertTo12HourFormat time24)
  = Int (h mod 12 + (if (h <? 12)%Z then 0 else 12)).
Proof.
  intros [Hh _] Hhours.
  rewrite (convertTo12HourFormat_hours time24), Hhours.
  cbn [rem ge].
  rewrite Z.rem_mod_nonneg by lia.
  assert (Hr : 0 <= h mod 12 < 12) by (apply Z.mod_pos_bound; lia).
  pose proof (residue_cases _ Hr) as Hin.
  destruct (Z.leb_spec 12 h) as [Hge|Hlt];
    destruct (Z.ltb_spec h 12) as [Hlt'|Hge']; try lia;
    revert Hin; generalize (h mod 12); intros r Hin;
    repeat (destruct Hin as [<- | Hin]; [reflexivity|]);
    destruct Hin.
Qed.

Lemma X1_witness :
  parseHour (convertTo12HourFormat "24:00")
  = Int (24 mod 12 + (if (24 <? 12)%Z then 0 else 12)).
Proof.
  apply (X1_round_trip_folds_hours "24:00" 24).
  - split; [lia | reflexivity].
  - reflexivity.
Defined.

(** X2: a row whose start and end times are written without a digit, in
    ASCII, and whose hour fields are no numbers (a text without a digit
    reads as a number only when it is blank or names an infinity) is not
    refused: both labels come out as "12am", so all such rows of one day
    are counted in the slot "{day} 12am - 12am", which sorts at hour 0. *)
Theorem X2_unreadable_times_become_midnight
    (classTime day begin sep end_ : string) (rest : list string) :
  split " " classTime = day :: begin :: sep :: end_ :: rest ->
  noDigit begin = true -> hoursOf begin = NaN ->
  noDigit end_ = true -> hoursOf end_ = NaN ->
  slotKey classTime = Ok (day ++ " 12am - 12am")
  /\ parseHour (convertTo12HourFormat begin) = Int 0.
Proof.
  intros Hsplit _ Hb _ He.
  rewrite (slotKey_tokens _ _ _ _ _ _ Hsplit).
  rewrite (convertTo12HourFormat_hours begin), Hb.
  rewrite (convertTo12HourFormat_hours end_), He.
  split; reflexivity.
Qed.

Lemma X2_witness :
  slotKey "Mon noon - late" = Ok ("Mon" ++ " 12am - 12am")
  /\ parseHour (convertTo12HourFormat "noon") = Int 0.
Proof.
  apply (X2_unreadable_times_become_midnight
           "Mon noon - late" "Mon" "noon" "-" "late" []);
    reflexivity.
Defined.

(** ** What the aggregator counts *)

Section Tallies.

Lemma tally_nonneg (key : string) (mode : bool) (rows : list (string * string)) :
  0 <= tally key mode rows.
Proof. unfold tally. lia. Qed.

Lemma tally_cons (key : string) (mode : bool) (row : string * string)
    (rows : list (string * string)) :
  tally key mode (row :: rows)
  = (if rowMatches key mode row then 1 else 0) + tally key mode rows.
Proof.
  unfold tally. cbn [filter].
  destruct (rowMatches key mode row); cbn [List.length]; lia.
Qed.

Lemma rowMatches_other (key k : string) (mode : bool) (t l : string) :
  slotKey t = Ok k -> k <> key -> rowMatches key mode (t, l) = false.
Proof.
  intros Hk Hne. unfold rowMatches. simpl. rewrite Hk.
  apply String.eqb_neq in Hne. now rewrite Hne.
Qed.

Lemma rowMatches_same (key : string) (mode : bool) (t l : string) :
  slotKey t = Ok key ->
  rowMatches key mode (t, l) = Bool.eqb (isOnline (Some l)) mode.
Proof.
  intros Hk. unfold rowMatches. simpl. now rewrite Hk, String.eqb_refl.
Qed.

(** The entry of a key after the loop, from the entry before it and the
    rows of that key. *)
Lemma countPairs_tally (rows : list (string * string)) :
  forall (m m' : Combinations) (key : string),
    countPairs rows m = Ok m' ->
    get m' key
    = if (tally key false rows + tally key true rows =? 0)%Z
      then get m key
      else Some {| in_person := in_person (valueOf m key) + tally key false rows;
                   online := online (valueOf m key) + tally key true rows |}.
Proof.
  induction rows as [|[t l] rows IH]; intros m m' key H.
  - simpl in H. inversion H. reflexivity.
  - cbn [countPairs] in H.
    destruct (slotKey t) as [k|e|] eqn:Hk;
      [|rewrite (countRow_Throw m t _ e Hk) in H; discriminate
       |now apply slotKey_ends in Hk].
    rewrite (countRow_Ok m t k _ Hk) in H. cbn [bind] in H.
    rewrite (IH _ _ key H). clear IH H.
    rewrite !tally_cons.
    pose proof (tally_nonneg key false rows).
    pose proof (tally_nonneg key true rows).
    destruct (String.eqb k key) eqn:E.
    + apply String.eqb_eq in E. subst k.
      rewrite !(rowMatches_same key _ t l Hk).
      unfold valueOf at 1 2. rewrite get_set_same.
      fold (valueOf m key).
      set (tf := tally key false rows) in *.
      set (tt := tally key true rows) in *.
      destruct (valueOf m key) as [ip on].
      destruct (isOnline (Some l)); cbn [Bool.eqb in_person online].
      * destruct (Z.eqb_spec (0 + tf + (1 + tt)) 0) as [E0|_]; [lia|].
        destruct (Z.eqb_spec (tf + tt) 0) as [E1|_]; do 2 f_equal; lia.
      * destruct (Z.eqb_spec (1 + tf + (0 + tt)) 0) as [E0|_]; [lia|].
        destruct (Z.eqb_spec (tf + tt) 0) as [E1|_]; do 2 f_equal; lia.
    + apply String.eqb_neq in E.
      rewrite !(rowMatches_other key k _ t l Hk E).
      unfold valueOf. rewrite (get_set_other m k key _) by congruence.
      reflexivity.
Qed.

Lemma combine_columns_length (timetable : Worksheet) (startRow endRow : nat)
    (c1 c2 : string) :
  List.length (getColumnValues timetable c1 startRow endRow)
  = List.length (skipn 0 (getColumnValues timetable c2 startRow endRow)).
Proof. cbn [skipn]. now rewrite !getColumnValues_length. Qed.

Lemma processClassSchedules_countPairs (timetable : Worksheet)
    (startRow endRow : nat) (c1 c2 : string) :
  processClassSchedules timetable startRow endRow c1 c2
  = countPairs (timetableRows timetable startRow endRow c1 c2) [].
Proof.
  unfold processClassSchedules, aggregate, timetableRows.
  now rewrite countRows_countPairs by apply combine_columns_length.
Qed.

Lemma aggregate_countPairs (classTimes classLocations : list string) :
  List.length classTimes = List.length classLocations ->
  aggregate classTimes classLocations
  = countPairs (combine classTimes classLocations) [].
Proof.
  intros H. unfold aggregate.
  now rewrite (countRows_countPairs classTimes 0 classLocations []) by exact H.
Qed.

Lemma filter_filter {A : Type} (f g : A -> bool) (l : list A) :
  filter f (filter g l) = filter (fun x => g x && f x) l.
Proof.
  induction l as [|x l IH]; simpl; [reflexivity|].
  destruct (g x); simpl; [destruct (f x)|]; now rewrite IH.
Qed.

(** The tallies of a slot, read on the rows of the slot alone. *)
Lemma tally_rowsOfSlot (key : string) (rows : list (string * string)) :
  tally key true rows
  = Z.of_nat (List.length
                (filter (fun row => String.eqb (snd row) "Online (ONLINE)")
                        (rowsOfSlot key rows)))
  /\ tally key false rows
     = Z.of_nat (List.length
                   (filter (fun row => negb (String.eqb (snd row) "Online (ONLINE)"))
                           (rowsOfSlot key rows))).
Proof.
  unfold tally, rowsOfSlot. rewrite !filter_filter.
  split; do 2 f_equal; apply filter_ext; intros [t l];
    unfold rowMatches, isOnline; cbn [fst snd];
    destruct (slotKey t) as [k|e|]; try reflexivity;
    destruct (String.eqb k key), (String.eqb l "Online (ONLINE)"); reflexivity.
Qed.

Lemma filter_lengths {A : Type} (f : A -> bool) (l : list A) :
  (List.length (filter f l) + List.length (filter (fun x => negb (f x)) l)
   = List.length l)%nat.
Proof.
  induction l as [|x l IH]; simpl; [reflexivity|].
  destruct (f x); simpl; lia.
Qed.

End Tallies.

(** C4: during aggregation a row is counted as online exactly when its
    location is the string "Online (ONLINE)".  One turn of the loop adds
    one to the online count of the row's slot key when the location is
    that string, and one to the in-person count of that key with any other
    location string; the other count and all other keys stay as they were.
    When the aggregator returns on two arrays of one length, the entry of a
    key holds as online count the number of rows of that key whose location,
    at the same index, is that string, and as in-person count the number of
    the other rows of that key; a key of no row has no entry.
    [processClassSchedules] is this loop on the two columns it reads, which
    have one length. *)
Theorem C4_online_iff_sentinel :
  (forall (combinations : Combinations) (classTime location key : string),
     slotKey classTime = Ok key ->
     exists combinations' : Combinations,
       countRow combinations classTime (Some location) = Ok combinations'
       /\ (let c := match get combinations key with
                    | Some c => c
                    | None => zeroCounts
                    end in
           (location = "Online (ONLINE)" ->
            get combinations' key
            = Some {| in_person := in_person c; online := online c + 1 |})
           /\ (location <> "Online (ONLINE)" ->
               get combinations' key
               = Some {| in_person := in_person c + 1; online := online c |}))
       /\ (forall k, k <> key -> get combinations' k = get combinations k))
  /\ (forall (classTimes classLocations : list string) (schedule : Combinations)
             (key : string),
        List.length classTimes = List.length classLocations ->
        aggregate classTimes classLocations = Ok schedule ->
        let rows := rowsOfSlot key (combine classTimes classLocations) in
        get schedule key
        = match rows with
          | [] => None
          | _ :: _ =>
              Some {| in_person :=
                        Z.of_nat
                          (List.length
                             (filter (fun row =>
                                        negb (String.eqb (snd row) "Online (ONLINE)"))
                                     rows));
                      online :=
                        Z.of_nat
                          (List.length
                             (filter (fun row =>
                                        String.eqb (snd row) "Online (ONLINE)")
                                     rows)) |}
          end)
  /\ (forall (timetable : Worksheet) (startRow endRow : nat)
             (classTimesCol classLocationsCol : string),
        processClassSchedules timetable startRow endRow classTimesCol
                              classLocationsCol
        = aggregate (getColumnValues timetable classTimesCol startRow endRow)
                    (getColumnValues timetable classLocationsCol startRow endRow)
        /\ List.length (getColumnValues timetable classTimesCol startRow endRow)
           = List.length (getColumnValues timetable classLocationsCol
                                          startRow endRow)).
Proof.
  split; [|split].
  - intros combinations classTime location key Hkey.
    rewrite (countRow_Ok combinations classTime key (Some location) Hkey).
    eexists. split; [reflexivity|]. split.
    + cbv zeta. rewrite get_set_same. unfold isOnline. split; intros Hloc.
      * subst location. reflexivity.
      * apply String.eqb_neq in Hloc. now rewrite Hloc.
    + intros k Hk. now apply get_set_other.
  - intros classTimes classLocations schedule key Hlen H rows.
    rewrite (aggregate_countPairs _ _ Hlen) in H.
    rewrite (countPairs_tally _ _ _ key H).
    destruct (tally_rowsOfSlot key (combine classTimes classLocations))
      as [Hon Hin].
    fold rows in Hon, Hin. rewrite Hon, Hin.
    pose proof (filter_lengths
                  (fun row : string * string =>
                     String.eqb (snd row) "Online (ONLINE)") rows) as Hsum.
    destruct rows as [|row rows']; [reflexivity|].
    cbn [List.length] in Hsum.
    destruct (Z.eqb_spec
                (Z.of_nat
                   (List.length
                      (filter (fun row0 : string * string =>
                                 negb (String.eqb (snd row0) "Online (ONLINE)"))
                              (row :: rows')))
                 + Z.of_nat
                     (List.length
                        (filter (fun row0 : string * string =>
                                   String.eqb (snd row0) "Online (ONLINE)")
                                (row :: rows')))) 0) as [E|_]; [lia|].
    reflexivity.
  - intros. split; [reflexivity | now rewrite !getColumnValues_length].
Qed.

Lemma C4_witness :
  (exists combinations' : Combinations,
     countRow [("Mon 9am - 11am", {| in_person := 2; online := 5 |})]
              "Mon 09:00 - 11:00" (Some "Room 101") = Ok combinations'
     /\ (let c := match get [("Mon 9am - 11am", {| in_person := 2; online := 5 |})]
                            "Mon 9am - 11am" with
                  | Some c => c
                  | None => zeroCounts
                  end in
         ("Room 101" = "Online (ONLINE)" ->
          get combinations' "Mon 9am - 11am"
          = Some {| in_person := in_person c; online := online c + 1 |})
         /\ ("Room 101" <> "Online (ONLINE)" ->
             get combinations' "Mon 9am - 11am"
             = Some {| in_person := in_person c + 1; online := online c |}))
     /\ (forall k, k <> "Mon 9am - 11am" ->
         get combinations' k
         = get [("Mon 9am - 11am", {| in_person := 2; online := 5 |})] k))
  /\ get [("Mon 9am - 11am", {| in_person := 2; online := 1 |});
          ("Tue 1pm - 3pm", {| in_person := 1; online := 0 |})]
         "Mon 9am - 11am"
     = match rowsOfSlot "Mon 9am - 11am"
               (combine ["Mon 09:00 - 11:00"; "Tue 13:00 - 15:00";
                         "Mon 09:30 - 11:30"; "Mon 09:00 - 11:00"]
                        ["Online (ONLINE)"; "Room 101"; "online (ONLINE)"; ""])
       with
       | [] => None
       | _ :: _ =>
           Some {| in_person :=
                     Z.of_nat
                       (List.length
                          (filter (fun row =>
                                     negb (String.eqb (snd row) "Online (ONLINE)"))
                             (rowsOfSlot "Mon 9am - 11am"
                                (combine ["Mon 09:00 - 11:00"; "Tue 13:00 - 15:00";
                                          "Mon 09:30 - 11:30"; "Mon 09:00 - 11:00"]
                                         ["Online (ONLINE)"; "Room 101";
                                          "online (ONLINE)"; ""]))));
                   online :=
                     Z.of_nat
                       (List.length
                          (filter (fun row =>
                                     String.eqb (snd row) "Online (ONLINE)")
                             (rowsOfSlot "Mon 9am - 11am"
                                (combine ["Mon 09:00 - 11:00"; "Tue 13:00 - 15:00";
                                          "Mon 09:30 - 11:30"; "Mon 09:00 - 11:00"]
                                         ["Online (ONLINE)"; "Room 101";
                                          "online (ONLINE)"; ""])))) |}
       end.
Proof.
  split.
  - apply (proj1 C4_online_iff_sentinel
             [("Mon 9am - 11am", {| in_person := 2; online := 5 |})]
             "Mon 09:00 - 11:00" "Room 101" "Mon 9am - 11am").
    reflexivity.
  - apply (proj1 (proj2 C4_online_iff_sentinel)
             ["Mon 09:00 - 11:00"; "Tue 13:00 - 15:00"; "Mon 09:30 - 11:30";
              "Mon 09:00 - 11:00"]
             ["Online (ONLINE)"; "Room 101"; "online (ONLINE)"; ""]
             [("Mon 9am - 11am", {| in_person := 2; online := 1 |});
              ("Tue 1pm - 3pm", {| in_person := 1; online := 0 |})]
             "Mon 9am - 11am").
    + reflexivity.
    + reflexivity.
Defined.

(** X3: when [processClassSchedules] returns, the schedule has an entry for
    a key exactly when some row of the range has that key, and the entry
    holds the number of those rows whose location is not "Online (ONLINE)"
    as in-person count and the number of those whose location is it as
    online count. *)
Theorem X3_schedule_counts_rows (timetable : Worksheet) (startRow endRow : nat)
    (classTimesCol classLocationsCol : string) (schedule : Combinations)
    (key : string) :
  processClassSchedules timetable startRow endRow classTimesCol classLocationsCol
  = Ok schedule ->
  let rows := timetableRows timetable startRow endRow classTimesCol
                            classLocationsCol in
  get schedule key
  = if (tally key false rows + tally key true rows =? 0)%Z
    then None
    else Some {| in_person := tally key false rows;
                 online := tally key true rows |}.
Proof.
  intros H rows. rewrite processClassSchedules_countPairs in H.
  rewrite (countPairs_tally _ _ _ key H).
  fold rows.
  destruct (tally key false rows + tally key true rows =? 0)%Z; reflexivity.
Qed.

Lemma X3_witness :
  let rows := timetableRows sampleTimetable 31 32 "A" "B" in
  get [("Mon 9am - 11am", {| in_person := 1; online := 1 |})] "Mon 9am - 11am"
  = if (tally "Mon 9am - 11am" false rows + tally "Mon 9am - 11am" true rows =? 0)%Z
    then None
    else Some {| in_person := tally "Mon 9am - 11am" false rows;
                 online := tally "Mon 9am - 11am" true rows |}.
Proof.
  apply (X3_schedule_counts_rows sampleTimetable 31 32 "A" "B"
           [("Mon 9am - 11am", {| in_person := 1; online := 1 |})]
           "Mon 9am - 11am").
  reflexivity.
Defined.

(** ** No row is lost or counted twice *)

Section Conservation.

Lemma valueOf_cons_other (k k' : string) (v' : Counts) (m : Combinations) :
  String.eqb k' k = false -> valueOf ((k', v') :: m) k = valueOf m k.
Proof. intros E. unfold valueOf. simpl. now rewrite E. Qed.

Lemma total_set (f : Counts -> Z) (m : Combinations) (k : string) (v : Counts) :
  f zeroCounts = 0 ->
  total f (set m k v) = total f m + f v - f (valueOf m k).
Proof.
  intros Hzero. induction m as [|[k' v'] m IH].
  - unfold valueOf. simpl. lia.
  - simpl. destruct (String.eqb k' k) eqn:E.
    + unfold valueOf. simpl. rewrite E. lia.
    + rewrite (valueOf_cons_other k k' v' m E). simpl. lia.
Qed.

Lemma countRow_total (m m' : Combinations) (t : string) (l : option string) :
  countRow m t l = Ok m' ->
  total in_person m' = total in_person m + (if isOnline l then 0 else 1)
  /\ total online m' = total online m + (if isOnline l then 1 else 0).
Proof.
  intros H.
  destruct (slotKey t) as [k|e|] eqn:Hk;
    [|rewrite (countRow_Throw m t _ e Hk) in H; discriminate
     |now apply slotKey_ends in Hk].
  rewrite (countRow_Ok m t k _ Hk) in H. inversion H. subst m'. clear H.
  rewrite !total_set by reflexivity.
  fold (valueOf m k). destruct (isOnline l); simpl; lia.
Qed.

Lemma countPairs_total (rows : list (string * string)) :
  forall m m' : Combinations,
    countPairs rows m = Ok m' ->
    total online m'
    = total online m
      + Z.of_nat (List.length
                    (filter (fun row => isOnline (Some (snd row))) rows))
    /\ total in_person m' + total online m'
       = total in_person m + total online m + Z.of_nat (List.length rows).
Proof.
  induction rows as [|[t l] rows IH]; intros m m' H.
  - simpl in H. inversion H. simpl. lia.
  - cbn [countPairs] in H.
    destruct (countRow m t (Some l)) as [m1|e|] eqn:E;
      [|discriminate|discriminate].
    cbn [bind] in H.
    destruct (countRow_total m m1 t (Some l) E) as [Hin Hon].
    destruct (IH m1 m' H) as [IH1 IH2].
    cbn [filter snd List.length].
    destruct (isOnline (Some l)); cbn [List.length]; lia.
Qed.

Lemma timetableRows_length (timetable : Worksheet) (startRow endRow : nat)
    (c1 c2 : string) :
  List.length (timetableRows timetable startRow endRow c1 c2)
  = S (Nat.max startRow endRow - Nat.min startRow endRow).
Proof.
  unfold timetableRows.
  rewrite length_combine, !getColumnValues_length. apply Nat.min_id.
Qed.

Lemma online_rows_combine (ts ls : list string) :
  List.length ts = List.length ls ->
  List.length (filter (fun row : string * string => isOnline (Some (snd row)))
                 (combine ts ls))
  = List.length (filter (fun location => String.eqb location "Online (ONLINE)") ls).
Proof.
  revert ls. induction ts as [|t ts IH]; intros [|l ls] Hlen; try discriminate;
    [reflexivity|].
  cbn [combine filter snd isOnline].
  destruct (String.eqb l "Online (ONLINE)"); cbn [List.length];
    rewrite IH; auto.
Qed.

End Conservation.

(** X4: when [processClassSchedules] returns, the in-person and online
    counts of all slots add up to the number of rows read, endRow -
    startRow + 1, and the online counts add up to the number of rows whose
    location is "Online (ONLINE)": every row is counted once, in one
    slot and one teaching mode. *)
Theorem X4_every_row_counted_once (timetable : Worksheet) (startRow endRow : nat)
    (classTimesCol classLocationsCol : string) (schedule : Combinations) :
  (startRow <= endRow)%nat ->
  processClassSchedules timetable startRow endRow classTimesCol classLocationsCol
  = Ok schedule ->
  total in_person schedule + total online schedule
  = Z.of_nat (endRow - startRow + 1)
  /\ total online schedule
     = Z.of_nat
         (List.length
            (filter (fun location => String.eqb location "Online (ONLINE)")
               (getColumnValues timetable classLocationsCol startRow endRow))).
Proof.
  intros Hrows H. rewrite processClassSchedules_countPairs in H.
  destruct (countPairs_total _ _ _ H) as [Hon Hall].
  rewrite timetableRows_length in Hall.
  change (total in_person []) with 0 in Hall.
  change (total online []) with 0 in Hall, Hon.
  split.
  - rewrite Hall. rewrite Nat.max_r, Nat.min_l by lia. lia.
  - rewrite Hon. unfold timetableRows.
    rewrite online_rows_combine by now rewrite !getColumnValues_length.
    lia.
Qed.

Lemma X4_witness :
  total in_person [("Mon 9am - 11am", {| in_person := 1; online := 1 |})]
  + total online [("Mon 9am - 11am", {| in_person := 1; online := 1 |})]
  = Z.of_nat (32 - 31 + 1)
  /\ total online [("Mon 9am - 11am", {| in_person := 1; online := 1 |})]
     = Z.of_nat
         (List.length
            (filter (fun location => String.eqb location "Online (ONLINE)")
               (getColumnValues sampleTimetable "B" 31 32))).
Proof.
  apply (X4_every_row_counted_once sampleTimetable 31 32 "A" "B"
           [("Mon 9am - 11am", {| in_person := 1; online := 1 |})]).
  - lia.
  - reflexivity.
Defined.

(** ** The keys of the schedule, in the order in which rows bring them *)

Section FirstSeen.

Lemma map_fst_set {V : Type} (m : obj V) (k : string) (v : V) :
  map fst (set m k v)
  = if existsb (String.eqb k) (map fst m) then map fst m
    else (map fst m ++ [k])%list.
Proof.
  induction m as [|[k' v'] m IH]; [reflexivity|].
  cbn [set map fst existsb].
  rewrite (String.eqb_sym k k').
  destruct (String.eqb k' k); cbn [map fst orb]; [reflexivity|].
  rewrite IH. now destruct (existsb (String.eqb k) (map fst m)).
Qed.

Lemma slotKeys_cons_Ok (t k : string) (ts : list string) :
  slotKey t = Ok k -> slotKeys (t :: ts) = k :: slotKeys ts.
Proof. intros H. unfold slotKeys. cbn [flat_map]. now rewrite H. Qed.

Lemma countRows_keys (classTimes : list string) :
  forall (i : nat) (ls : list string) (m m' : Combinations),
    countRows i classTimes ls m = Ok m' ->
    map fst m' = firstSeen (map fst m) (slotKeys classTimes).
Proof.
  induction classTimes as [|t ts IH]; intros i ls m m' H.
  - simpl in H. inversion H. reflexivity.
  - cbn [countRows] in H.
    destruct (slotKey t) as [k|e|] eqn:Hk;
      [|rewrite (countRow_Throw m t _ e Hk) in H; discriminate
       |now apply slotKey_ends in Hk].
    rewrite (countRow_Ok m t k _ Hk) in H. cbn [bind] in H.
    rewrite (IH _ _ _ _ H), (slotKeys_cons_Ok t k ts Hk).
    cbn [firstSeen]. now rewrite map_fst_set.
Qed.

Lemma firstSeen_In (keys : list string) :
  forall (seen : list string) (k : string),
    In k (firstSeen seen keys) <-> In k seen \/ In k keys.
Proof.
  induction keys as [|k0 keys IH]; intros seen k; cbn [firstSeen].
  - simpl. tauto.
  - rewrite IH. destruct (existsb (String.eqb k0) seen) eqn:E.
    + apply existsb_exists in E. destruct E as (x & Hx & E).
      apply String.eqb_eq in E. subst x. simpl. split; [tauto|].
      intros [H | [<- | H]]; auto.
    + rewrite in_app_iff. simpl. tauto.
Qed.

Lemma firstSeen_NoDup (keys : list string) :
  forall seen : list string, NoDup seen -> NoDup (firstSeen seen keys).
Proof.
  induction keys as [|k keys IH]; intros seen Hnd; cbn [firstSeen]; [exact Hnd|].
  apply IH. destruct (existsb (String.eqb k) seen) eqn:E; [exact Hnd|].
  apply NoDup_app; [exact Hnd | repeat constructor; simpl; tauto |].
  intros x Hx [Hk | []]. subst x.
  assert (Ht : existsb (String.eqb k) seen = true)
    by (apply existsb_exists; exists k; split; [exact Hx | apply String.eqb_refl]).
  congruence.
Qed.

Lemma digits_val_space (a b : string) :
  forall acc : Z, digits_val 10 acc (a ++ String " " b) = None.
Proof.
  induction a as [|c a IH]; intros acc; [reflexivity|].
  cbn [append digits_val]. destruct (digit_val 10 c); [apply IH | reflexivity].
Qed.

(** A key with a space in it is no array index. *)
Lemma is_index_space (a b : string) : is_index (a ++ String " " b) = false.
Proof.
  unfold is_index, array_index.
  destruct a as [|c a]; [reflexivity|].
  cbn [append].
  destruct (Ascii.eqb c "0" && negb (String.eqb (a ++ String " " b) EmptyString));
    [reflexivity|].
  change (String c (a ++ String " " b)) with (String c a ++ String " " b).
  now rewrite digits_val_space.
Qed.

Lemma slotKey_has_space (t k : string) :
  slotKey t = Ok k -> exists a b : string, k = a ++ String " " b.
Proof.
  unfold slotKey.
  destruct (nth_error (split " " t) 1); [|discriminate].
  destruct (nth_error (split " " t) 3); [|discriminate].
  intros H. inversion H. eexists. eexists. reflexivity.
Qed.

Lemma slotKey_not_index (t k : string) : slotKey t = Ok k -> is_index k = false.
Proof.
  intros H. destruct (slotKey_has_space t k H) as (a & b & ->).
  apply is_index_space.
Qed.

Lemma slotKeys_In (ts : list string) (k : string) :
  In k (slotKeys ts) <-> exists t, In t ts /\ slotKey t = Ok k.
Proof.
  unfold slotKeys. rewrite in_flat_map. split.
  - intros (t & Ht & Hk). exists t. split; [exact Ht|].
    destruct (slotKey t) as [k'|e|]; simpl in Hk; [|contradiction|contradiction].
    destruct Hk as [<- | []]. reflexivity.
  - intros (t & Ht & Hk). exists t. split; [exact Ht|].
    rewrite Hk. simpl. auto.
Qed.

(** The schedule built by the aggregator is enumerated as it was
    created. *)
Lemma aggregate_keys (ts ls : list string) (m : Combinations) :
  aggregate ts ls = Ok m ->
  map fst m = firstSeen [] (slotKeys ts)
  /\ Object_keys m = map fst m
  /\ NoDup (map fst m).
Proof.
  intros H. unfold aggregate in H.
  pose proof (countRows_keys ts 0 ls [] m H) as Hkeys. simpl in Hkeys.
  split; [exact Hkeys|]. split.
  - apply Object_keys_no_index. apply Forall_forall. intros k Hk.
    rewrite Hkeys in Hk. apply firstSeen_In in Hk.
    destruct Hk as [[] | Hk].
    apply slotKeys_In in Hk. destruct Hk as (t & _ & Ht).
    now apply (slotKey_not_index t).
  - rewrite Hkeys. apply firstSeen_NoDup. constructor.
Qed.

End FirstSeen.

(** X5: when [processClassSchedules] returns, the keys of the schedule,
    as [Object.keys] lists them, are the keys of the rows in the order in
    which each key first occurs down the column, each one once: no key of
    the aggregator is an array index, so enumeration order is creation
    order. *)
Theorem X5_keys_in_order_of_first_row (timetable : Worksheet)
    (startRow endRow : nat) (classTimesCol classLocationsCol : string)
    (schedule : Combinations) :
  processClassSchedules timetable startRow endRow classTimesCol classLocationsCol
  = Ok schedule ->
  Object_keys schedule
  = firstSeen [] (slotKeys (getColumnValues timetable classTimesCol startRow endRow))
  /\ NoDup (Object_keys schedule)
  /\ (forall k, In k (Object_keys schedule)
                <-> exists row, (Nat.min startRow endRow <= row <= Nat.max startRow endRow)%nat
                                /\ slotKey (cell timetable classTimesCol row) = Ok k).
Proof.
  intros H. unfold processClassSchedules in H.
  destruct (aggregate_keys _ _ _ H) as (Hkeys & Henum & Hnd).
  rewrite Henum. split; [exact Hkeys|]. split; [exact Hnd|].
  intros k. rewrite Hkeys, firstSeen_In, slotKeys_In.
  unfold getColumnValues. split.
  - intros [[] | (t & Ht & Hk)].
    apply in_map_iff in Ht. destruct Ht as (row & <- & Hrow).
    apply in_seq in Hrow. exists row. split; [lia | exact Hk].
  - intros (row & Hrow & Hk). right.
    exists (cell timetable classTimesCol row). split; [|exact Hk].
    apply in_map, in_seq. lia.
Qed.

Lemma X5_witness :
  Object_keys [("Mon 9am - 11am", {| in_person := 1; online := 1 |})]
  = firstSeen [] (slotKeys (getColumnValues sampleTimetable "A" 31 32))
  /\ NoDup (Object_keys [("Mon 9am - 11am", {| in_person := 1; online := 1 |})])
  /\ (forall k,
        In k (Object_keys [("Mon 9am - 11am", {| in_person := 1; online := 1 |})])
        <-> exists row, (Nat.min 31 32 <= row <= Nat.max 31 32)%nat
                        /\ slotKey (cell sampleTimetable "A" row) = Ok k).
Proof.
  apply (X5_keys_in_order_of_first_row sampleTimetable 31 32 "A" "B"
           [("Mon 9am - 11am", {| in_person := 1; online := 1 |})]).
  reflexivity.
Defined.

(** ** What the aggregator hands on *)

Section HandedOn.

Lemma get_In {V : Type} (m : obj V) (k : string) (v : V) :
  get m k = Some v -> In (k, v) m.
Proof.
  induction m as [|[k' v'] m IH]; simpl; [discriminate|].
  destruct (String.eqb k' k) eqn:E.
  - apply String.eqb_eq in E. intros H. inversion H. subst. now left.
  - intros H. right. now apply IH.
Qed.

Lemma countPairs_rows_Ok (rows : list (string * string)) :
  forall m m' : Combinations,
    countPairs rows m = Ok m' ->
    forall t l, In (t, l) rows -> exists k, slotKey t = Ok k.
Proof.
  induction rows as [|[t0 l0] rows IH]; intros m m' H t l Hin; [contradiction|].
  cbn [countPairs] in H.
  destruct (slotKey t0) as [k|e|] eqn:Hk;
    [|rewrite (countRow_Throw m t0 _ e Hk) in H; discriminate
     |now apply slotKey_ends in Hk].
  destruct Hin as [E | Hin].
  - inversion E. subst. eauto.
  - rewrite (countRow_Ok m t0 k _ Hk) in H. cbn [bind] in H. eauto.
Qed.

Lemma tally_In (key : string) (mode : bool) (rows : list (string * string))
    (t l : string) :
  In (t, l) rows -> slotKey t = Ok key -> isOnline (Some l) = mode ->
  1 <= tally key mode rows.
Proof.
  intros Hin Hk Hmode. unfold tally.
  assert (H : In (t, l) (filter (rowMatches key mode) rows)).
  { apply filter_In. split; [exact Hin|].
    rewrite (rowMatches_same key mode t l Hk), Hmode. now destruct mode. }
  destruct (filter (rowMatches key mode) rows); [contradiction | simpl; lia].
Qed.

Lemma countPairs_counted (rows : list (string * string)) (m : Combinations) :
  countPairs rows [] = Ok m ->
  (rows <> [] -> m <> [])
  /\ (forall k c, In (k, c) m -> counted c).
Proof.
  intros H. split.
  - intros Hne Hm. subst m.
    destruct rows as [|[t l] rows]; [contradiction|].
    destruct (countPairs_rows_Ok _ _ _ H t l (or_introl eq_refl)) as [k Hk].
    pose proof (countPairs_tally _ _ _ k H) as Hget. simpl in Hget.
    pose proof (tally_In k (isOnline (Some l)) ((t, l) :: rows) t l
                  (or_introl eq_refl) Hk eq_refl) as H1.
    pose proof (tally_nonneg k false ((t, l) :: rows)).
    pose proof (tally_nonneg k true ((t, l) :: rows)).
    destruct (Z.eqb_spec (tally k false ((t, l) :: rows)
                          + tally k true ((t, l) :: rows)) 0) as [E|E];
      [|discriminate].
    destruct (isOnline (Some l)); lia.
  - intros k c Hin.
    assert (Hnd : NoDup (map fst m))
      by (eapply countPairs_NoDup; [|exact H]; constructor).
    apply (In_get m k c Hnd) in Hin.
    rewrite (countPairs_tally _ _ _ k H) in Hin.
    pose proof (tally_nonneg k false rows).
    pose proof (tally_nonneg k true rows).
    destruct (Z.eqb_spec (tally k false rows + tally k true rows) 0) as [E|E];
      [discriminate|].
    inversion Hin. unfold counted. simpl. lia.
Qed.

Lemma timetableRows_nonempty (timetable : Worksheet) (startRow endRow : nat)
    (c1 c2 : string) :
  timetableRows timetable startRow endRow c1 c2 <> [].
Proof.
  intros H. apply (f_equal (@List.length _)) in H.
  rewrite timetableRows_length in H. discriminate.
Qed.

Lemma split_nonempty (sep : ascii) (s : string) : split sep s <> [].
Proof.
  destruct s as [|c s]; simpl; [discriminate|].
  destruct (Ascii.eqb c sep); [discriminate|].
  destruct (split sep s); discriminate.
Qed.

Lemma split_space_two (a b : string) :
  exists (t1 t2 : string) (rest : list string),
    split " " (a ++ String " " b) = t1 :: t2 :: rest.
Proof.
  induction a as [|c a IH]; cbn [append split].
  - rewrite Ascii.eqb_refl.
    destruct (split " " b) as [|t2 rest] eqn:E; [now apply split_nonempty in E|].
    eauto.
  - destruct IH as (t1 & t2 & rest & ->).
    destruct (Ascii.eqb c " "); eauto.
Qed.

(** Every key of the aggregator has a second token. *)
Lemma slotKey_timeToken (t k : string) : slotKey t = Ok k -> timeToken k <> None.
Proof.
  intros H. destruct (slotKey_has_space t k H) as (a & b & ->).
  unfold timeToken.
  destruct (split_space_two a b) as (t1 & t2 & rest & ->). discriminate.
Qed.

Lemma orderCombinations_perm (o o' : Combinations) :
  NoDup (map fst o) -> orderCombinations o = Ok o' -> Permutation o' o.
Proof.
  intros Hnd H.
  destruct (sort compareKeys (Object_keys o)) as [keys|e|] eqn:Hsort;
    try (unfold orderCombinations in H; rewrite Hsort in H; discriminate).
  destruct (orderCombinations_entries o keys Hnd Hsort) as (es & Hes & _ & Hperm).
  congruence.
Qed.

(** The sort never throws on a schedule of the aggregator. *)
Lemma aggregate_orderable (ts ls : list string) (m : Combinations) :
  aggregate ts ls = Ok m ->
  exists ordered : Combinations,
    orderCombinations m = Ok ordered /\ Permutation ordered m.
Proof.
  intros H. destruct (aggregate_keys ts ls m H) as (Hkeys & Henum & Hnd).
  destruct (sort_total compareKeys (Object_keys m)) as [keys Hsort].
  - rewrite Henum, Hkeys. intros x y Hx Hy.
    apply firstSeen_In in Hx, Hy.
    destruct Hx as [[] | Hx], Hy as [[] | Hy].
    apply slotKeys_In in Hx, Hy.
    destruct Hx as (tx & _ & Hx), Hy as (ty & _ & Hy).
    apply compareKeys_total; eapply slotKey_timeToken; eauto.
  - destruct (orderCombinations_entries m keys Hnd Hsort) as (es & Hes & _ & Hperm).
    eauto.
Qed.

End HandedOn.

(** X6: a schedule returned by [processClassSchedules] is never empty, and
    in each of its entries neither count is negative and the two add up to
    one class at least: no slot without a class. *)
Theorem X6_schedule_slots_hold_classes (timetable : Worksheet)
    (startRow endRow : nat) (classTimesCol classLocationsCol : string)
    (schedule : Combinations) :
  processClassSchedules timetable startRow endRow classTimesCol classLocationsCol
  = Ok schedule ->
  schedule <> []
  /\ forall k c, In (k, c) schedule ->
       0 <= in_person c /\ 0 <= online c /\ 1 <= in_person c + online c.
Proof.
  intros H. rewrite processClassSchedules_countPairs in H.
  destruct (countPairs_counted _ _ H) as [Hne Hall].
  split; [apply Hne, timetableRows_nonempty | exact Hall].
Qed.

Lemma X6_witness :
  [("Mon 9am - 11am", {| in_person := 1; online := 1 |})] <> []
  /\ forall k c,
       In (k, c) [("Mon 9am - 11am", {| in_person := 1; online := 1 |})] ->
       0 <= in_person c /\ 0 <= online c /\ 1 <= in_person c + online c.
Proof.
  apply (X6_schedule_slots_hold_classes sampleTimetable 31 32 "A" "B"
           [("Mon 9am - 11am", {| in_person := 1; online := 1 |})]).
  reflexivity.
Defined.

(** X7: on a schedule returned by [processClassSchedules] the sort of
    [orderCombinations] never throws, and [maxValues] of the ordered
    schedule is a pair of integers, none negative, with a sum of 1 at
    least: in [main] the footer is never sized by negative infinity. *)
Theorem X7_pipeline_maxima_are_counts (timetable : Worksheet)
    (startRow endRow : nat) (classTimesCol classLocationsCol : string)
    (schedule : Combinations) :
  processClassSchedules timetable startRow endRow classTimesCol classLocationsCol
  = Ok schedule ->
  exists (ordered : Combinations) (mi mo : Z),
    orderCombinations schedule = Ok ordered
    /\ maxValues ordered = (Int mi, Int mo)
    /\ 0 <= mi /\ 0 <= mo /\ 1 <= mi + mo.
Proof.
  intros H.
  destruct (aggregate_orderable _ _ _ H) as (ordered & Hord & Hperm).
  rewrite processClassSchedules_countPairs in H.
  destruct (countPairs_counted _ _ H) as [Hne Hall].
  specialize (Hne (timetableRows_nonempty _ _ _ _ _)).
  assert (Hne' : ordered <> []).
  { intros E. subst ordered. apply Permutation_nil in Hperm. contradiction. }
  assert (Hall' : forall k c, In (k, c) ordered -> counted c)
    by (intros k c Hin; apply (Hall k); eapply Permutation_in; eauto).
  destruct (Math_max_field in_person ordered Hne')
    as (mi & Hmi & (ki & ci & Hini & Hci) & Hlei).
  destruct (Math_max_field online ordered Hne')
    as (mo & Hmo & (ko & co & Hino & Hco) & Hleo).
  exists ordered, mi, mo. split; [exact Hord|]. split.
  - unfold maxValues. now rewrite Hmi, Hmo.
  - destruct (Hall' ki ci Hini) as (Hi1 & _ & Hi3).
    destruct (Hall' ko co Hino) as (_ & Ho2 & _).
    specialize (Hlei ki ci Hini). specialize (Hleo ki ci Hini).
    lia.
Qed.

Lemma X7_witness :
  exists (ordered : Combinations) (mi mo : Z),
    orderCombinations [("Mon 9am - 11am", {| in_person := 1; online := 1 |})]
    = Ok ordered
    /\ maxValues ordered = (Int mi, Int mo)
    /\ 0 <= mi /\ 0 <= mo /\ 1 <= mi + mo.
Proof.
  apply (X7_pipeline_maxima_are_counts sampleTimetable 31 32 "A" "B"
           [("Mon 9am - 11am", {| in_person := 1; online := 1 |})]).
  reflexivity.
Defined.

(** ** When [main] gets through *)

Section MainRuns.

Lemma slotKey_few_tokens (classTime : string) :
  (List.length (split " " classTime) < 4)%nat ->
  slotKey classTime
  = Throw (TypeError "Cannot read properties of undefined (reading 'split')").
Proof.
  intros H. unfold slotKey.
  assert (H3 : nth_error (split " " classTime) 3 = None)
    by (apply nth_error_None; lia).
  rewrite H3. now destruct (nth_error (split " " classTime) 1).
Qed.

Lemma slotKey_four_tokens (classTime : string) :
  (4 <= List.length (split " " classTime))%nat ->
  exists key, slotKey classTime = Ok key.
Proof.
  intros H. unfold slotKey.
  destruct (nth_error (split " " classTime) 1) eqn:E1;
    [|apply nth_error_None in E1; lia].
  destruct (nth_error (split " " classTime) 3) eqn:E3;
    [|apply nth_error_None in E3; lia].
  eauto.
Qed.

Lemma countRows_some_Throw (classTimes : list string) (t : string) (e : error) :
  In t classTimes -> slotKey t = Throw e ->
  forall (i : nat) (ls : list string) (m : Combinations),
    countRows i classTimes ls m
    = Throw (TypeError "Cannot read properties of undefined (reading 'split')").
Proof.
  intros Hin Ht.
  induction classTimes as [|t0 ts IH]; intros i ls m; [contradiction|].
  cbn [countRows].
  destruct (slotKey t0) as [k|e0|] eqn:Hk.
  - rewrite (countRow_Ok m t0 k _ Hk). cbn [bind].
    destruct Hin as [-> | Hin]; [congruence | now apply IH].
  - rewrite (countRow_Throw m t0 _ e0 Hk). cbn [bind].
    now rewrite (slotKey_error t0 e0 Hk).
  - now apply slotKey_ends in Hk.
Qed.

Lemma In_getColumnValues (sheet : Worksheet) (col : string)
    (startRow endRow row : nat) :
  (startRow <= row <= endRow)%nat ->
  In (cell sheet col row) (getColumnValues sheet col startRow endRow).
Proof.
  intros H. unfold getColumnValues. apply in_map, in_seq. lia.
Qed.

Lemma getColumnValues_In (sheet : Worksheet) (col : string)
    (startRow endRow : nat) (t : string) :
  (startRow <= endRow)%nat ->
  In t (getColumnValues sheet col startRow endRow) ->
  exists row, (startRow <= row <= endRow)%nat /\ t = cell sheet col row.
Proof.
  intros Hle H. unfold getColumnValues in H.
  apply in_map_iff in H. destruct H as (row & <- & Hrow).
  apply in_seq in Hrow. exists row. split; [lia | reflexivity].
Qed.

Lemma get_app_other {V : Type} (m : obj V) (k k' : string) (v : V) :
  k' <> k -> get (m ++ [(k, v)])%list k' = get m k'.
Proof.
  intros Hne. induction m as [|[k0 v0] m IH]; simpl.
  - apply String.eqb_neq in Hne. rewrite String.eqb_sym in Hne. now rewrite Hne.
  - now rewrite IH.
Qed.

End MainRuns.

(** X8: when the three checks of [main] pass and a cell of the class-times
    column in the row range has fewer than four tokens between spaces (a
    blank cell has one), [main] throws the TypeError of the aggregator
    after it has added the destination worksheet: the workbook is left with
    a new, empty worksheet of the course's name. *)
Theorem X8_short_row_aborts_after_adding_sheet (workbook : Workbook)
    (course : Course) (startRow endRow row : nat)
    (classTimesCol classLocationsCol : string) (timetable : Worksheet) :
  getWorksheet workbook "TT" = Some timetable ->
  getWorksheet workbook (courseName course) = None ->
  (startRow <= row <= endRow)%nat ->
  (List.length (split " " (cell timetable classTimesCol row)) < 4)%nat ->
  main workbook course startRow endRow classTimesCol classLocationsCol
  = (Throw (TypeError "Cannot read properties of undefined (reading 'split')"),
     addWorksheet workbook (courseName course))
  /\ getWorksheet (addWorksheet workbook (courseName course)) (courseName course)
     = Some emptyWorksheet.
Proof.
  intros Htt Hfree Hrow Hshort.
  split; [|now apply getWorksheet_addWorksheet].
  unfold main. rewrite Htt.
  destruct (Nat.ltb_spec endRow startRow) as [Hlt|_]; [lia|].
  rewrite Hfree.
  unfold processClassSchedules, aggregate.
  rewrite (countRows_some_Throw _ (cell timetable classTimesCol row) _
             (In_getColumnValues timetable classTimesCol startRow endRow row Hrow)
             (slotKey_few_tokens _ Hshort)).
  reflexivity.
Qed.

Lemma X8_witness :
  main [("TT", sampleTimetable)] COMP3900 31 33 "A" "B"
  = (Throw (TypeError "Cannot read properties of undefined (reading 'split')"),
     addWorksheet [("TT", sampleTimetable)] (courseName COMP3900))
  /\ getWorksheet (addWorksheet [("TT", sampleTimetable)] (courseName COMP3900))
       (courseName COMP3900)
     = Some emptyWorksheet.
Proof.
  apply (X8_short_row_aborts_after_adding_sheet
           [("TT", sampleTimetable)] COMP3900 31 33 33 "A" "B" sampleTimetable).
  - reflexivity.
  - reflexivity.
  - lia.
  - simpl. lia.
Defined.

(** ** The header rows, column by column *)

Section HeaderColumns.

Lemma combine_snoc {A B : Type} (a : list A) (b : list B) (x : A) (y : B) :
  List.length a = List.length b ->
  combine (a ++ [x]) (b ++ [y]) = (combine a b ++ [(x, y)])%list.
Proof.
  revert b. induction a as [|a0 a IH]; intros [|b0 b] H; try discriminate;
    [reflexivity|].
  simpl. rewrite IH; [reflexivity | simpl in H; congruence].
Qed.

Lemma zip3_snoc (cs ts : list string) (ns : list Z) (c t : string) (n : Z) :
  sameLength (cs, ts, ns) ->
  zip3 (cs ++ [c], ts ++ [t], ns ++ [n])%list
  = (zip3 (cs, ts, ns) ++ [(c, t, n)])%list
  /\ sameLength (cs ++ [c], ts ++ [t], ns ++ [n])%list.
Proof.
  unfold sameLength, zip3. intros [H1 H2]. split.
  - rewrite (combine_snoc cs ts c t H1).
    apply combine_snoc. rewrite length_combine. lia.
  - rewrite !length_app. simpl. lia.
Qed.

Lemma zip3_pushEntry (arrays : list string * list string * list Z)
    (entry : string * Counts) :
  sameLength arrays ->
  zip3 (pushEntry arrays entry) = (zip3 arrays ++ columnsOf entry)%list.
Proof.
  destruct arrays as [[cs ts] ns], entry as [key value].
  intros H. unfold pushEntry, columnsOf. cbn [fst snd].
  destruct (truthy (Int (in_person value))), (truthy (Int (online value)));
    cbn [app].
  - destruct (zip3_snoc cs ts ns key "In-person" (in_person value) H) as [E1 H'].
    destruct (zip3_snoc _ _ _ key "Online" (online value) H') as [E2 _].
    rewrite E2, E1. now rewrite <- app_assoc.
  - now destruct (zip3_snoc cs ts ns key "In-person" (in_person value) H).
  - now destruct (zip3_snoc cs ts ns key "Online" (online value) H).
  - now rewrite app_nil_r.
Qed.

Lemma zip3_fold_pushEntry (entries : list (string * Counts)) :
  forall arrays : list string * list string * list Z,
    sameLength arrays ->
    zip3 (fold_left pushEntry entries arrays)
    = (zip3 arrays ++ flat_map columnsOf entries)%list.
Proof.
  induction entries as [|e entries IH]; intros arrays H; cbn [fold_left flat_map].
  - now rewrite app_nil_r.
  - rewrite IH by now apply pushEntry_sameLength.
    rewrite zip3_pushEntry by exact H. now rewrite <- app_assoc.
Qed.

Lemma zip3_headerArrays (schedule : Combinations) :
  zip3 (headerArrays schedule) = flat_map columnsOf (Object_entries schedule).
Proof.
  unfold headerArrays. rewrite zip3_fold_pushEntry; [reflexivity|].
  simpl. auto.
Qed.

Lemma combine_fst {A B : Type} (a : list A) (b : list B) :
  List.length a = List.length b -> map fst (combine a b) = a.
Proof.
  revert b. induction a as [|a0 a IH]; intros [|b0 b] H; try discriminate;
    [reflexivity|].
  simpl. rewrite IH; [reflexivity | simpl in H; congruence].
Qed.

Lemma combine_snd {A B : Type} (a : list A) (b : list B) :
  List.length a = List.length b -> map snd (combine a b) = b.
Proof.
  revert b. induction a as [|a0 a IH]; intros [|b0 b] H; try discriminate;
    [reflexivity|].
  simpl. rewrite IH; [reflexivity | simpl in H; congruence].
Qed.

Lemma zip3_projections (cs ts : list string) (ns : list Z) :
  sameLength (cs, ts, ns) ->
  cs = map (fun c => fst (fst c)) (zip3 (cs, ts, ns))
  /\ ts = map (fun c => snd (fst c)) (zip3 (cs, ts, ns))
  /\ ns = map snd (zip3 (cs, ts, ns)).
Proof.
  unfold sameLength, zip3. intros [H1 H2].
  assert (H3 : List.length (combine cs ts) = List.length ns)
    by (rewrite length_combine; lia).
  rewrite <- (map_map fst fst), <- (map_map fst snd).
  rewrite (combine_fst _ _ H3), (combine_fst _ _ H1), (combine_snd _ _ H1),
    (combine_snd _ _ H3).
  auto.
Qed.

Lemma columnsOf_In (entry : string * Counts) (k type : string) (n : Z) :
  In (k, type, n) (columnsOf entry) ->
  k = fst entry /\ n <> 0
  /\ ((type = "In-person" /\ n = in_person (snd entry))
      \/ (type = "Online" /\ n = online (snd entry))).
Proof.
  unfold columnsOf. intros H. apply in_app_or in H.
  destruct H as [H | H].
  - destruct (truthy (Int (in_person (snd entry)))) eqn:E; [|contradiction].
    destruct H as [H | []]. inversion H. subst.
    simpl in E. apply negb_true_iff, Z.eqb_neq in E. auto.
  - destruct (truthy (Int (online (snd entry)))) eqn:E; [|contradiction].
    destruct H as [H | []]. inversion H. subst.
    simpl in E. apply negb_true_iff, Z.eqb_neq in E. auto.
Qed.

End HeaderColumns.

(** X10: the three header arrays of [updateWorksheet] are aligned: read
    column by column they are, for each slot in enumeration order, a column
    (key, "In-person", in-person count) when that count is not 0, followed
    by a column (key, "Online", online count) when that count is not 0.  No
    column holds a count of 0, and every column belongs to a slot of the
    schedule. *)
Theorem X10_header_columns_aligned (schedule : Combinations) :
  zip3 (headerArrays schedule) = flat_map columnsOf (Object_entries schedule)
  /\ (let '(cs, ts, ns) := headerArrays schedule in
      cs = map (fun c => fst (fst c)) (zip3 (headerArrays schedule))
      /\ ts = map (fun c => snd (fst c)) (zip3 (headerArrays schedule))
      /\ ns = map snd (zip3 (headerArrays schedule)))
  /\ (forall (k type : string) (n : Z),
        In (k, type, n) (zip3 (headerArrays schedule)) ->
        n <> 0
        /\ exists c : Counts,
             In (k, c) schedule
             /\ ((type = "In-person" /\ n = in_person c)
                 \/ (type = "Online" /\ n = online c))).
Proof.
  split; [apply zip3_headerArrays|]. split.
  - pose proof (headerArrays_sameLength schedule) as H.
    destruct (headerArrays schedule) as [[cs ts] ns] eqn:E.
    now apply zip3_projections.
  - intros k type n Hin. rewrite zip3_headerArrays in Hin.
    apply in_flat_map in Hin. destruct Hin as ([k' c] & Hentry & Hcol).
    apply columnsOf_In in Hcol. cbn [fst snd] in Hcol.
    destruct Hcol as (-> & Hn & Hmode).
    split; [exact Hn|]. exists c. split; [|exact Hmode].
    eapply Permutation_in; [apply Object_entries_perm | exact Hentry].
Qed.

Lemma X10_witness :
  2 <> 0
  /\ exists c : Counts,
       In ("Mon 9am - 11am", c)
          [("Mon 9am - 11am", {| in_person := 2; online := 1 |});
           ("Tue 1pm - 3pm", {| in_person := 0; online := 3 |})]
       /\ (("In-person" = "In-person" /\ 2 = in_person c)
           \/ ("In-person" = "Online" /\ 2 = online c)).
Proof.
  apply (proj2 (proj2 (X10_header_columns_aligned
                         [("Mon 9am - 11am", {| in_person := 2; online := 1 |});
                          ("Tue 1pm - 3pm", {| in_person := 0; online := 3 |})]))
           "Mon 9am - 11am" "In-person" 2).
  simpl. auto.
Defined.

(** ** From the rows to the header *)

Section RowsToHeader.

Lemma total_perm (f : Counts -> Z) (m m' : Combinations) :
  Permutation m m' -> total f m = total f m'.
Proof.
  induction 1 as [| x l l' _ IH | x y l | l1 l2 l3 _ IH1 _ IH2]; simpl; lia.
Qed.

Lemma sum_columnsOf (entry : string * Counts) :
  fold_right Z.add 0 (map snd (columnsOf entry))
  = in_person (snd entry) + online (snd entry).
Proof.
  unfold columnsOf. cbn [truthy].
  destruct (Z.eqb_spec (in_person (snd entry)) 0) as [E1|E1],
           (Z.eqb_spec (online (snd entry)) 0) as [E2|E2]; simpl; lia.
Qed.

Lemma sum_columns (entries : list (string * Counts)) :
  fold_right Z.add 0 (map snd (flat_map columnsOf entries))
  = total in_person entries + total online entries.
Proof.
  induction entries as [|e entries IH]; [reflexivity|].
  cbn [flat_map total fold_right]. rewrite map_app.
  rewrite fold_right_app.
  assert (H : forall (l : list Z) (a : Z),
                fold_right Z.add a l = fold_right Z.add 0 l + a)
    by (induction l as [|x l IHl]; intros a; simpl; [lia | rewrite IHl; lia]).
  rewrite H, sum_columnsOf. fold (total in_person entries) (total online entries).
  lia.
Qed.

Lemma length_columnsOf (entry : string * Counts) :
  counted (snd entry) -> (1 <= List.length (columnsOf entry) <= 2)%nat.
Proof.
  unfold counted, columnsOf. cbn [truthy]. intros (H1 & H2 & H3).
  destruct (Z.eqb_spec (in_person (snd entry)) 0) as [E1|E1],
           (Z.eqb_spec (online (snd entry)) 0) as [E2|E2]; simpl; lia.
Qed.

Lemma length_columns (entries : list (string * Counts)) :
  Forall (fun e => counted (snd e)) entries ->
  (List.length entries <= List.length (flat_map columnsOf entries)
   <= 2 * List.length entries)%nat.
Proof.
  induction 1 as [|e entries He _ IH]; [simpl; lia|].
  cbn [flat_map]. rewrite length_app. pose proof (length_columnsOf e He).
  simpl. lia.
Qed.

Lemma processClassSchedules_total (timetable : Worksheet) (startRow endRow : nat)
    (c1 c2 : string) (schedule : Combinations) :
  (startRow <= endRow)%nat ->
  processClassSchedules timetable startRow endRow c1 c2 = Ok schedule ->
  total in_person schedule + total online schedule
  = Z.of_nat (endRow - startRow + 1).
Proof.
  intros Hrows H. rewrite processClassSchedules_countPairs in H.
  destruct (countPairs_total _ _ _ H) as [_ Hall].
  rewrite timetableRows_length in Hall.
  change (total in_person []) with 0 in Hall.
  change (total online []) with 0 in Hall.
  rewrite Hall, Nat.max_r, Nat.min_l by lia. lia.
Qed.

Lemma headerArrays_counts (schedule : Combinations) :
  snd (headerArrays schedule) = map snd (zip3 (headerArrays schedule))
  /\ List.length (fst (fst (headerArrays schedule)))
     = List.length (zip3 (headerArrays schedule)).
Proof.
  pose proof (headerArrays_sameLength schedule) as H.
  destruct (headerArrays schedule) as [[cs ts] ns] eqn:E.
  destruct (zip3_projections cs ts ns H) as (Hc & _ & Hn).
  cbn [fst snd]. split; [exact Hn|].
  rewrite Hc at 1. now rewrite length_map.
Qed.

End RowsToHeader.

(** X11: through [processClassSchedules], [orderCombinations] and the
    header arrays of [updateWorksheet], the counts row of the header adds
    up to the number of timetable rows read, endRow - startRow + 1, and
    the header has one or two columns for each slot of the schedule. *)
Theorem X11_header_counts_add_up_to_rows (timetable : Worksheet)
    (startRow endRow : nat) (classTimesCol classLocationsCol : string)
    (schedule ordered : Combinations) :
  (startRow <= endRow)%nat ->
  processClassSchedules timetable startRow endRow classTimesCol classLocationsCol
  = Ok schedule ->
  orderCombinations schedule = Ok ordered ->
  let '(cs, ts, ns) := headerArrays ordered in
  fold_right Z.add 0 ns = Z.of_nat (endRow - startRow + 1)
  /\ (List.length schedule <= List.length cs <= 2 * List.length schedule)%nat.
Proof.
  intros Hrows Hschedule Hordered.
  pose proof (processClassSchedules_total _ _ _ _ _ _ Hrows Hschedule) as Htotal.
  destruct (aggregate_keys _ _ _ Hschedule) as (_ & _ & Hnd).
  pose proof (orderCombinations_perm _ _ Hnd Hordered) as Hperm.
  rewrite processClassSchedules_countPairs in Hschedule.
  destruct (countPairs_counted _ _ Hschedule) as [_ Hcounted].
  pose proof (Object_entries_perm ordered) as Henum.
  destruct (headerArrays_counts ordered) as [Hns Hlen].
  destruct (headerArrays ordered) as [[cs ts] ns] eqn:E.
  cbn [fst snd] in Hns, Hlen.
  rewrite <- E in Hns, Hlen. rewrite zip3_headerArrays in Hns, Hlen.
  split.
  - rewrite Hns, sum_columns.
    rewrite (total_perm in_person _ _ Henum), (total_perm online _ _ Henum).
    rewrite (total_perm in_person _ _ Hperm), (total_perm online _ _ Hperm).
    exact Htotal.
  - rewrite Hlen.
    rewrite <- (Permutation_length Hperm), <- (Permutation_length Henum).
    apply length_columns. apply Forall_forall. intros [k c] Hin.
    apply (Hcounted k). cbn [snd].
    eapply Permutation_in; [exact Hperm|].
    eapply Permutation_in; [exact Henum | exact Hin].
Qed.

Lemma X11_witness :
  let '(cs, ts, ns) :=
    headerArrays [("Mon 9am - 11am", {| in_person := 1; online := 1 |})] in
  fold_right Z.add 0 ns = Z.of_nat (32 - 31 + 1)
  /\ (List.length [("Mon 9am - 11am", {| in_person := 1; online := 1 |})]
      <= List.length cs
      <= 2 * List.length [("Mon 9am - 11am", {| in_person := 1; online := 1 |})])%nat.
Proof.
  apply (X11_header_counts_add_up_to_rows sampleTimetable 31 32 "A" "B"
           [("Mon 9am - 11am", {| in_person := 1; online := 1 |})]
           [("Mon 9am - 11am", {| in_person := 1; online := 1 |})]).
  - lia.
  - reflexivity.
  - reflexivity.
Defined.

Section MaximaUnderOrdering.

Lemma Math_max_perm (l l' : list Z) :
  Permutation l l' -> Math_max (map Int l) = Math_max (map Int l').
Proof.
  intros Hperm. destruct l as [|x l].
  - apply Permutation_nil in Hperm. now subst.
  - destruct l' as [|x' l'];
      [apply Permutation_sym, Permutation_nil in Hperm; discriminate|].
    destruct (Math_max_Int x l) as (m & -> & Hin & Hle).
    destruct (Math_max_Int x' l') as (m' & -> & Hin' & Hle').
    f_equal. apply Z.le_antisymm.
    + apply Hle'. eapply Permutation_in; eauto.
    + apply Hle. eapply Permutation_in; [symmetry|]; eauto.
Qed.

Lemma maxValues_perm (o o' : Combinations) :
  Permutation o o' -> maxValues o = maxValues o'.
Proof.
  intros Hperm.
  assert (Hvalues : Permutation (Object_values o) (Object_values o')).
  { unfold Object_values. apply Permutation_map.
    rewrite (Object_entries_perm o), (Object_entries_perm o'). exact Hperm. }
  unfold maxValues.
  rewrite <- (map_map in_person Int (Object_values o)).
  rewrite <- (map_map in_person Int (Object_values o')).
  rewrite <- (map_map online Int (Object_values o)).
  rewrite <- (map_map online Int (Object_values o')).
  rewrite (Math_max_perm _ _ (Permutation_map in_person Hvalues)).
  rewrite (Math_max_perm _ _ (Permutation_map online Hvalues)).
  reflexivity.
Qed.

End MaximaUnderOrdering.

(** X12: ordering does not change the size of the footer: whenever
    [orderCombinations] returns on an object with one entry per key and no
    own property named [__proto__], [maxValues] of the ordered object is
    [maxValues] of the input. *)
Theorem X12_ordering_keeps_maxima (combinations ordered : Combinations) :
  plainObject combinations ->
  orderCombinations combinations = Ok ordered ->
  maxValues ordered = maxValues combinations.
Proof.
  intros [Hnd _] H. apply maxValues_perm.
  now apply orderCombinations_perm.
Qed.

Lemma X12_witness :
  maxValues [("7", {| in_person := 1; online := 1 |});
             ("Sat 1pm - 2pm", {| in_person := 0; online := 2 |});
             ("Mon 9am - 10am", {| in_person := 3; online := 0 |})]
  = maxValues [("Mon 9am - 10am", {| in_person := 3; online := 0 |});
               ("Sat 1pm - 2pm", {| in_person := 0; online := 2 |});
               ("7", {| in_person := 1; online := 1 |})].
Proof.
  apply (X12_ordering_keeps_maxima
           [("Mon 9am - 10am", {| in_person := 3; online := 0 |});
            ("Sat 1pm - 2pm", {| in_person := 0; online := 2 |});
            ("7", {| in_person := 1; online := 1 |})]
           [("7", {| in_person := 1; online := 1 |});
            ("Sat 1pm - 2pm", {| in_person := 0; online := 2 |});
            ("Mon 9am - 10am", {| in_person := 3; online := 0 |})]).
  - split; simpl; [repeat constructor; simpl|]; intuition discriminate.
  - reflexivity.
Defined.

(** ** Ordered once, ordered for good *)

Section OrderedSchedules.

Lemma slotLe_refl (a : string) : slotLe a a.
Proof. unfold slotLe. right. split; [reflexivity | lia]. Qed.

Lemma slotLe_slotLtb (a b : string) : slotLe a b -> slotLtb b a = false.
Proof.
  unfold slotLe, slotLtb. intros H.
  apply orb_false_iff. split.
  - apply Z.ltb_ge. lia.
  - destruct (Z.eqb_spec (dayIndex b) (dayIndex a)) as [E|E]; [|reflexivity].
    simpl. apply Z.ltb_ge. lia.
Qed.

(** Sorting a sorted list of keys changes nothing. *)
Lemma sortKeys_sorted_id (l : list string) :
  StronglySorted slotLe l -> sortKeys l = l.
Proof.
  induction 1 as [|x l Hs IH Hx]; [reflexivity|].
  cbn [sortKeys fold_right]. fold (sortKeys l). rewrite IH.
  destruct l as [|y l]; [reflexivity|].
  cbn [insertKey]. inversion Hx as [|? ? Hxy _]; subst.
  now rewrite (slotLe_slotLtb x y Hxy).
Qed.

Lemma orderCombinations_explicit (o : Combinations) (keys : list string) :
  NoDup (map fst o) ->
  sort compareKeys (Object_keys o) = Ok keys ->
  orderCombinations o = Ok (map (fun k => (k, valueOf o k)) keys).
Proof.
  intros Hnd Hsort.
  destruct (orderCombinations_entries o keys Hnd Hsort) as (es & Hes & Hfst & Hperm).
  rewrite Hes. f_equal. rewrite <- Hfst, map_map.
  rewrite <- (map_id es) at 1. apply map_ext_in.
  intros [k v] Hin. cbn [fst]. unfold valueOf.
  assert (Hget : get o k = Some v)
    by (apply (In_get o k v Hnd); eapply Permutation_in; eauto).
  now rewrite Hget.
Qed.

Lemma wellFormed_not_index (l : list string) :
  Forall (fun k => wellFormedKey k = true) l ->
  Forall (fun k => is_index k = false) l.
Proof.
  intros H. eapply Forall_impl; [|exact H].
  intros k Hk. apply recognized_not_index.
  now destruct (wellFormedKey_inv k Hk).
Qed.

(** What [orderCombinations] returns on well-formed keys. *)
Lemma orderCombinations_wellFormed (o : Combinations) :
  NoDup (map fst o) ->
  Forall (fun k => wellFormedKey k = true) (map fst o) ->
  exists ordered : Combinations,
    orderCombinations o = Ok ordered
    /\ map fst ordered = sortKeys (map fst o)
    /\ Object_keys ordered = map fst ordered
    /\ Permutation ordered o.
Proof.
  intros Hnd Hwf.
  assert (Hkeys : Object_keys o = map fst o)
    by (apply Object_keys_no_index; now apply wellFormed_not_index).
  assert (Hsort : sort compareKeys (Object_keys o) = Ok (sortKeys (map fst o)))
    by (rewrite Hkeys; now apply sort_wellFormed).
  destruct (orderCombinations_entries o _ Hnd Hsort) as (es & Hes & Hfst & Hperm).
  exists es. split; [exact Hes|]. split; [exact Hfst|]. split; [|exact Hperm].
  apply Object_keys_no_index. rewrite Hfst.
  apply wellFormed_not_index. apply Forall_forall. intros k Hk.
  apply (Permutation_in _ (sortKeys_perm (map fst o))) in Hk.
  rewrite Forall_forall in Hwf. now apply Hwf.
Qed.

End OrderedSchedules.

(** X13: [orderCombinations] is idempotent on schedules with well-formed
    keys: ordering the ordered schedule again returns it unchanged, entry
    for entry. *)
Theorem X13_ordering_twice_is_ordering_once (combinations ordered : Combinations) :
  NoDup (map fst combinations) ->
  Forall (fun k => wellFormedKey k = true) (map fst combinations) ->
  orderCombinations combinations = Ok ordered ->
  orderCombinations ordered = Ok ordered.
Proof.
  intros Hnd Hwf H.
  destruct (orderCombinations_wellFormed combinations Hnd Hwf)
    as (es & Hes & Hfst & Henum & Hperm).
  assert (ordered = es) by congruence. subst es.
  assert (Hnd' : NoDup (map fst ordered)).
  { rewrite Hfst. eapply Permutation_NoDup; [|exact Hnd].
    symmetry. apply sortKeys_perm. }
  assert (Hwf' : Forall (fun k => wellFormedKey k = true) (map fst ordered)).
  { rewrite Hfst. apply Forall_forall. intros k Hk.
    apply (Permutation_in _ (sortKeys_perm _)) in Hk.
    rewrite Forall_forall in Hwf. now apply Hwf. }
  assert (Hsort : sort compareKeys (Object_keys ordered) = Ok (map fst ordered)).
  { rewrite Henum, (sort_wellFormed _ Hwf'). f_equal.
    apply sortKeys_sorted_id. rewrite Hfst. apply sortKeys_sorted. }
  rewrite (orderCombinations_explicit ordered _ Hnd' Hsort).
  now rewrite (entries_of_keys ordered Hnd').
Qed.

Lemma X13_witness :
  orderCombinations
    [("Mon 10am - 12pm", {| in_person := 3; online := 1 |});
     ("Mon 2pm - 4pm", {| in_person := 0; online := 2 |});
     ("Wed 9am - 10am", {| in_person := 1; online := 0 |})]
  = Ok [("Mon 10am - 12pm", {| in_person := 3; online := 1 |});
        ("Mon 2pm - 4pm", {| in_person := 0; online := 2 |});
        ("Wed 9am - 10am", {| in_person := 1; online := 0 |})].
Proof.
  apply (X13_ordering_twice_is_ordering_once
           [("Wed 9am - 10am", {| in_person := 1; online := 0 |});
            ("Mon 2pm - 4pm", {| in_person := 0; online := 2 |});
            ("Mon 10am - 12pm", {| in_person := 3; online := 1 |})]).
  - simpl. repeat constructor; simpl; intuition discriminate.
  - simpl. repeat constructor.
  - reflexivity.
Defined.

Section SortedHeader.

Lemma Object_entries_no_index {V : Type} (o : obj V) :
  Object_keys o = map fst o -> Forall (fun k => is_index k = false) (map fst o) ->
  Object_entries o = o.
Proof.
  intros _ H. rewrite Forall_map in H. unfold Object_entries.
  rewrite filter_none by exact H.
  rewrite filter_all; [reflexivity|].
  eapply Forall_impl; [|exact H]. intros e He. simpl in He. now rewrite He.
Qed.

Lemma columns_keys_In (es : list (string * Counts)) (k : string) :
  In k (map (fun c : string * string * Z => fst (fst c)) (flat_map columnsOf es)) ->
  In k (map fst es).
Proof.
  intros H. apply in_map_iff in H. destruct H as ([[k' type] n] & <- & H).
  apply in_flat_map in H. destruct H as (e & He & Hc).
  apply columnsOf_In in Hc. destruct Hc as (-> & _). cbn [fst].
  now apply in_map.
Qed.

Lemma columns_sorted (R : string -> string -> Prop) (es : list (string * Counts)) :
  (forall x, R x x) ->
  StronglySorted R (map fst es) ->
  StronglySorted R
    (map (fun c : string * string * Z => fst (fst c)) (flat_map columnsOf es)).
Proof.
  intros Hrefl. induction es as [|e es IH]; intros Hs; [constructor|].
  cbn [map] in Hs. apply StronglySorted_inv in Hs. destruct Hs as [Hs He].
  specialize (IH Hs).
  assert (Hall : Forall (R (fst e))
                   (map (fun c : string * string * Z => fst (fst c))
                        (flat_map columnsOf es))).
  { apply Forall_forall. intros k Hk. apply columns_keys_In in Hk.
    rewrite Forall_forall in He. now apply He. }
  cbn [flat_map]. rewrite map_app. unfold columnsOf at 1.
  destruct (truthy (Int (in_person (snd e)))), (truthy (Int (online (snd e))));
    cbn [app map fst].
  - apply SSorted_cons; [apply SSorted_cons; assumption|].
    constructor; [apply Hrefl | exact Hall].
  - apply SSorted_cons; assumption.
  - apply SSorted_cons; assumption.
  - exact IH.
Qed.

Lemma wellFormedRow_key (t k : string) :
  wellFormedRow t -> slotKey t = Ok k -> wellFormedKey k = true.
Proof.
  intros (day & begin & sep & end_ & rest & h & Hsplit & Hday & Hh & Hr) Hk.
  destruct (slotKey_wellFormed t day begin sep end_ rest h Hsplit Hday Hh Hr)
    as (key & Hkey & Hwf & _).
  congruence.
Qed.

Lemma wellFormedRow_slotKey (t : string) :
  wellFormedRow t -> exists k, slotKey t = Ok k.
Proof.
  intros (day & begin & sep & end_ & rest & h & Hsplit & _).
  rewrite (slotKey_tokens _ _ _ _ _ _ Hsplit). eauto.
Qed.

End SortedHeader.

(** X14: when every row of the range is well formed (a weekday of Mon..Fri
    first, a start time with an hour of 0..23, four tokens at least), the
    aggregator and [orderCombinations] return, the ordered schedule is
    enumerated by weekday and then start hour, and so is the classes row
    of the header, where the in-person column of a slot stands right
    before its online column. *)
Theorem X14_header_sorted_on_well_formed_rows (timetable : Worksheet)
    (startRow endRow : nat) (classTimesCol classLocationsCol : string) :
  (startRow <= endRow)%nat ->
  (forall row, (startRow <= row <= endRow)%nat ->
               wellFormedRow (cell timetable classTimesCol row)) ->
  exists schedule ordered : Combinations,
    processClassSchedules timetable startRow endRow classTimesCol classLocationsCol
    = Ok schedule
    /\ orderCombinations schedule = Ok ordered
    /\ StronglySorted slotLe (Object_keys ordered)
    /\ StronglySorted slotLe (fst (fst (headerArrays ordered)))
    /\ zip3 (headerArrays ordered) = flat_map columnsOf ordered.
Proof.
  intros Hrows Hwf.
  destruct (countRows_Ok (getColumnValues timetable classTimesCol startRow endRow)
              0 (getColumnValues timetable classLocationsCol startRow endRow) [])
    as [schedule Hschedule].
  { intros t Ht.
    destruct (getColumnValues_In _ _ _ _ _ Hrows Ht) as (row & Hrow & ->).
    apply wellFormedRow_slotKey. now apply Hwf. }
  fold (aggregate (getColumnValues timetable classTimesCol startRow endRow)
          (getColumnValues timetable classLocationsCol startRow endRow))
    in Hschedule.
  destruct (aggregate_keys _ _ _ Hschedule) as (Hkeys & _ & Hnd).
  assert (Hwfk : Forall (fun k => wellFormedKey k = true) (map fst schedule)).
  { apply Forall_forall. intros k Hk. rewrite Hkeys in Hk.
    apply firstSeen_In in Hk. destruct Hk as [[] | Hk].
    apply slotKeys_In in Hk. destruct Hk as (t & Ht & Hk).
    destruct (getColumnValues_In _ _ _ _ _ Hrows Ht) as (row & Hrow & ->).
    eapply wellFormedRow_key; eauto. }
  destruct (orderCombinations_wellFormed schedule Hnd Hwfk)
    as (ordered & Hordered & Hfst & Henum & Hperm).
  exists schedule, ordered.
  split; [exact Hschedule|]. split; [exact Hordered|].
  assert (Hsorted : StronglySorted slotLe (map fst ordered))
    by (rewrite Hfst; apply sortKeys_sorted).
  assert (Hentries : Object_entries ordered = ordered).
  { apply Object_entries_no_index; [exact Henum|].
    rewrite Hfst. apply wellFormed_not_index.
    apply Forall_forall. intros k Hk.
    apply (Permutation_in _ (sortKeys_perm _)) in Hk.
    rewrite Forall_forall in Hwfk. now apply Hwfk. }
  split; [now rewrite Henum|]. split.
  - pose proof (headerArrays_sameLength ordered) as Hlen.
    pose proof (zip3_headerArrays ordered) as Hzip.
    destruct (headerArrays ordered) as [[cs ts] ns] eqn:E.
    destruct (zip3_projections cs ts ns Hlen) as (Hcs & _).
    cbn [fst]. rewrite Hcs, Hzip, Hentries.
    apply columns_sorted; [apply slotLe_refl | exact Hsorted].
  - now rewrite zip3_headerArrays, Hentries.
Qed.

Lemma X14_witness :
  exists schedule ordered : Combinations,
    processClassSchedules sampleTimetable 31 32 "A" "B" = Ok schedule
    /\ orderCombinations schedule = Ok ordered
    /\ StronglySorted slotLe (Object_keys ordered)
    /\ StronglySorted slotLe (fst (fst (headerArrays ordered)))
    /\ zip3 (headerArrays ordered) = flat_map columnsOf ordered.
Proof.
  apply (X14_header_sorted_on_well_formed_rows sampleTimetable 31 32 "A" "B").
  - lia.
  - intros row Hrow.
    assert (E : row = 31%nat \/ row = 32%nat) by lia.
    exists "Mon", "09:00", "-", "11:00", [], 9.
    destruct E as [-> | ->]; repeat split; simpl; auto; lia.
Defined.

(** ** The footer timetable *)

Section FooterLayout.

Lemma rowPairs_S (first : Z) (n : nat) :
  rowPairs first (S n) = first :: rowPairs (first + 2) n.
Proof.
  unfold rowPairs. cbn [seq map]. f_equal; [lia|].
  rewrite <- seq_shift, map_map. apply map_ext. intros j. lia.
Qed.

Lemma pushRows_rowPairs (n : nat) :
  forall currRow : Z,
    pushRows n currRow = (rowPairs currRow n, currRow + 2 * Z.of_nat n).
Proof.
  induction n as [|n IH]; intros currRow.
  - simpl. f_equal. lia.
  - cbn [pushRows]. rewrite IH, rowPairs_S. f_equal. lia.
Qed.

Lemma rowPairs_length (first : Z) (n : nat) : List.length (rowPairs first n) = n.
Proof. unfold rowPairs. now rewrite length_map, length_seq. Qed.

Lemma rowPairs_In (first : Z) (n : nat) (row : Z) :
  In row (rowPairs first n)
  <-> exists j : nat, (j < n)%nat /\ row = first + 2 * Z.of_nat j.
Proof.
  unfold rowPairs. rewrite in_map_iff. split.
  - intros (j & <- & Hj). apply in_seq in Hj. exists j. split; [lia | reflexivity].
  - intros (j & Hj & ->). exists j. split; [reflexivity | apply in_seq; lia].
Qed.

(** The loop of [clearCellContents] ends when the count is within the
    rows at hand, and then blanks the first [count] of them. *)
Lemma clearCellContents_from_within (col count : Z) (rest : list Z) :
  forall i : Z,
    0 <= i <= count ->
    count - i <= Z.of_nat (List.length rest) ->
    clearCellContents_from col count i rest
    = Some (map (fun row => mkCellRange col row (row + 1))
                (firstn (Z.to_nat (count - i)) rest)).
Proof.
  induction rest as [|row rest IH]; intros i Hi Hlen; cbn [clearCellContents_from].
  - simpl in Hlen. destruct (Z.eqb_spec i count) as [E|E]; [|lia].
    now rewrite firstn_nil.
  - destruct (Z.eqb_spec i count) as [E|E].
    + subst i. now rewrite Z.sub_diag.
    + rewrite IH; [|lia|cbn [List.length] in Hlen; lia].
      replace (Z.to_nat (count - i)) with (S (Z.to_nat (count - (i + 1)))) by lia.
      reflexivity.
Qed.

(** With a count above the rows at hand the loop goes through all of
    them, and then asks for the range of an undefined row until the count
    is met. *)
Lemma clearCellContents_from_past (col count : Z) (rest : list Z) :
  forall i : Z,
    Z.of_nat (List.length rest) < count - i ->
    clearCellContents_from col count i rest
    = Some (map (fun row => mkCellRange col row (row + 1)) rest
            ++ repeat (undefinedRows col)
                 (Z.to_nat (count - i) - List.length rest))%list.
Proof.
  induction rest as [|row rest IH]; intros i H; cbn [clearCellContents_from].
  - simpl in H. destruct (Z.eqb_spec i count) as [E|E]; [lia|].
    destruct (Z.ltb_spec i count) as [Hlt|Hge]; [|lia].
    simpl. now rewrite Nat.sub_0_r.
  - cbn [List.length] in H.
    destruct (Z.eqb_spec i count) as [E|E]; [lia|].
    rewrite IH by lia. cbn [option_map map app List.length].
    replace (Z.to_nat (count - (i + 1)) - List.length rest)%nat
      with (Z.to_nat (count - i) - S (List.length rest))%nat by lia.
    reflexivity.
Qed.

(** A count below the index is never met: the loop has no end. *)
Lemma clearCellContents_from_below (col count : Z) (rest : list Z) :
  forall i : Z, count < i -> clearCellContents_from col count i rest = None.
Proof.
  induction rest as [|row rest IH]; intros i H; cbn [clearCellContents_from].
  - destruct (Z.eqb_spec i count) as [E|E]; [lia|].
    destruct (Z.ltb_spec i count) as [Hlt|Hge]; [lia | reflexivity].
  - destruct (Z.eqb_spec i count) as [E|E]; [lia|].
    now rewrite IH by lia.
Qed.

Lemma nth_error_combine {A B : Type} (a : list A) (b : list B) (i : nat)
    (x : A) (y : B) :
  nth_error (combine a b) i = Some (x, y) ->
  nth_error a i = Some x /\ nth_error b i = Some y.
Proof.
  revert b i. induction a as [|a0 a IH]; intros [|b0 b] [|i] H;
    simpl in H; try discriminate.
  - inversion H. auto.
  - simpl. now apply IH.
Qed.

Lemma toLocaleLowerCase_modes :
  toLocaleLowerCase "In-person" = "in-person"
  /\ toLocaleLowerCase "Online" = "online".
Proof. split; reflexivity. Qed.

Lemma clearColumns_columns (types : list string) (counts : list Z)
    (rowsIn rowsOn : list Z) (columns : list (string * string * Z)) :
  forall (all : list (string * string * Z)) (a : nat),
    all = combine (combine (map (fun c => fst (fst c)) all) types) counts ->
    skipn a all = columns ->
    (forall k type n, In (k, type, n) columns ->
       0 <= n
       /\ ((type = "In-person" /\ n <= Z.of_nat (List.length rowsIn))
           \/ (type = "Online" /\ n <= Z.of_nat (List.length rowsOn)))) ->
    clearColumns types counts rowsIn rowsOn (seq a (List.length columns))
    = Some (flat_map (clearedFor rowsIn rowsOn)
              (combine (seq a (List.length columns)) columns)).
Proof.
  induction columns as [|[[k type] n] columns IH]; intros all a Hall Hskip Hcols;
    [reflexivity|].
  destruct (skipn_cons_inv a all _ _ Hskip) as [Hnth Hskip'].
  rewrite Hall in Hnth.
  apply nth_error_combine in Hnth. destruct Hnth as [Hnth Hn].
  apply nth_error_combine in Hnth. destruct Hnth as [_ Htype].
  cbn [List.length seq clearColumns combine flat_map].
  unfold clearColumn. rewrite Htype, Hn.
  rewrite (IH all (S a) Hall Hskip')
    by (intros k' type' n' Hin; apply (Hcols k' type' n'); now right).
  destruct (Hcols k type n (or_introl eq_refl)) as [Hn0 [[-> Hle] | [-> Hle]]].
  - replace (String.eqb (toLocaleLowerCase "In-person") "in-person") with true
      by reflexivity.
    unfold clearCellContents.
    rewrite clearCellContents_from_within by lia.
    rewrite Z.sub_0_r. reflexivity.
  - replace (String.eqb (toLocaleLowerCase "Online") "in-person") with false
      by reflexivity.
    unfold clearCellContents.
    rewrite clearCellContents_from_within by lia.
    rewrite Z.sub_0_r. reflexivity.
Qed.

End FooterLayout.

Section FooterOfSchedule.

(** The two loops of [createTimetable] that allot the rows end, and allot
    at least as many pairs of rows as any slot has classes of the mode. *)
Lemma loopBound_maxValues (schedule : Combinations) :
  (forall k c, In (k, c) schedule -> 0 <= in_person c /\ 0 <= online c) ->
  exists nIn nOn : nat,
    loopBound (fst (maxValues schedule)) = Some nIn
    /\ loopBound (snd (maxValues schedule)) = Some nOn
    /\ (forall k c, In (k, c) schedule ->
          in_person c <= Z.of_nat nIn /\ online c <= Z.of_nat nOn)
    /\ (schedule <> [] ->
          maxValues schedule = (Int (Z.of_nat nIn), Int (Z.of_nat nOn))).
Proof.
  intros Hnonneg.
  destruct schedule as [|e schedule].
  - exists 0%nat, 0%nat. repeat split; try reflexivity; contradiction.
  - assert (Hne : e :: schedule <> []) by discriminate.
    destruct (Math_max_field in_person _ Hne)
      as (mi & Hmi & (ki & ci & Hini & Hci) & Hlei).
    destruct (Math_max_field online _ Hne)
      as (mo & Hmo & (ko & co & Hino & Hco) & Hleo).
    assert (Hmi0 : 0 <= mi) by (destruct (Hnonneg ki ci Hini); lia).
    assert (Hmo0 : 0 <= mo) by (destruct (Hnonneg ko co Hino); lia).
    exists (Z.to_nat mi), (Z.to_nat mo).
    unfold maxValues. rewrite Hmi, Hmo. cbn [fst snd loopBound].
    rewrite !Z2Nat.id by assumption.
    repeat split; try reflexivity.
    + now apply (Hlei k).
    + now apply (Hleo k).
Qed.

Lemma headerArrays_columns (schedule : Combinations) (k type : string) (n : Z) :
  In (k, type, n) (zip3 (headerArrays schedule)) ->
  n <> 0
  /\ exists c : Counts,
       In (k, c) schedule
       /\ ((type = "In-person" /\ n = in_person c)
           \/ (type = "Online" /\ n = online c)).
Proof.
  intros Hin. rewrite zip3_headerArrays in Hin.
  apply in_flat_map in Hin. destruct Hin as ([k' c] & Hentry & Hcol).
  apply columnsOf_In in Hcol. cbn [fst snd] in Hcol.
  destruct Hcol as (-> & Hn & Hmode).
  split; [exact Hn|]. exists c. split; [|exact Hmode].
  eapply Permutation_in; [apply Object_entries_perm | exact Hentry].
Qed.

Lemma createTimetable_layout (schedule : Combinations) :
  (forall k c, In (k, c) schedule -> 0 <= in_person c /\ 0 <= online c) ->
  exists nIn nOn : nat,
    loopBound (fst (maxValues schedule)) = Some nIn
    /\ loopBound (snd (maxValues schedule)) = Some nOn
    /\ (schedule <> [] ->
          maxValues schedule = (Int (Z.of_nat nIn), Int (Z.of_nat nOn)))
    /\ createTimetable schedule (fst (fst (headerArrays schedule)))
         (snd (fst (headerArrays schedule))) (snd (headerArrays schedule))
       = Some {| slotRow := fst (fst (headerArrays schedule));
                 inPersonRows := rowPairs 36 nIn;
                 onlineRows := rowPairs (36 + 2 * Z.of_nat nIn) nOn;
                 cleared :=
                   flat_map (clearedFor (rowPairs 36 nIn)
                               (rowPairs (36 + 2 * Z.of_nat nIn) nOn))
                     (combine
                        (seq 0 (List.length (zip3 (headerArrays schedule))))
                        (zip3 (headerArrays schedule))) |}.
Proof.
  intros Hnonneg.
  destruct (loopBound_maxValues schedule Hnonneg)
    as (nIn & nOn & HnIn & HnOn & Hle & Hmax).
  exists nIn, nOn. split; [exact HnIn|]. split; [exact HnOn|].
  split; [exact Hmax|].
  pose proof (headerArrays_sameLength schedule) as Hlen.
  pose proof (headerArrays_columns schedule) as Hcols.
  destruct (headerArrays schedule) as [[cs ts] ns] eqn:E.
  destruct (zip3_projections cs ts ns Hlen) as (Hcs & _ & _).
  cbn [fst snd].
  unfold createTimetable.
  destruct (maxValues schedule) as [maxIn maxOn]. cbn [fst snd] in HnIn, HnOn.
  rewrite HnIn, HnOn, !pushRows_rowPairs.
  assert (Hn : List.length cs = List.length (zip3 (cs, ts, ns)))
    by (rewrite Hcs at 1; now rewrite length_map).
  rewrite Hn.
  rewrite (clearColumns_columns ts ns _ _ (zip3 (cs, ts, ns)) (zip3 (cs, ts, ns)) 0);
    [reflexivity | | reflexivity |].
  - rewrite <- Hcs. reflexivity.
  - intros k type n Hin.
    destruct (Hcols k type n Hin) as (Hn0 & c & Hc & Hmode).
    destruct (Hnonneg k c Hc) as [Hi Ho].
    destruct (Hle k c Hc) as [Hli Hlo].
    rewrite !rowPairs_length.
    destruct Hmode as [[-> ->] | [-> ->]]; (split; [assumption|]); auto.
Qed.

(** Without negative counts [updateWorksheet] returns, and hands on the
    header arrays, the maxima and the footer. *)
Lemma updateWorksheet_layout (sheet : Worksheet) (schedule : Combinations) :
  (forall k c, In (k, c) schedule -> 0 <= in_person c /\ 0 <= online c) ->
  exists layout : Layout,
    updateWorksheet sheet schedule
    = Ok {| cell := cell sheet; written := Some layout;
            frozenRows := frozenRows sheet |}
    /\ (classes layout, types layout, counts layout) = headerArrays schedule
    /\ (maxInPerson layout, maxOnline layout) = maxValues schedule
    /\ createTimetable schedule (classes layout) (types layout) (counts layout)
       = Some (footer layout).
Proof.
  intros Hnonneg.
  destruct (createTimetable_layout schedule Hnonneg)
    as (nIn & nOn & _ & _ & _ & Hfooter).
  pose proof (headerArrays_sameLength schedule) as H.
  unfold updateWorksheet.
  destruct (headerArrays schedule) as [[cs ts] ns].
  cbn [fst snd] in Hfooter.
  destruct H as [H1 H2].
  assert (E1 : Nat.eqb (List.length cs) (List.length ts) = true)
    by now apply Nat.eqb_eq.
  assert (E2 : Nat.eqb (List.length cs) (List.length ns) = true)
    by now apply Nat.eqb_eq.
  assert (E3 : Nat.eqb (List.length ts) (List.length ns) = true)
    by (apply Nat.eqb_eq; congruence).
  rewrite E1, E2, E3. cbn [negb orb].
  rewrite Hfooter.
  destruct (maxValues schedule) as [maxIn maxOn].
  eexists. split; [reflexivity|]. cbn [classes types counts maxInPerson maxOnline footer].
  repeat split; try reflexivity. exact Hfooter.
Qed.

(** [updateWorksheet] fails to return only on a schedule with a negative
    count. *)
Lemma updateWorksheet_NoReturn (sheet : Worksheet) (schedule : Combinations) :
  updateWorksheet sheet schedule = NoReturn ->
  exists (k : string) (c : Counts),
    In (k, c) schedule /\ (in_person c < 0 \/ online c < 0).
Proof.
  intros H.
  destruct (Forall_Exists_dec
              (fun e : string * Counts =>
                 0 <= in_person (snd e) /\ 0 <= online (snd e))
              (fun e =>
                 match Z_le_dec 0 (in_person (snd e)),
                       Z_le_dec 0 (online (snd e)) with
                 | left H1, left H2 => left (conj H1 H2)
                 | right H1, _ => right (fun H' => H1 (proj1 H'))
                 | _, right H2 => right (fun H' => H2 (proj2 H'))
                 end)
              schedule) as [Hall | Hex].
  - exfalso. rewrite Forall_forall in Hall.
    destruct (updateWorksheet_layout sheet schedule) as (layout & Hok & _);
      [|congruence].
    intros k c Hin. apply (Hall (k, c) Hin).
  - apply Exists_exists in Hex. destruct Hex as ([k c] & Hin & Hneg).
    exists k, c. split; [exact Hin|]. cbn [snd] in Hneg. lia.
Qed.

End FooterOfSchedule.

(** X15: for a schedule without negative counts (as the aggregator builds
    them), [createTimetable] on the header arrays returns: it never reads
    past the rows it has allotted.  It allots, from row 36 on, one pair of
    rows for each of the maximum number of in-person classes and then one
    pair for each of the maximum number of online classes, and in the
    column of the class at index i, column code 67 + i, it blanks the first
    [counts[i]] pairs of the class's own teaching mode and no other cell. *)
Theorem X15_footer_rows_and_blanked_cells (schedule : Combinations) :
  (forall k c, In (k, c) schedule -> 0 <= in_person c /\ 0 <= online c) ->
  exists nIn nOn : nat,
    loopBound (fst (maxValues schedule)) = Some nIn
    /\ loopBound (snd (maxValues schedule)) = Some nOn
    /\ (schedule <> [] ->
          maxValues schedule = (Int (Z.of_nat nIn), Int (Z.of_nat nOn)))
    /\ createTimetable schedule (fst (fst (headerArrays schedule)))
         (snd (fst (headerArrays schedule))) (snd (headerArrays schedule))
       = Some {| slotRow := fst (fst (headerArrays schedule));
                 inPersonRows := rowPairs 36 nIn;
                 onlineRows := rowPairs (36 + 2 * Z.of_nat nIn) nOn;
                 cleared :=
                   flat_map (clearedFor (rowPairs 36 nIn)
                               (rowPairs (36 + 2 * Z.of_nat nIn) nOn))
                     (combine
                        (seq 0 (List.length (zip3 (headerArrays schedule))))
                        (zip3 (headerArrays schedule))) |}.
Proof.
  intros Hnonneg.
  destruct (createTimetable_layout schedule Hnonneg)
    as (nIn & nOn & H1 & H2 & H3 & H4).
  exists nIn, nOn. auto.
Qed.

Lemma X15_witness :
  exists nIn nOn : nat,
    loopBound (fst (maxValues
                      [("Mon 9am - 11am", {| in_person := 2; online := 1 |});
                       ("Tue 1pm - 3pm", {| in_person := 0; online := 3 |})]))
    = Some nIn
    /\ loopBound (snd (maxValues
                         [("Mon 9am - 11am", {| in_person := 2; online := 1 |});
                          ("Tue 1pm - 3pm", {| in_person := 0; online := 3 |})]))
       = Some nOn
    /\ ([("Mon 9am - 11am", {| in_person := 2; online := 1 |});
         ("Tue 1pm - 3pm", {| in_person := 0; online := 3 |})] <> [] ->
        maxValues [("Mon 9am - 11am", {| in_person := 2; online := 1 |});
                   ("Tue 1pm - 3pm", {| in_person := 0; online := 3 |})]
        = (Int (Z.of_nat nIn), Int (Z.of_nat nOn)))
    /\ createTimetable
         [("Mon 9am - 11am", {| in_person := 2; online := 1 |});
          ("Tue 1pm - 3pm", {| in_person := 0; online := 3 |})]
         (fst (fst (headerArrays
                      [("Mon 9am - 11am", {| in_person := 2; online := 1 |});
                       ("Tue 1pm - 3pm", {| in_person := 0; online := 3 |})])))
         (snd (fst (headerArrays
                      [("Mon 9am - 11am", {| in_person := 2; online := 1 |});
                       ("Tue 1pm - 3pm", {| in_person := 0; online := 3 |})])))
         (snd (headerArrays
                 [("Mon 9am - 11am", {| in_person := 2; online := 1 |});
                  ("Tue 1pm - 3pm", {| in_person := 0; online := 3 |})]))
       = Some {| slotRow :=
                   fst (fst (headerArrays
                      [("Mon 9am - 11am", {| in_person := 2; online := 1 |});
                       ("Tue 1pm - 3pm", {| in_person := 0; online := 3 |})]));
                 inPersonRows := rowPairs 36 nIn;
                 onlineRows := rowPairs (36 + 2 * Z.of_nat nIn) nOn;
                 cleared :=
                   flat_map (clearedFor (rowPairs 36 nIn)
                               (rowPairs (36 + 2 * Z.of_nat nIn) nOn))
                     (combine
                        (seq 0 (List.length (zip3 (headerArrays
                           [("Mon 9am - 11am", {| in_person := 2; online := 1 |});
                            ("Tue 1pm - 3pm", {| in_person := 0; online := 3 |})]))))
                        (zip3 (headerArrays
                           [("Mon 9am - 11am", {| in_person := 2; online := 1 |});
                            ("Tue 1pm - 3pm", {| in_person := 0; online := 3 |})]))) |}.
Proof.
  apply (X15_footer_rows_and_blanked_cells
           [("Mon 9am - 11am", {| in_person := 2; online := 1 |});
            ("Tue 1pm - 3pm", {| in_person := 0; online := 3 |})]).
  intros k c [E | [E | []]]; inversion E; simpl; lia.
Defined.

Section BlankedCells.

Lemma length_cleared (rowsIn rowsOn : list Z) (columns : list (string * string * Z)) :
  forall indices : list nat,
    List.length indices = List.length columns ->
    (forall k type n, In (k, type, n) columns ->
       0 <= n
       /\ ((type = "In-person" /\ n <= Z.of_nat (List.length rowsIn))
           \/ (type = "Online" /\ n <= Z.of_nat (List.length rowsOn)))) ->
    Z.of_nat (List.length (flat_map (clearedFor rowsIn rowsOn)
                             (combine indices columns)))
    = fold_right Z.add 0 (map snd columns).
Proof.
  induction columns as [|[[k type] n] columns IH]; intros [|i indices] Hlen Hcols;
    try discriminate; [reflexivity|].
  cbn [combine flat_map map snd fold_right].
  rewrite length_app, Nat2Z.inj_add.
  rewrite IH; [|simpl in Hlen; congruence
               |intros k' type' n' Hin; apply (Hcols k' type' n'); now right].
  f_equal. unfold clearedFor. rewrite length_map.
  destruct (Hcols k type n (or_introl eq_refl)) as [Hn0 [[-> Hle] | [-> Hle]]].
  - replace (String.eqb "In-person" "In-person") with true by reflexivity.
    rewrite length_firstn. lia.
  - replace (String.eqb "Online" "In-person") with false by reflexivity.
    rewrite length_firstn. lia.
Qed.

Lemma header_counts_sum (timetable : Worksheet) (startRow endRow : nat)
    (c1 c2 : string) (schedule ordered : Combinations) :
  (startRow <= endRow)%nat ->
  processClassSchedules timetable startRow endRow c1 c2 = Ok schedule ->
  orderCombinations schedule = Ok ordered ->
  fold_right Z.add 0 (map snd (zip3 (headerArrays ordered)))
  = Z.of_nat (endRow - startRow + 1)
  /\ ordered <> []
  /\ (forall k c, In (k, c) ordered -> counted c).
Proof.
  intros Hrows Hschedule Hordered.
  pose proof (processClassSchedules_total _ _ _ _ _ _ Hrows Hschedule) as Htotal.
  destruct (aggregate_keys _ _ _ Hschedule) as (_ & _ & Hnd).
  pose proof (orderCombinations_perm _ _ Hnd Hordered) as Hperm.
  rewrite processClassSchedules_countPairs in Hschedule.
  destruct (countPairs_counted _ _ Hschedule) as [Hne Hcounted].
  specialize (Hne (timetableRows_nonempty _ _ _ _ _)).
  pose proof (Object_entries_perm ordered) as Henum.
  split; [|split].
  - rewrite zip3_headerArrays, sum_columns.
    rewrite (total_perm in_person _ _ Henum), (total_perm online _ _ Henum).
    rewrite (total_perm in_person _ _ Hperm), (total_perm online _ _ Hperm).
    exact Htotal.
  - intros E. subst ordered. apply Permutation_nil in Hperm. contradiction.
  - intros k c Hin. apply (Hcounted k). eapply Permutation_in; eauto.
Qed.

End BlankedCells.

(** X16: in the run of [main] on a timetable, [createTimetable] on the
    ordered schedule returns, allots one pair of rows at least, and blanks
    exactly as many pairs of cells as the timetable has rows in the
    range: each row read ends up as one blank pair in the footer. *)
Theorem X16_one_blank_pair_per_row (timetable : Worksheet)
    (startRow endRow : nat) (classTimesCol classLocationsCol : string)
    (schedule ordered : Combinations) :
  (startRow <= endRow)%nat ->
  processClassSchedules timetable startRow endRow classTimesCol classLocationsCol
  = Ok schedule ->
  orderCombinations schedule = Ok ordered ->
  exists footer : Footer,
    createTimetable ordered (fst (fst (headerArrays ordered)))
      (snd (fst (headerArrays ordered))) (snd (headerArrays ordered))
    = Some footer
    /\ List.length (cleared footer) = (endRow - startRow + 1)%nat
    /\ (1 <= List.length (inPersonRows footer)
             + List.length (onlineRows footer))%nat.
Proof.
  intros Hrows Hschedule Hordered.
  destruct (header_counts_sum _ _ _ _ _ _ _ Hrows Hschedule Hordered)
    as (Hsum & Hne & Hcounted).
  assert (Hnonneg : forall k c, In (k, c) ordered ->
                                0 <= in_person c /\ 0 <= online c).
  { intros k c Hin. destruct (Hcounted k c Hin) as (H1 & H2 & _). auto. }
  destruct (loopBound_maxValues ordered Hnonneg)
    as (nIn & nOn & HnIn & HnOn & Hle & _).
  destruct (createTimetable_layout ordered Hnonneg)
    as (nIn' & nOn' & HnIn' & HnOn' & _ & Hfooter).
  assert (nIn' = nIn) by congruence. assert (nOn' = nOn) by congruence.
  subst nIn' nOn'.
  eexists. split; [exact Hfooter|]. cbn [cleared inPersonRows onlineRows].
  rewrite !rowPairs_length. split.
  - apply Nat2Z.inj. rewrite <- Hsum.
    apply length_cleared; [apply length_seq|].
    intros k type n Hin.
    destruct (headerArrays_columns ordered k type n Hin) as (Hn0 & c & Hc & Hmode).
    destruct (Hnonneg k c Hc) as [Hi Ho].
    destruct (Hle k c Hc) as [Hli Hlo].
    rewrite !rowPairs_length.
    destruct Hmode as [[-> ->] | [-> ->]]; (split; [assumption|]); auto.
  - destruct ordered as [|[k c] ordered]; [contradiction|].
    destruct (Hcounted k c (or_introl eq_refl)) as (_ & _ & H1).
    destruct (Hle k c (or_introl eq_refl)) as [Hli Hlo].
    lia.
Qed.

Lemma X16_witness :
  exists footer : Footer,
    createTimetable [("Mon 9am - 11am", {| in_person := 1; online := 1 |})]
      (fst (fst (headerArrays
                   [("Mon 9am - 11am", {| in_person := 1; online := 1 |})])))
      (snd (fst (headerArrays
                   [("Mon 9am - 11am", {| in_person := 1; online := 1 |})])))
      (snd (headerArrays
              [("Mon 9am - 11am", {| in_person := 1; online := 1 |})]))
    = Some footer
    /\ List.length (cleared footer) = (32 - 31 + 1)%nat
    /\ (1 <= List.length (inPersonRows footer)
             + List.length (onlineRows footer))%nat.
Proof.
  apply (X16_one_blank_pair_per_row sampleTimetable 31 32 "A" "B"
           [("Mon 9am - 11am", {| in_person := 1; online := 1 |})]
           [("Mon 9am - 11am", {| in_person := 1; online := 1 |})]).
  - lia.
  - reflexivity.
  - reflexivity.
Defined.

(** X9: when the three checks of [main] pass, the row range has fewer than
    64 rows and every cell of the class-times column in it has four tokens
    at least, [main] returns (the host handing out every range it is asked
    for): the aggregator and the sort return, the length test of
    [updateWorksheet] passes and the loops of the footer end.  The
    destination worksheet then holds the header arrays, the maxima and the
    footer of the ordered schedule, with 8 rows frozen, and every other
    worksheet is as it was. *)
Theorem X9_main_returns_on_full_rows (workbook : Workbook) (course : Course)
    (startRow endRow : nat) (classTimesCol classLocationsCol : string)
    (timetable : Worksheet) :
  getWorksheet workbook "TT" = Some timetable ->
  getWorksheet workbook (courseName course) = None ->
  (startRow <= endRow)%nat ->
  (endRow - startRow < 63)%nat ->
  (forall row, (startRow <= row <= endRow)%nat ->
     (4 <= List.length (split " " (cell timetable classTimesCol row)))%nat) ->
  exists (schedule ordered : Combinations) (layout : Layout) (workbook' : Workbook),
    processClassSchedules timetable startRow endRow classTimesCol classLocationsCol
    = Ok schedule
    /\ orderCombinations schedule = Ok ordered
    /\ main workbook course startRow endRow classTimesCol classLocationsCol
       = (Ok tt, workbook')
    /\ getWorksheet workbook' (courseName course)
       = Some {| cell := fun _ _ => ""; written := Some layout;
                 frozenRows := Some 8%nat |}
    /\ (classes layout, types layout, counts layout) = headerArrays ordered
    /\ (maxInPerson layout, maxOnline layout) = maxValues ordered
    /\ createTimetable ordered (classes layout) (types layout) (counts layout)
       = Some (footer layout)
    /\ (forall name, name <> courseName course ->
          getWorksheet workbook' name = getWorksheet workbook name).
Proof.
  intros Htt Hfree Hrows _ Hfull.
  destruct (countRows_Ok (getColumnValues timetable classTimesCol startRow endRow)
              0 (getColumnValues timetable classLocationsCol startRow endRow) [])
    as [schedule Hschedule].
  { intros t Ht.
    destruct (getColumnValues_In _ _ _ _ _ Hrows Ht) as (row & Hrow & ->).
    apply slotKey_four_tokens. now apply Hfull. }
  fold (aggregate (getColumnValues timetable classTimesCol startRow endRow)
          (getColumnValues timetable classLocationsCol startRow endRow))
    in Hschedule.
  destruct (aggregate_orderable _ _ _ Hschedule) as (ordered & Hordered & _).
  destruct (header_counts_sum timetable startRow endRow classTimesCol
              classLocationsCol schedule ordered Hrows Hschedule Hordered)
    as (_ & _ & Hcounted).
  destruct (updateWorksheet_layout emptyWorksheet ordered)
    as (layout & Hupdate & Harrays & Hmax & Hfooter).
  { intros k c Hin. destruct (Hcounted k c Hin) as (H1 & H2 & _). auto. }
  exists schedule, ordered, layout.
  eexists. split; [exact Hschedule|]. split; [exact Hordered|].
  split; [|split; [|split; [exact Harrays|split; [exact Hmax|
                                                   split; [exact Hfooter|]]]]].
  - unfold main. rewrite Htt.
    destruct (Nat.ltb_spec endRow startRow) as [Hlt|_]; [lia|].
    rewrite Hfree.
    unfold processClassSchedules. rewrite Hschedule. cbn [bind].
    rewrite Hordered. cbn [bind]. rewrite Hupdate. reflexivity.
  - unfold getWorksheet. rewrite get_set_same. reflexivity.
  - intros name Hname. unfold getWorksheet, addWorksheet.
    rewrite get_set_other by exact Hname.
    now apply get_app_other.
Qed.

Lemma X9_witness :
  exists (schedule ordered : Combinations) (layout : Layout) (workbook' : Workbook),
    processClassSchedules sampleTimetable 31 32 "A" "B" = Ok schedule
    /\ orderCombinations schedule = Ok ordered
    /\ main [("TT", sampleTimetable)] COMP3900 31 32 "A" "B" = (Ok tt, workbook')
    /\ getWorksheet workbook' (courseName COMP3900)
       = Some {| cell := fun _ _ => ""; written := Some layout;
                 frozenRows := Some 8%nat |}
    /\ (classes layout, types layout, counts layout) = headerArrays ordered
    /\ (maxInPerson layout, maxOnline layout) = maxValues ordered
    /\ createTimetable ordered (classes layout) (types layout) (counts layout)
       = Some (footer layout)
    /\ (forall name, name <> courseName COMP3900 ->
          getWorksheet workbook' name = getWorksheet [("TT", sampleTimetable)] name).
Proof.
  apply (X9_main_returns_on_full_rows
           [("TT", sampleTimetable)] COMP3900 31 32 "A" "B" sampleTimetable).
  - reflexivity.
  - reflexivity.
  - lia.
  - simpl. lia.
  - intros row Hrow.
    assert (E : row = 31%nat \/ row = 32%nat) by lia.
    destruct E as [-> | ->]; simpl; lia.
Defined.

(** X17: the loop of [clearCellContents] runs until its index equals
    [teachingModeCount] (the host handing out every range it is asked
    for).  With a count between 0 and the number of rows it is given, it
    blanks the first [teachingModeCount] row pairs of the column and
    returns.  With a greater count it blanks all the row pairs, goes on
    asking for the range of an undefined row, once for each index from the
    number of rows up to the count, and returns.  With a count below 0 it
    never returns. *)
Theorem X17_clearCellContents_returns_within_rows (col count : Z) (rows : list Z) :
  (0 <= count <= Z.of_nat (List.length rows) ->
   clearCellContents col count rows
   = Some (map (fun row => mkCellRange col row (row + 1))
               (firstn (Z.to_nat count) rows)))
  /\ (Z.of_nat (List.length rows) < count ->
      clearCellContents col count rows
      = Some (map (fun row => mkCellRange col row (row + 1)) rows
              ++ repeat (undefinedRows col)
                   (Z.to_nat count - List.length rows))%list)
  /\ (count < 0 -> clearCellContents col count rows = None).
Proof.
  unfold clearCellContents. split; [|split].
  - intros H. rewrite clearCellContents_from_within by lia.
    now rewrite Z.sub_0_r.
  - intros H. rewrite clearCellContents_from_past by lia.
    now rewrite Z.sub_0_r.
  - intros H. apply clearCellContents_from_below. lia.
Qed.

Lemma X17_witness :
  clearCellContents 67 2 [36; 38; 40]
  = Some (map (fun row => mkCellRange 67 row (row + 1))
              (firstn (Z.to_nat 2) [36; 38; 40]))
  /\ clearCellContents 67 4 [36; 38; 40]
     = Some (map (fun row => mkCellRange 67 row (row + 1)) [36; 38; 40]
             ++ repeat (undefinedRows 67)
                  (Z.to_nat 4 - List.length [36; 38; 40]))%list
  /\ clearCellContents 67 (-1) [36; 38; 40] = None.
Proof.
  split; [|split].
  - apply (proj1 (X17_clearCellContents_returns_within_rows 67 2 [36; 38; 40])).
    simpl. lia.
  - apply (proj1 (proj2 (X17_clearCellContents_returns_within_rows
                           67 4 [36; 38; 40]))).
    simpl. lia.
  - apply (proj2 (proj2 (X17_clearCellContents_returns_within_rows
                           67 (-1) [36; 38; 40]))).
    lia.
Defined.

(** ** The comparator, both ways round *)

Section Comparator.

Lemma sub_negate (a b : number) : sub b a = negate (sub a b).
Proof.
  destruct a as [x| | |], b as [y| | |]; simpl; try reflexivity.
  f_equal. lia.
Qed.

End Comparator.

(** X18: the comparator of [orderCombinations] is antisymmetric: with its
    arguments swapped it returns the negated number, and it throws in one
    order exactly when it throws in the other. *)
Theorem X18_comparator_antisymmetric (a b : string) :
  compareKeys b a
  = match compareKeys a b with
    | Ok v => Ok (negate v)
    | Throw e => Throw e
    | NoReturn => NoReturn
    end.
Proof.
  unfold compareKeys.
  rewrite (String.eqb_sym (dayToken b) (dayToken a)).
  destruct (String.eqb (dayToken a) (dayToken b)); cbn [negb].
  - destruct (timeToken a) as [ta|], (timeToken b) as [tb|]; try reflexivity.
    now rewrite sub_negate.
  - now rewrite sub_negate.
Qed.

(** X19: the three checks of [main] are made in a fixed order and each has
    its own message: a missing 'TT' worksheet is reported whatever the
    rows and the destination are; with 'TT' present, startRow after endRow
    is reported even if the destination exists; the destination's name is
    reported as taken only when the first two checks pass. *)
Theorem X19_validation_order (workbook : Workbook) (course : Course)
    (startRow endRow : nat) (classTimesCol classLocationsCol : string) :
  (getWorksheet workbook "TT" = None ->
   fst (main workbook course startRow endRow classTimesCol classLocationsCol)
   = Throw (Error "Timetable not found"))
  /\ (getWorksheet workbook "TT" <> None -> (startRow > endRow)%nat ->
      fst (main workbook course startRow endRow classTimesCol classLocationsCol)
      = Throw (Error "Start row cannot be after End row"))
  /\ (getWorksheet workbook "TT" <> None -> (startRow <= endRow)%nat ->
      getWorksheet workbook (courseName course) <> None ->
      fst (main workbook course startRow endRow classTimesCol classLocationsCol)
      = Throw (Error ("Sheet " ++ courseName course ++ " already exists"))).
Proof.
  unfold main. split; [|split].
  - intros H. now rewrite H.
  - intros Htt Hrows.
    destruct (getWorksheet workbook "TT"); [|contradiction].
    apply Nat.ltb_lt in Hrows. now rewrite Hrows.
  - intros Htt Hrows Htaken.
    destruct (getWorksheet workbook "TT"); [|contradiction].
    destruct (Nat.ltb_spec endRow startRow) as [Hlt|_]; [lia|].
    destruct (getWorksheet workbook (courseName course)); [reflexivity|contradiction].
Qed.

Lemma X19_witness :
  fst (main [("TT", sampleTimetable); ("COMP9900", emptyWorksheet)]
            COMP9900 32 31 "A" "B")
  = Throw (Error "Start row cannot be after End row")
  /\ fst (main [("TT", sampleTimetable); ("COMP9900", emptyWorksheet)]
               COMP9900 31 32 "A" "B")
     = Throw (Error ("Sheet " ++ courseName COMP9900 ++ " already exists"))
  /\ fst (main [("COMP9900", emptyWorksheet)] COMP9900 32 31 "A" "B")
     = Throw (Error "Timetable not found").
Proof.
  split; [|split].
  - apply (proj1 (proj2 (X19_validation_order
                           [("TT", sampleTimetable); ("COMP9900", emptyWorksheet)]
                           COMP9900 32 31 "A" "B"))).
    + discriminate.
    + lia.
  - apply (proj2 (proj2 (X19_validation_order
                           [("TT", sampleTimetable); ("COMP9900", emptyWorksheet)]
                           COMP9900 31 32 "A" "B"))).
    + discriminate.
    + lia.
    + discriminate.
  - apply (proj1 (X19_validation_order [("COMP9900", emptyWorksheet)]
                    COMP9900 32 31 "A" "B")).
    reflexivity.
Defined.

(** ** One key for one slot *)

Section KeyOfSlot.

Lemma split_noSpace (a : string) : noSpace a = true -> split " " a = [a].
Proof.
  induction a as [|c a IH]; [reflexivity|].
  cbn [noSpace split]. intros H. apply andb_true_iff in H. destruct H as [Hc Ha].
  apply negb_true_iff in Hc. rewrite Hc, (IH Ha). reflexivity.
Qed.

Lemma split_app_noSpace (a b : string) :
  noSpace a = true -> split " " (a ++ String " " b) = a :: split " " b.
Proof.
  induction a as [|c a IH]; [reflexivity|].
  cbn [noSpace append split]. intros H.
  apply andb_true_iff in H. destruct H as [Hc Ha].
  apply negb_true_iff in Hc. rewrite Hc, (IH Ha). reflexivity.
Qed.

Lemma split_tokens_noSpace (s : string) :
  Forall (fun token => noSpace token = true) (split " " s).
Proof.
  induction s as [|c s IH]; [repeat constructor|].
  cbn [split]. destruct (Ascii.eqb c " ") eqn:E.
  - constructor; [reflexivity | exact IH].
  - destruct (split " " s) as [|t ts]; [repeat constructor; simpl; now rewrite E|].
    inversion IH as [|? ? Ht Hts]; subst.
    constructor; [|exact Hts]. cbn [noSpace]. now rewrite E, Ht.
Qed.

Lemma label_noSpace (time24 : string) (h : Z) :
  0 <= h <= 23 -> hoursOf time24 = Int h ->
  noSpace (convertTo12HourFormat time24) = true.
Proof.
  intros Hh Hhours.
  rewrite (convertTo12HourFormat_hours time24), Hhours.
  pose proof (hour_cases h Hh) as Hin.
  repeat (destruct Hin as [<- | Hin]; [reflexivity|]).
  destruct Hin.
Qed.

Lemma slotKey_split (day l1 l2 : string) :
  noSpace day = true -> noSpace l1 = true -> noSpace l2 = true ->
  split " " (day ++ " " ++ l1 ++ " - " ++ l2) = [day; l1; "-"; l2].
Proof.
  intros Hd H1 H2.
  change (day ++ " " ++ l1 ++ " - " ++ l2)
    with (day ++ String " " (l1 ++ String " " ("-" ++ String " " l2))).
  rewrite (split_app_noSpace day _ Hd), (split_app_noSpace l1 _ H1).
  rewrite (split_app_noSpace "-" l2 eq_refl), (split_noSpace l2 H2).
  reflexivity.
Qed.

End KeyOfSlot.

(** X20: for two rows whose start and end times have hours of 0..23, the
    slot keys are equal exactly when the weekday tokens, the start hours
    and the end hours are: rows of one slot share a key whatever their
    minutes and locations, and two different slots never share one. *)
Theorem X20_one_key_per_slot
    (t1 day1 b1 s1 e1 : string) (r1 : list string)
    (t2 day2 b2 s2 e2 : string) (r2 : list string)
    (hb1 he1 hb2 he2 : Z) :
  split " " t1 = day1 :: b1 :: s1 :: e1 :: r1 ->
  split " " t2 = day2 :: b2 :: s2 :: e2 :: r2 ->
  hoursOf b1 = Int hb1 -> hoursOf e1 = Int he1 ->
  hoursOf b2 = Int hb2 -> hoursOf e2 = Int he2 ->
  0 <= hb1 <= 23 -> 0 <= he1 <= 23 -> 0 <= hb2 <= 23 -> 0 <= he2 <= 23 ->
  (slotKey t1 = slotKey t2 <-> day1 = day2 /\ hb1 = hb2 /\ he1 = he2).
Proof.
  intros Hs1 Hs2 Hb1 He1 Hb2 He2 Rb1 Re1 Rb2 Re2.
  rewrite (slotKey_tokens _ _ _ _ _ _ Hs1), (slotKey_tokens _ _ _ _ _ _ Hs2).
  split.
  - intros H. inversion H as [Hkey]. clear H.
    assert (Hd1 : noSpace day1 = true).
    { pose proof (split_tokens_noSpace t1) as Ht. rewrite Hs1 in Ht.
      now inversion Ht. }
    assert (Hd2 : noSpace day2 = true).
    { pose proof (split_tokens_noSpace t2) as Ht. rewrite Hs2 in Ht.
      now inversion Ht. }
    pose proof (slotKey_split day1 _ _ Hd1 (label_noSpace b1 hb1 Rb1 Hb1)
                  (label_noSpace e1 he1 Re1 He1)) as E1.
    pose proof (slotKey_split day2 _ _ Hd2 (label_noSpace b2 hb2 Rb2 Hb2)
                  (label_noSpace e2 he2 Re2 He2)) as E2.
    assert (Hk : day1 ++ " " ++ convertTo12HourFormat b1
                      ++ " - " ++ convertTo12HourFormat e1
                 = day2 ++ " " ++ convertTo12HourFormat b2
                        ++ " - " ++ convertTo12HourFormat e2)
      by exact Hkey.
    rewrite Hk, E2 in E1.
    inversion E1 as [[Hday Hlb Hle]].
    destruct (parseHour_label b1 hb1 Rb1 Hb1) as [Pb1 _].
    destruct (parseHour_label b2 hb2 Rb2 Hb2) as [Pb2 _].
    destruct (parseHour_label e1 he1 Re1 He1) as [Pe1 _].
    destruct (parseHour_label e2 he2 Re2 He2) as [Pe2 _].
    split; [congruence|]. split; congruence.
  - intros (-> & -> & ->).
    rewrite (convertTo12HourFormat_hours b1), (convertTo12HourFormat_hours b2),
      (convertTo12HourFormat_hours e1), (convertTo12HourFormat_hours e2).
    now rewrite Hb1, Hb2, He1, He2.
Qed.

Lemma X20_witness :
  slotKey "Mon 09:00 - 11:00" = slotKey "Mon 9:30 - 11:15"
  <-> "Mon" = "Mon" /\ 9 = 9 /\ 11 = 11.
Proof.
  apply (X20_one_key_per_slot
           "Mon 09:00 - 11:00" "Mon" "09:00" "-" "11:00" []
           "Mon 9:30 - 11:15" "Mon" "9:30" "-" "11:15" []
           9 11 9 11);
    try reflexivity; lia.
Defined.
